(** * Interference analysis engine of the mesh frequency tool

    A shallow embedding of [interference_detection.py]: the device registry
    ([load_devices]), the pairwise overlap analyzer
    ([detect_frequency_interference], [_calculate_spatial_overlap]), the
    scorer ([_calculate_interference_score]), the recommendation engine
    ([_generate_recommendation], [_find_alternative_frequency]), the cluster
    analyzer ([cluster_interference_issues]) and the report assembler
    ([generate_interference_report]); and of the conflict query
    ([get_frequency_conflicts]) of [frequency_database.py].

    Numbers are real numbers: a Python [int] or [float] read from a JSON
    record is a point of [R], and the arithmetic is exact.  Rounding,
    infinities and NaN of binary64 are outside this model, with one
    exception: numpy's elementwise division, whose non-finite results decide
    what the cluster analyzer hands to DBSCAN, returns [None] for them.
    The operations that raise in Python ([/] by zero, [math.log10] outside
    its domain, a method call on a value that has no such method,
    [json.dump] of an object it cannot encode) raise here, in the error
    monad [result]. [math.exp] cannot overflow where the
    scorer calls it: its argument is [(log10 d - 3) * 2] for a finite
    positive [d], which stays below 611. *)

From Stdlib Require Import Reals Lra Lia List String Ascii Bool ZArith.
From Stdlib Require Import Sorted Permutation.
Import ListNotations.

Local Open Scope R_scope.

(** ** Exceptions *)

Inductive exn : Type :=
| ValueError
| ZeroDivisionError
| AttributeError
| IndexError
| TypeError.

Inductive result (A : Type) : Type :=
| Ok (a : A)
| Raise (e : exn).

Arguments Ok {A} a.
Arguments Raise {A} e.

Definition bind {A B : Type} (m : result A) (k : A -> result B) : result B :=
  match m with
  | Ok a => k a
  | Raise e => Raise e
  end.

Notation "x <- m ;; k" := (bind m (fun x => k))
  (at level 61, m at next level, right associativity).

(** [try: ... except Exception: handler] around a computation. *)
Definition try_except {A : Type} (m : result A) (handler : A) : A :=
  match m with
  | Ok a => a
  | Raise _ => handler
  end.

(** ** Python primitives *)

Module Py.

Definition leb (x y : R) : bool := if Rle_dec x y then true else false.
Definition ltb (x y : R) : bool := if Rlt_dec x y then true else false.
Definition eqb (x y : R) : bool := if Req_dec_T x y then true else false.

(** [==] on optional numbers ([None == None] holds). *)
Definition opt_eqb (x y : option R) : bool :=
  match x, y with
  | Some a, Some b => eqb a b
  | None, None => true
  | _, _ => false
  end.

(** [==] on optional strings. *)
Definition opt_str_eqb (x y : option string) : bool :=
  match x, y with
  | Some a, Some b => String.eqb a b
  | None, None => true
  | _, _ => false
  end.

(** Truth value of a string: the empty string is false. *)
Definition truthy (s : string) : bool :=
  match s with
  | EmptyString => false
  | String _ _ => true
  end.

(** [x or d] on an optional number: [None] and [0] are false. *)
Definition or_default (x : option R) (d : R) : R :=
  match x with
  | None => d
  | Some v => if eqb v 0 then d else v
  end.

(** [a / b]. *)
Definition div (a b : R) : result R :=
  if eqb b 0 then Raise ZeroDivisionError else Ok (a / b).

(** [x % m] for a positive modulus: the result lies in [0, m). *)
Definition mod_ (x m : R) : R := x - m * IZR (Int_part (x / m)).

(** [math.log10]. *)
Definition log10 (x : R) : result R :=
  if ltb 0 x then Ok (ln x / ln 10) else Raise ValueError.

(** [x in xs] for a list of numbers. *)
Definition mem (x : R) (xs : list R) : bool := existsb (eqb x) xs.

Definition lower_ascii (c : ascii) : ascii :=
  let n := nat_of_ascii c in
  if (Nat.leb 65 n && Nat.leb n 90)%bool then ascii_of_nat (n + 32) else c.

(** [str.lower], on ASCII letters. *)
Fixpoint lower (s : string) : string :=
  match s with
  | EmptyString => EmptyString
  | String c s' => String (lower_ascii c) (lower s')
  end.

(** [needle in hay] for strings. *)
Fixpoint contains (needle hay : string) : bool :=
  (prefix needle hay ||
   match hay with
   | EmptyString => false
   | String _ hay' => contains needle hay'
   end)%bool.

(** [sep.join(parts)]. *)
Definition join (sep : string) (parts : list string) : string :=
  String.concat sep parts.

(** An insertion-ordered [dict]: [d[k] = v] keeps the position of a key
    that is already there, and appends a new one. *)
Section Dict.
Context {K V : Type} (key_eqb : K -> K -> bool).

Fixpoint get (d : list (K * V)) (k : K) : option V :=
  match d with
  | [] => None
  | (k', v) :: d' => if key_eqb k' k then Some v else get d' k
  end.

Fixpoint set (d : list (K * V)) (k : K) (v : V) : list (K * V) :=
  match d with
  | [] => [(k, v)]
  | (k', v') :: d' =>
      if key_eqb k' k then (k', v) :: d' else (k', v') :: set d' k v
  end.
End Dict.

(** [list.sort(key=key, reverse=True)]: stable, non-increasing in the key. *)
Section Sort.
Context {A : Type} (key : A -> R).

Fixpoint insert_desc (x : A) (l : list A) : list A :=
  match l with
  | [] => [x]
  | y :: l' =>
      if leb (key y) (key x) then x :: y :: l' else y :: insert_desc x l'
  end.

Fixpoint sort_desc (l : list A) : list A :=
  match l with
  | [] => []
  | x :: l' => insert_desc x (sort_desc l')
  end.
End Sort.

End Py.

Arguments Py.leb : simpl never.
Arguments Py.ltb : simpl never.
Arguments Py.eqb : simpl never.

(** ** numpy primitives *)

Module Np.

Definition sum (xs : list R) : R := fold_right Rplus 0 xs.

(** [mean] of a column of at least one entry. *)
Definition mean (xs : list R) : R := sum xs / INR (List.length xs).

(** [std], the population standard deviation. *)
Definition std (xs : list R) : R :=
  sqrt (mean (map (fun x => (x - mean xs) * (x - mean xs)) xs)).

(** Elementwise [/]: a zero divisor gives [nan] or an infinity (and a
    warning, not an exception); [None] stands for both. *)
Definition divide (a b : R) : option R :=
  if Py.eqb b 0 then None else Some (a / b).

(** One column of [(X - X.mean(axis=0)) / X.std(axis=0)]. *)
Definition normalize (column : list R) : list (option R) :=
  map (fun x => divide (x - mean column) (std column)) column.

End Np.

(** ** Data model *)

(** The [name] entry of a device record: the key may be missing, hold a
    string, or hold a value that is not a string (JSON [null], a number). *)
Inductive name_field : Type :=
| NameMissing
| NameNotStr
| NameStr (s : string).

(** Device records, site records and wireless configurations, as the
    database returns them. [None] is a missing key or a JSON [null]; for
    [dev_type] and [dev_model], which are copied and never read, it is a
    missing key. *)
Record DeviceRecord : Type := {
  dev_id : option string;
  dev_name : name_field;
  dev_type : option string;
  dev_model : option string;
  dev_siteId : option string
}.

Record SiteRecord : Type := {
  site_rec_id : option string;
  site_latitude : option R;
  site_longitude : option R
}.

Record WirelessConfig : Type := {
  cfg_deviceId : option string;
  cfg_frequency : option R;
  cfg_channelWidth : option R;
  cfg_txPower : option R
}.

Record FrequencyDatabase : Type := {
  get_devices : list DeviceRecord;
  get_sites : list SiteRecord;
  get_wireless_configs : list WirelessConfig
}.

Record Device : Type := {
  id : string;
  name : string;
  type : string;
  model : string;
  site_id : option string;
  latitude : option R;
  longitude : option R;
  frequency : option R;
  channel_width : option R;
  tx_power : option R;
  freq_min : option R;
  freq_max : option R;
  direction : option string;
  beam_width : option R
}.

Record InterferenceResult : Type := {
  device1 : Device;
  device2 : Device;
  frequency_overlap : R;
  distance : option R;
  spatial_overlap : option R;
  interference_score : R;
  recommendation : string
}.

Record InterferenceDetector : Type := {
  devices : list Device;
  interference_results : list InterferenceResult
}.

(** ** Device registry *)

Definition site_map_of (sites : list SiteRecord) : list (string * SiteRecord) :=
  fold_left
    (fun site_map site =>
       match site_rec_id site with
       | Some i => if Py.truthy i then Py.set String.eqb site_map i site else site_map
       | None => site_map
       end)
    sites [].

Definition wireless_map_of (configs : list WirelessConfig)
  : list (string * WirelessConfig) :=
  fold_left
    (fun wireless_map config =>
       match cfg_deviceId config with
       | Some i =>
           if Py.truthy i then Py.set String.eqb wireless_map i config
           else wireless_map
       | None => wireless_map
       end)
    configs [].

(** Direction and beam width from the lower-cased device name. *)
Definition infer_facing (name_lower : string) : option string * option R :=
  if Py.contains "north" name_lower then (Some "north"%string, Some 90)
  else if Py.contains "east" name_lower then (Some "east"%string, Some 90)
  else if Py.contains "south" name_lower then (Some "south"%string, Some 90)
  else if Py.contains "west" name_lower then (Some "west"%string, Some 90)
  else (None, None).

Definition default_str (o : option string) : string :=
  match o with
  | Some s => s
  | None => "Unknown"%string
  end.

(** One turn of the loop of [load_devices]: [Ok None] is [continue]. *)
Definition load_device
    (site_map : list (string * SiteRecord))
    (wireless_map : list (string * WirelessConfig))
    (db_device : DeviceRecord) : result (option Device) :=
  match dev_id db_device with
  | None => Ok None
  | Some device_id =>
      if negb (Py.truthy device_id) then Ok None
      else
        let site_id := dev_siteId db_device in
        let site :=
          match site_id with
          | Some i => Py.get String.eqb site_map i
          | None => None
          end in
        let wireless_config := Py.get String.eqb wireless_map device_id in
        let frequency :=
          match wireless_config with Some c => cfg_frequency c | None => None end in
        let channel_width :=
          match wireless_config with Some c => cfg_channelWidth c | None => None end in
        let tx_power :=
          match wireless_config with Some c => cfg_txPower c | None => None end in
        let '(freq_min, freq_max) :=
          match frequency, channel_width with
          | Some f, Some w => (Some (f - w / 2), Some (f + w / 2))
          | _, _ => (None, None)
          end in
        name_lower <-
          match dev_name db_device with
          | NameMissing => Ok ""%string
          | NameStr s => Ok (Py.lower s)
          | NameNotStr => Raise AttributeError
          end ;;
        let '(direction, beam_width) := infer_facing name_lower in
        Ok (Some {|
          id := device_id;
          name :=
            match dev_name db_device with
            | NameStr s => s
            | _ => "Unknown"%string
            end;
          type := default_str (dev_type db_device);
          model := default_str (dev_model db_device);
          site_id := site_id;
          latitude := match site with Some s => site_latitude s | None => None end;
          longitude := match site with Some s => site_longitude s | None => None end;
          frequency := frequency;
          channel_width := channel_width;
          tx_power := tx_power;
          freq_min := freq_min;
          freq_max := freq_max;
          direction := direction;
          beam_width := beam_width
        |})
  end.

Fixpoint load_loop
    (site_map : list (string * SiteRecord))
    (wireless_map : list (string * WirelessConfig))
    (db_devices : list DeviceRecord) (acc : list Device) : result (list Device) :=
  match db_devices with
  | [] => Ok acc
  | db_device :: rest =>
      d <- load_device site_map wireless_map db_device ;;
      match d with
      | None => load_loop site_map wireless_map rest acc
      | Some device => load_loop site_map wireless_map rest (acc ++ [device])
      end
  end.

Definition load_devices (database : FrequencyDatabase) : result (list Device) :=
  load_loop (site_map_of (get_sites database))
            (wireless_map_of (get_wireless_configs database))
            (get_devices database) [].

(** [InterferenceDetector(database)]. *)
Definition init (database : FrequencyDatabase) : result InterferenceDetector :=
  ds <- load_devices database ;;
  Ok {| devices := ds; interference_results := [] |}.

(** ** The engine

    Three things the engine calls live outside the repository and are taken
    as they are: geopy's geodesic computations, Python's rendering of a
    number inside an f-string, and scikit-learn's DBSCAN. A call that raises
    returns [Raise]. *)

Definition point : Type := (R * R)%type.

Definition potential_frequencies : list R :=
  [5180; 5200; 5220; 5240; 5260; 5280; 5300; 5320;
   5500; 5520; 5540; 5560; 5580; 5600; 5620; 5640; 5660; 5680; 5700;
   5745; 5765; 5785; 5805; 5825].

Definition dir_to_bearing (d : string) : option R :=
  Py.get String.eqb
    [("north"%string, 0); ("east"%string, 90);
     ("south"%string, 180); ("west"%string, 270)] d.

Section Engine.

(** [geopy.distance.distance(p, q).meters] *)
Variable geodesic_meters : point -> point -> result R.
(** [geopy.distance.geodesic(p, q).bearing] *)
Variable geodesic_bearing : point -> point -> result R.
(** [str(x)] of a number, as an f-string renders it *)
Variable str : R -> string.
(** [DBSCAN(eps=eps, min_samples=min_samples).fit(X).labels_], on the rows
    of [X]; label [-1] is noise *)
Variable DBSCAN_fit : R -> nat -> list (list (option R)) -> result (list Z).

Definition str_opt (x : option R) : string :=
  match x with
  | Some v => str v
  | None => "None"%string
  end.

(** *** Pairwise overlap analyzer: spatial overlap *)

(** The [try] block of [_calculate_spatial_overlap]. *)
Definition spatial_overlap_try
    (lat1 lon1 lat2 lon2 : R) (direction1 direction2 : string)
    (beam_width1 beam_width2 : R) : result (option R) :=
  bearing1to2 <- geodesic_bearing (lat1, lon1) (lat2, lon2) ;;
  let bearing2to1 := Py.mod_ (bearing1to2 + 180) 360 in
  match dir_to_bearing direction1, dir_to_bearing direction2 with
  | Some bearing1, Some bearing2 =>
      let angle_diff1 := Rabs (Py.mod_ (bearing1 - bearing1to2 + 180) 360 - 180) in
      let angle_diff2 := Rabs (Py.mod_ (bearing2 - bearing2to1 + 180) 360 - 180) in
      let half_beam1 := beam_width1 / 2 in
      let half_beam2 := beam_width2 / 2 in
      if (Py.leb angle_diff1 half_beam1 && Py.leb angle_diff2 half_beam2)%bool then
        q1 <- Py.div angle_diff1 half_beam1 ;;
        let overlap1 := 1 - q1 in
        q2 <- Py.div angle_diff2 half_beam2 ;;
        let overlap2 := 1 - q2 in
        Ok (Some ((overlap1 + overlap2) / 2))
      else if Py.leb angle_diff1 half_beam1 then
        q1 <- Py.div angle_diff1 half_beam1 ;;
        Ok (Some (0.5 * (1 - q1)))
      else if Py.leb angle_diff2 half_beam2 then
        q2 <- Py.div angle_diff2 half_beam2 ;;
        Ok (Some (0.5 * (1 - q2)))
      else Ok (Some 0)
  | _, _ => Ok None
  end.

Definition _calculate_spatial_overlap (device1 device2 : Device) : option R :=
  match latitude device1, longitude device1,
        latitude device2, longitude device2,
        direction device1, direction device2,
        beam_width device1, beam_width device2 with
  | Some lat1, Some lon1, Some lat2, Some lon2,
    Some direction1, Some direction2, Some beam_width1, Some beam_width2 =>
      try_except
        (spatial_overlap_try lat1 lon1 lat2 lon2
           direction1 direction2 beam_width1 beam_width2)
        None
  | _, _, _, _, _, _, _, _ => None
  end.

(** *** Interference scorer *)

Definition min_channel_width (device1 device2 : Device) : R :=
  Rmin (Py.or_default (channel_width device1) 20)
       (Py.or_default (channel_width device2) 20).

Definition distance_factor (distance : option R) : result R :=
  match distance with
  | None => Ok 1
  | Some d =>
      l <- Py.log10 d ;;
      q <- Py.div 0.9 (1 + exp ((l - 3) * 2)) ;;
      Ok (0.1 + q)
  end.

Definition spatial_factor (spatial_overlap : option R) : R :=
  match spatial_overlap with
  | None => 1
  | Some s => 0.2 + 0.8 * s
  end.

Definition tx_power_factor (device1 device2 : Device) : R :=
  match tx_power device1, tx_power device2 with
  | Some p1, Some p2 =>
      let avg_power := (p1 + p2) / 2 in
      0.5 + avg_power / 20
  | _, _ => 1
  end.

Definition _calculate_interference_score
    (frequency_overlap : R) (distance spatial_overlap : option R)
    (device1 device2 : Device) : result R :=
  q <- Py.div frequency_overlap (min_channel_width device1 device2) ;;
  let freq_score := q * 100 in
  distance_factor <- distance_factor distance ;;
  let spatial_factor := spatial_factor spatial_overlap in
  let tx_power_factor := tx_power_factor device1 device2 in
  Ok (freq_score * distance_factor * spatial_factor * tx_power_factor).

(** *** Recommendation engine *)

Definition _find_alternative_frequency
    (self_devices : list Device) (device1 device2 : Device) : option (R * R) :=
  let used_frequencies :=
    flat_map (fun d => match frequency d with Some f => [f] | None => [] end)
             self_devices in
  let available_frequencies :=
    filter (fun f => negb (Py.mem f used_frequencies)) potential_frequencies in
  match available_frequencies with
  | [] => None
  | first_available :: _ =>
      match frequency device1 with
      | Some f1 =>
          if Py.mem f1 potential_frequencies then Some (f1, first_available)
          else
            match frequency device2 with
            | Some f2 =>
                if Py.mem f2 potential_frequencies then Some (f2, first_available)
                else None
            | None => None
            end
      | None =>
          match frequency device2 with
          | Some f2 =>
              if Py.mem f2 potential_frequencies then Some (f2, first_available)
              else None
          | None => None
          end
      end
  end.

Definition no_action_needed : string := "Low interference risk. No action needed.".

Definition power_reduction (device : Device) : list string :=
  match tx_power device with
  | Some p =>
      if Py.ltb 15 p then
        [("Reduce transmit power of " ++ name device ++ " from " ++ str p
          ++ " dBm to " ++ str (p - 3) ++ " dBm.")%string]
      else []
  | None => []
  end.

Definition severity_label (score : R) : string :=
  if Py.ltb 70 score then "High"
  else if Py.ltb 40 score then "Medium"
  else "Low".

Definition _generate_recommendation
    (self_devices : list Device) (device1 device2 : Device)
    (overlap : R) (distance : option R) (score : R) : string :=
  if Py.ltb score 20 then no_action_needed
  else
    let recommendations0 :=
      match _find_alternative_frequency self_devices device1 device2 with
      | Some (current, alternative) =>
          let device_to_change :=
            if Py.opt_eqb (frequency device1) (Some current)
            then device1 else device2 in
          [("Change " ++ name device_to_change ++ " frequency from "
            ++ str_opt (frequency device_to_change) ++ " MHz to "
            ++ str alternative ++ " MHz.")%string]
      | None => []
      end in
    let recommendations1 :=
      recommendations0 ++ power_reduction device1 ++ power_reduction device2 in
    let recommendations2 :=
      recommendations1 ++
      match direction device1, direction device2 with
      | Some _, Some _ =>
          [("Adjust antenna direction of " ++ name device1 ++ " or "
            ++ name device2 ++ " to reduce overlap.")%string]
      | _, _ => []
      end in
    let recommendations :=
      match recommendations2 with
      | [] => ["Consider changing frequency of one device to a different band."%string]
      | _ => recommendations2
      end in
    let severity := severity_label score in
    (("Interference Severity: " ++ severity ++ ". ")
     ++ Py.join " " recommendations)%string.

(** *** Pairwise overlap analyzer: the double loop *)

Definition has_frequency (d : Device) : bool :=
  match frequency d, channel_width d with
  | Some _, Some _ => true
  | _, _ => false
  end.

Definition pair_distance (device1 device2 : Device) : option R :=
  match latitude device1, longitude device1,
        latitude device2, longitude device2 with
  | Some lat1, Some lon1, Some lat2, Some lon2 =>
      try_except
        (d <- geodesic_meters (lat1, lon1) (lat2, lon2) ;; Ok (Some d))
        None
  | _, _, _, _ => None
  end.

(** The body of the inner loop: [Ok None] when the pair is skipped. *)
Definition analyze_pair (self_devices : list Device) (device1 device2 : Device)
  : result (option InterferenceResult) :=
  if Py.opt_str_eqb (site_id device1) (site_id device2) then Ok None
  else
    match freq_min device1, freq_max device1,
          freq_min device2, freq_max device2 with
    | Some min1, Some max1, Some min2, Some max2 =>
        if (Py.leb min1 max2 && Py.leb min2 max1)%bool then
          let overlap := Rmin max1 max2 - Rmax min1 min2 in
          let distance := pair_distance device1 device2 in
          let spatial_overlap := _calculate_spatial_overlap device1 device2 in
          interference_score <-
            _calculate_interference_score
              overlap distance spatial_overlap device1 device2 ;;
          let recommendation :=
            _generate_recommendation
              self_devices device1 device2 overlap distance interference_score in
          Ok (Some {|
            device1 := device1;
            device2 := device2;
            frequency_overlap := overlap;
            distance := distance;
            spatial_overlap := spatial_overlap;
            interference_score := interference_score;
            recommendation := recommendation
          |})
        else Ok None
    | _, _, _, _ => Ok None
    end.

Fixpoint inner_loop (self_devices : list Device) (device1 : Device)
    (rest : list Device) (acc : list InterferenceResult)
  : result (list InterferenceResult) :=
  match rest with
  | [] => Ok acc
  | device2 :: rest' =>
      r <- analyze_pair self_devices device1 device2 ;;
      inner_loop self_devices device1 rest'
        (match r with Some x => acc ++ [x] | None => acc end)
  end.

Fixpoint outer_loop (self_devices : list Device)
    (freq_devices : list Device) (acc : list InterferenceResult)
  : result (list InterferenceResult) :=
  match freq_devices with
  | [] => Ok acc
  | device1 :: rest =>
      acc' <- inner_loop self_devices device1 rest acc ;;
      outer_loop self_devices rest acc'
  end.

(** Returns the result list and the detector with
    [self.interference_results] updated. The state a raised exception
    leaves behind is not part of the model. *)
Definition detect_frequency_interference (self : InterferenceDetector)
  : result (list InterferenceResult * InterferenceDetector) :=
  let freq_devices := filter has_frequency (devices self) in
  if Nat.ltb (List.length freq_devices) 2 then
    Ok ([], {| devices := devices self; interference_results := [] |})
  else
    found <- outer_loop (devices self) freq_devices [] ;;
    let sorted := Py.sort_desc interference_score found in
    Ok (sorted, {| devices := devices self; interference_results := sorted |}).

(** *** Cluster analyzer *)

Definition feature (r : InterferenceResult) : R * R * R :=
  (Py.or_default (frequency (device1 r)) 0,
   Py.or_default (frequency (device2 r)) 0,
   interference_score r).

(** The rows of [X_norm]. *)
Definition normalized_features (results : list InterferenceResult)
  : list (list (option R)) :=
  let X := map feature results in
  let c0 := Np.normalize (map (fun f => fst (fst f)) X) in
  let c1 := Np.normalize (map (fun f => snd (fst f)) X) in
  let c2 := Np.normalize (map snd X) in
  map (fun t => [fst (fst t); snd (fst t); snd t]) (combine (combine c0 c1) c2).

Definition count_clusters (labels : list Z) : Z :=
  (Z.of_nat (List.length (nodup Z.eq_dec labels))
   - (if existsb (Z.eqb (-1)) labels then 1 else 0))%Z.

(** [for i, label in enumerate(labels)]: group the results by label. *)
Fixpoint group_by_label (results : list InterferenceResult)
    (labels : list Z) (i : nat) (clusters : list (Z * list InterferenceResult))
  : result (list (Z * list InterferenceResult)) :=
  match labels with
  | [] => Ok clusters
  | label :: rest =>
      if Z.eqb label (-1) then group_by_label results rest (S i) clusters
      else
        match nth_error results i with
        | None => Raise IndexError
        | Some r =>
            let members :=
              match Py.get Z.eqb clusters label with
              | Some m => m
              | None => []
              end in
            group_by_label results rest (S i)
              (Py.set Z.eqb clusters label (members ++ [r]))
        end
  end.

(** Occurrence counts, in order of first occurrence. *)
Definition count_items {K : Type} (key_eqb : K -> K -> bool) (items : list K)
  : list (K * nat) :=
  fold_left
    (fun counts x =>
       let n := match Py.get key_eqb counts x with Some n => n | None => O end in
       Py.set key_eqb counts x (S n))
    items [].

Definition by_count_desc {K : Type} (counts : list (K * nat)) : list (K * nat) :=
  Py.sort_desc (fun kv => INR (snd kv)) counts.

Record ClusterStats : Type := {
  size : nat;
  avg_score : R;
  common_devices : list (string * nat);
  common_frequencies : list (option R * nat);
  results : list InterferenceResult
}.

Definition cluster_stats_of (results : list InterferenceResult)
  : result ClusterStats :=
  avg_score <-
    Py.div (Np.sum (map interference_score results)) (INR (List.length results)) ;;
  let devices :=
    flat_map (fun r => [name (device1 r); name (device2 r)]) results in
  let common_devices := by_count_desc (count_items String.eqb devices) in
  let frequencies :=
    flat_map (fun r => [frequency (device1 r); frequency (device2 r)]) results in
  let common_frequencies := by_count_desc (count_items Py.opt_eqb frequencies) in
  Ok {|
    size := List.length results;
    avg_score := avg_score;
    common_devices := firstn 3 common_devices;
    common_frequencies := firstn 3 common_frequencies;
    results := results
  |}.

Fixpoint all_cluster_stats (clusters : list (Z * list InterferenceResult))
  : result (list (Z * ClusterStats)) :=
  match clusters with
  | [] => Ok []
  | (label, results) :: rest =>
      stats <- cluster_stats_of results ;;
      tail <- all_cluster_stats rest ;;
      Ok ((label, stats) :: tail)
  end.

(** The dictionary [cluster_interference_issues] returns: [{}], or one
    with the keys ['n_clusters'] and ['clusters']. *)
Inductive ClusterInfo : Type :=
| EmptyDict
| ClusterDict (n_clusters : Z) (clusters : list (Z * ClusterStats)).

Definition cluster_interference_issues
    (self : InterferenceDetector) (eps : R) (min_samples : nat)
  : result ClusterInfo :=
  match interference_results self with
  | [] => Ok EmptyDict
  | _ :: _ =>
      let X_norm := normalized_features (interference_results self) in
      labels <- DBSCAN_fit eps min_samples X_norm ;;
      let n_clusters := count_clusters labels in
      clusters <- group_by_label (interference_results self) labels O [] ;;
      cluster_stats <- all_cluster_stats clusters ;;
      Ok (ClusterDict n_clusters cluster_stats)
  end.

(** *** Report assembler *)

Record IssueDevice : Type := {
  issue_id : string;
  issue_name : string;
  issue_frequency : option R;
  issue_channel_width : option R
}.

Record Issue : Type := {
  rank : option nat;
  issue_device1 : IssueDevice;
  issue_device2 : IssueDevice;
  issue_frequency_overlap : R;
  issue_distance : option R;
  issue_interference_score : R;
  issue_recommendation : string
}.

Record Summary : Type := {
  total_devices : nat;
  devices_with_frequency : nat;
  total_interference_issues : nat;
  high_severity_issues : nat;
  medium_severity_issues : nat;
  low_severity_issues : nat;
  summary_clusters : Z
}.

Record Report : Type := {
  summary : Summary;
  top_issues : list Issue;
  report_clusters : list (Z * ClusterStats);
  all_issues : list Issue
}.

Definition issue_device (d : Device) : IssueDevice :=
  {| issue_id := id d;
     issue_name := name d;
     issue_frequency := frequency d;
     issue_channel_width := channel_width d |}.

Definition issue_of (rank : option nat) (r : InterferenceResult) : Issue :=
  {| rank := rank;
     issue_device1 := issue_device (device1 r);
     issue_device2 := issue_device (device2 r);
     issue_frequency_overlap := frequency_overlap r;
     issue_distance := distance r;
     issue_interference_score := interference_score r;
     issue_recommendation := recommendation r |}.

(** [enumerate(results)] turned into ranked issues, from rank [i + 1]. *)
Fixpoint ranked_issues (i : nat) (results : list InterferenceResult) : list Issue :=
  match results with
  | [] => []
  | r :: rest => issue_of (Some (i + 1)%nat) r :: ranked_issues (S i) rest
  end.

Definition count_if {A : Type} (p : A -> bool) (l : list A) : nat :=
  List.length (filter p l).

(** [generate_interference_report()], the call without [output_file].
    Returns the report and the detector, whose results [detect] has filled
    in when they were empty. *)
Definition generate_interference_report (self : InterferenceDetector)
  : result (Report * InterferenceDetector) :=
  self <-
    match interference_results self with
    | [] => r <- detect_frequency_interference self ;; Ok (snd r)
    | _ :: _ => Ok self
    end ;;
  clusters <- cluster_interference_issues self 30 2 ;;
  let results := interference_results self in
  Ok ({|
    summary := {|
      total_devices := List.length (devices self);
      devices_with_frequency :=
        count_if (fun d => match frequency d with Some _ => true | None => false end)
                 (devices self);
      total_interference_issues := List.length results;
      high_severity_issues :=
        count_if (fun r => Py.ltb 70 (interference_score r)) results;
      medium_severity_issues :=
        count_if (fun r => (Py.ltb 40 (interference_score r)
                            && Py.leb (interference_score r) 70)%bool) results;
      low_severity_issues :=
        count_if (fun r => Py.leb (interference_score r) 40) results;
      summary_clusters :=
        match clusters with
        | ClusterDict n _ => n
        | EmptyDict => 0%Z
        end
    |};
    top_issues := ranked_issues O (firstn 10 results);
    report_clusters :=
      match clusters with
      | ClusterDict _ c => c
      | EmptyDict => []
      end;
    all_issues := map (issue_of None) results
  |}, self).

(** [json.dump(report, f, indent=2)]. The summary and the issues hold
    numbers, strings and [None], which [json] encodes. An entry of the
    cluster map has a [numpy.int64] label as its key and a list of
    [InterferenceResult] objects under ['results']: [json] refuses both with
    [TypeError]. Opening the file is taken to succeed. *)
Definition json_dump (report : Report) : result unit :=
  match report_clusters report with
  | [] => Ok tt
  | _ :: _ => Raise TypeError
  end.

(** [generate_interference_report(output_file)]: the report is written
    when [output_file] is not empty. *)
Definition generate_interference_report_to
    (output_file : string) (self : InterferenceDetector)
  : result (Report * InterferenceDetector) :=
  reported <- generate_interference_report self ;;
  if Py.truthy output_file then
    _ <- json_dump (fst reported) ;;
    Ok reported
  else Ok reported.

(** The computation of [main]: build the detector, detect, report to the
    file [output] ([--output], ['interference_report.json'] by default). *)
Definition main (database : FrequencyDatabase) (output : string)
  : result (list InterferenceResult * Report) :=
  detector <- init database ;;
  detected <- detect_frequency_interference detector ;;
  reported <- generate_interference_report_to output (snd detected) ;;
  Ok (fst detected, fst reported).

End Engine.

(** ** Stand-ins for the libraries

    Closed examples need closed library functions. A geodesic call that
    answers [r] whatever the points, a number rendering that hides the
    digits, and a DBSCAN that
    checks its input the way scikit-learn does (a matrix with a NaN or an
    infinity is refused with [ValueError]) before it runs [fit]. *)

Definition geodesic_const (r : result R) : point -> point -> result R :=
  fun _ _ => r.

(** What geopy answers to [geopy.distance.geodesic(p, q).bearing]. The
    object [geodesic(p, q)] is a distance: it gives its length in several
    units and has the method [destination], and no attribute [bearing]; the
    access raises [AttributeError]. *)
Definition geopy_bearing : point -> point -> result R :=
  geodesic_const (Raise AttributeError).

Definition str_hash : R -> string := fun _ => "#"%string.

Definition is_finite (x : option R) : bool :=
  match x with
  | Some _ => true
  | None => false
  end.

Definition DBSCAN_checked
    (fit : R -> nat -> list (list (option R)) -> result (list Z))
    (eps : R) (min_samples : nat) (X : list (list (option R)))
  : result (list Z) :=
  if forallb (forallb is_finite) X then fit eps min_samples X
  else Raise ValueError.

(** ** Properties stated in the claims *)

(** A list of scores in non-increasing order. *)
Definition non_increasing (l : list R) : Prop :=
  StronglySorted (fun a b => b <= a) l.

(** [a] comes before [b] in [l]: the pairs the double loop visits. *)
Definition before {A : Type} (l : list A) (a b : A) : Prop :=
  exists l1 l2 l3, l = l1 ++ a :: l2 ++ b :: l3.

(** The frequency-range test of the analyzer. *)
Definition ranges_overlap (min1 max1 min2 max2 : R) : Prop :=
  min1 <= max2 /\ max1 >= min2.

(** What the registry guarantees of every [Device] it builds. *)
Definition registered (d : Device) : Prop :=
  Py.truthy (id d) = true /\
  (freq_min d, freq_max d) =
    match frequency d, channel_width d with
    | Some f, Some w => (Some (f - w / 2), Some (f + w / 2))
    | _, _ => (None, None)
    end /\
  ((direction d = None /\ beam_width d = None) \/
   (exists s b, direction d = Some s /\ dir_to_bearing s = Some b /\
                beam_width d = Some 90)).

(** A record identifier that the registry takes for absent. *)
Definition no_id (o : option string) : Prop :=
  o = None \/ o = Some ""%string.

Definition with_devices (database : FrequencyDatabase)
    (db_devices : list DeviceRecord) : FrequencyDatabase :=
  {| get_devices := db_devices;
     get_sites := get_sites database;
     get_wireless_configs := get_wireless_configs database |}.

(** ** Example snapshots

    Two radios [A] and [B] on the sites [s1] and [s2], each with a center
    frequency, a channel width and an optional transmit power; the two
    sites share their coordinates, when they have any. *)

Definition radio_record (i n s : string) : DeviceRecord :=
  {| dev_id := Some i; dev_name := NameStr n; dev_type := None;
     dev_model := None; dev_siteId := Some s |}.

Definition site_record (i : string) (coords : option point) : SiteRecord :=
  {| site_rec_id := Some i;
     site_latitude := option_map fst coords;
     site_longitude := option_map snd coords |}.

Definition radio_config (i : string) (f w : R) (p : option R) : WirelessConfig :=
  {| cfg_deviceId := Some i; cfg_frequency := Some f;
     cfg_channelWidth := Some w; cfg_txPower := p |}.

Definition two_radios (f1 w1 f2 w2 : R) (p1 p2 : option R)
    (coords : option point) : FrequencyDatabase :=
  {| get_devices := [radio_record "a" "A" "s1"; radio_record "b" "B" "s2"];
     get_sites := [site_record "s1" coords; site_record "s2" coords];
     get_wireless_configs := [radio_config "a" f1 w1 p1; radio_config "b" f2 w2 p2] |}.

(** The [Device] the registry builds for such a radio. *)
Definition radio_device (i n s : string) (f w : R) (p : option R)
    (coords : option point) : Device :=
  {| id := i; name := n; type := "Unknown"; model := "Unknown";
     site_id := Some s;
     latitude := option_map fst coords;
     longitude := option_map snd coords;
     frequency := Some f; channel_width := Some w; tx_power := p;
     freq_min := Some (f - w / 2); freq_max := Some (f + w / 2);
     direction := None; beam_width := None |}.

Definition radio_A (f w : R) (p : option R) (coords : option point) : Device :=
  radio_device "a" "A" "s1" f w p coords.

Definition radio_B (f w : R) (p : option R) (coords : option point) : Device :=
  radio_device "b" "B" "s2" f w p coords.

(** The example of the specification: 5180 MHz and 5185 MHz, 20 MHz wide,
    no coordinates, no transmit power. *)
Definition example_A : Device := radio_A 5180 20 None None.
Definition example_B : Device := radio_B 5185 20 None None.

Definition example_detector : InterferenceDetector :=
  {| devices := [example_A; example_B]; interference_results := [] |}.

Definition example_result : InterferenceResult :=
  {| device1 := example_A;
     device2 := example_B;
     frequency_overlap := Rmin (5180 + 20 / 2) (5185 + 20 / 2)
                          - Rmax (5180 - 20 / 2) (5185 - 20 / 2);
     distance := None;
     spatial_overlap := None;
     interference_score :=
       (Rmin (5180 + 20 / 2) (5185 + 20 / 2)
        - Rmax (5180 - 20 / 2) (5185 - 20 / 2))
       / min_channel_width example_A example_B * 100 * 1
       * spatial_factor None * tx_power_factor example_A example_B;
     recommendation :=
       "Interference Severity: High. Change A frequency from # MHz to # MHz." |}.

Definition example_detected : InterferenceDetector :=
  {| devices := [example_A; example_B];
     interference_results := [example_result] |}.

(** The result the analyzer records for two devices without coordinates
    whose ranges [[min1, max1]] and [[min2, max2]] pass the overlap test. *)
Definition uncoordinated_result (str : R -> string) (self_devices : list Device)
    (d1 d2 : Device) (min1 max1 min2 max2 : R) : InterferenceResult :=
  let overlap := Rmin max1 max2 - Rmax min1 min2 in
  let score :=
    overlap / min_channel_width d1 d2 * 100 * 1
    * spatial_factor None * tx_power_factor d1 d2 in
  {| device1 := d1;
     device2 := d2;
     frequency_overlap := overlap;
     distance := None;
     spatial_overlap := None;
     interference_score := score;
     recommendation :=
       _generate_recommendation str self_devices d1 d2 overlap None score |}.

(** A radio whose configured channel width is negative, next to an
    ordinary one on the same center frequency. *)
Definition inverted_A : Device := radio_A 5180 (-20) None None.
Definition inverted_B : Device := radio_B 5180 20 None None.

Definition inverted_result : InterferenceResult :=
  uncoordinated_result str_hash [inverted_A; inverted_B] inverted_A inverted_B
    (5180 - -20 / 2) (5180 + -20 / 2) (5180 - 20 / 2) (5180 + 20 / 2).

(** Three radios on three sites, 5 MHz apart, 20 MHz wide. *)
Definition radio_C (f w : R) (p : option R) (coords : option point) : Device :=
  radio_device "c" "C" "s3" f w p coords.

Definition example_C : Device := radio_C 5190 20 None None.

Definition trio : list Device := [example_A; example_B; example_C].

Definition trio_AB : InterferenceResult :=
  uncoordinated_result str_hash trio example_A example_B
    (5180 - 20 / 2) (5180 + 20 / 2) (5185 - 20 / 2) (5185 + 20 / 2).

Definition trio_AC : InterferenceResult :=
  uncoordinated_result str_hash trio example_A example_C
    (5180 - 20 / 2) (5180 + 20 / 2) (5190 - 20 / 2) (5190 + 20 / 2).

Definition trio_BC : InterferenceResult :=
  uncoordinated_result str_hash trio example_B example_C
    (5185 - 20 / 2) (5185 + 20 / 2) (5190 - 20 / 2) (5190 + 20 / 2).

Definition trio_detector : InterferenceDetector :=
  {| devices := trio; interference_results := [] |}.

Definition trio_detected : InterferenceDetector :=
  {| devices := trio; interference_results := [trio_AB; trio_BC; trio_AC] |}.

(** A DBSCAN that puts every row into cluster 0, as [eps = 30] does on
    normalized features. *)
Definition DBSCAN_one_cluster
    (eps : R) (min_samples : nat) (X : list (list (option R)))
  : result (list Z) :=
  Ok (map (fun _ => 0%Z) X).

(** Sector antennas with coordinates. *)
Definition sector (i n s dir : string) (coords : point) : Device :=
  {| id := i; name := n; type := "Unknown"; model := "Unknown";
     site_id := Some s;
     latitude := Some (fst coords);
     longitude := Some (snd coords);
     frequency := Some 5180; channel_width := Some 20; tx_power := None;
     freq_min := Some (5180 - 20 / 2); freq_max := Some (5180 + 20 / 2);
     direction := Some dir; beam_width := Some 90 |}.

(** Two sectors that face each other: [facing_south] lies due north of
    [facing_north]. *)
Definition facing_north : Device := sector "n" "AP North" "s1" "north" (40, -74).
Definition facing_south : Device := sector "s" "AP South" "s2" "south" (41, -74).

(** A record without identifier, whose name is not even a string. *)
Definition anonymous_record : DeviceRecord :=
  {| dev_id := None; dev_name := NameNotStr; dev_type := None;
     dev_model := None; dev_siteId := Some "s1"%string |}.

(** ** Notions used by the further properties *)

(** The record carries an identifier the registry accepts. *)
Definition has_id (r : DeviceRecord) : bool :=
  match dev_id r with
  | Some i => Py.truthy i
  | None => false
  end.

(** The site record a lookup of [i] in the site map ends on: the last one of
    the list that carries this identifier. *)
Definition last_site (sites : list SiteRecord) (i : string) : option SiteRecord :=
  if Py.truthy i
  then find (fun s => Py.opt_str_eqb (site_rec_id s) (Some i)) (rev sites)
  else None.

(** Likewise for the wireless configurations of a device. *)
Definition last_config (configs : list WirelessConfig) (i : string)
  : option WirelessConfig :=
  if Py.truthy i
  then find (fun c => Py.opt_str_eqb (cfg_deviceId c) (Some i)) (rev configs)
  else None.

(** The pair passes the tests of the analyzer: two sites, both ranges
    known, and the ranges overlap. *)
Definition qualifies (d1 d2 : Device) : Prop :=
  site_id d1 <> site_id d2 /\
  exists min1 max1 min2 max2,
    freq_min d1 = Some min1 /\ freq_max d1 = Some max1 /\
    freq_min d2 = Some min2 /\ freq_max d2 = Some max2 /\
    ranges_overlap min1 max1 min2 max2.

(** A snapshot in which site [s1] and the configuration of radio [a] were
    recorded twice. *)
Definition recorded_twice : FrequencyDatabase :=
  {| get_devices := [radio_record "a" "A" "s1"];
     get_sites := [site_record "s1" (Some (1, 1)); site_record "s1" (Some (40, -74))];
     get_wireless_configs :=
       [radio_config "a" 5180 20 None; radio_config "a" 5200 40 None] |}.

(** The snapshot of the three radios [trio]. *)
Definition three_radios : FrequencyDatabase :=
  {| get_devices :=
       [radio_record "a" "A" "s1"; radio_record "b" "B" "s2";
        radio_record "c" "C" "s3"];
     get_sites := [];
     get_wireless_configs :=
       [radio_config "a" 5180 20 None; radio_config "b" 5185 20 None;
        radio_config "c" 5190 20 None] |}.

(** A detector whose two results both have radio [A] as first device. *)
Definition hub_detected : InterferenceDetector :=
  {| devices := trio; interference_results := [trio_AB; trio_AC] |}.

(** ** Conflict query of the frequency store

    [FrequencyDatabase.get_frequency_conflicts] of [frequency_database.py].
    The SQL query runs in SQLite; the rows it returns are the input here,
    and everything the method does with them is modelled. *)

(** A row of [SELECT d.id, d.name, d.site_id, w.frequency, w.channel_width]:
    any column may be NULL. *)
Record ConflictRow : Type := {
  row_device_id : option string;
  row_device_name : option string;
  row_site_id : option string;
  row_frequency : option R;
  row_channel_width : option R
}.

(** The [device_info] dictionary built for a row. *)
Record DeviceInfo : Type := {
  info_id : option string;
  info_name : option string;
  info_site_id : option string;
  info_frequency : R;
  info_channel_width : option R;
  info_freq_min : R;
  info_freq_max : R
}.

(** The [{'id', 'name', 'site_id'}] dictionary of a conflict. *)
Record DeviceRef : Type := {
  ref_id : option string;
  ref_name : option string;
  ref_site_id : option string
}.

Record Conflict : Type := {
  conflict_device1 : DeviceRef;
  conflict_device2 : DeviceRef;
  conflict_frequency : R;
  conflict_overlap : R
}.

Definition device_info (row : ConflictRow) (frequency : R) : DeviceInfo :=
  let half_width := Py.or_default (row_channel_width row) 0 / 2 in
  {| info_id := row_device_id row;
     info_name := row_device_name row;
     info_site_id := row_site_id row;
     info_frequency := frequency;
     info_channel_width := row_channel_width row;
     info_freq_min := frequency - half_width;
     info_freq_max := frequency + half_width |}.

(** The body of the grouping loop: a row without frequency, or with
    frequency 0, is skipped. *)
Definition group_row (frequency_map : list (R * list DeviceInfo))
    (row : ConflictRow) : list (R * list DeviceInfo) :=
  match row_frequency row with
  | None => frequency_map
  | Some frequency =>
      if Py.eqb frequency 0 then frequency_map
      else
        let members :=
          match Py.get Py.eqb frequency_map frequency with
          | Some m => m
          | None => []
          end in
        Py.set Py.eqb frequency_map frequency
          (members ++ [device_info row frequency])
  end.

Definition group_rows (rows : list ConflictRow) : list (R * list DeviceInfo) :=
  fold_left group_row rows [].

Definition device_ref (d : DeviceInfo) : DeviceRef :=
  {| ref_id := info_id d; ref_name := info_name d; ref_site_id := info_site_id d |}.

(** The body of the double loop over one group. *)
Definition conflict_of (frequency : R) (device1 device2 : DeviceInfo)
  : list Conflict :=
  if (Py.leb (info_freq_min device1) (info_freq_max device2)
      && Py.leb (info_freq_min device2) (info_freq_max device1))%bool
  then
    [{| conflict_device1 := device_ref device1;
        conflict_device2 := device_ref device2;
        conflict_frequency := frequency;
        conflict_overlap :=
          Rmin (info_freq_max device1) (info_freq_max device2)
          - Rmax (info_freq_min device1) (info_freq_min device2) |}]
  else [].

(** [for i in range(len(devices)): for j in range(i+1, len(devices))]. *)
Fixpoint group_conflicts (frequency : R) (devices : list DeviceInfo)
  : list Conflict :=
  match devices with
  | [] => []
  | device1 :: rest =>
      flat_map (conflict_of frequency device1) rest
      ++ group_conflicts frequency rest
  end.

Definition get_frequency_conflicts (rows : list ConflictRow) : list Conflict :=
  flat_map
    (fun item : R * list DeviceInfo =>
       let (frequency, devices) := item in
       if Nat.ltb (List.length devices) 2 then []
       else group_conflicts frequency devices)
    (group_rows rows).

(** The row enters the group of frequency [f]. *)
Definition on_frequency (f : R) (row : ConflictRow) : bool :=
  match row_frequency row with
  | Some g => (negb (Py.eqb g 0) && Py.eqb g f)%bool
  | None => false
  end.

(** The channel width the query computes with: [channel_width or 0]. *)
Definition row_width (row : ConflictRow) : R :=
  Py.or_default (row_channel_width row) 0.

Definition conflict_row (i n s : string) (f w : R) : ConflictRow :=
  {| row_device_id := Some i;
     row_device_name := Some n;
     row_site_id := Some s;
     row_frequency := Some f;
     row_channel_width := Some w |}.

(** Two radios on neighbouring channels, and a third on the channel of the
    first at the same site. *)
Definition neighbour_rows : list ConflictRow :=
  [conflict_row "a" "A" "s1" 5180 40; conflict_row "b" "B" "s2" 5185 40].

Definition same_site_rows : list ConflictRow :=
  [conflict_row "a" "A" "s1" 5180 40; conflict_row "b" "B" "s2" 5185 40;
   conflict_row "c" "C" "s1" 5180 20].

(** * Proofs *)

(** ** Comparisons *)

Lemma leb_true_iff (x y : R) : Py.leb x y = true <-> x <= y.
Proof. unfold Py.leb. destruct (Rle_dec x y); split; intros; try easy. Qed.

Lemma leb_false_iff (x y : R) : Py.leb x y = false <-> y < x.
Proof.
  unfold Py.leb. destruct (Rle_dec x y); split; intros; try easy; lra.
Qed.

Lemma ltb_true_iff (x y : R) : Py.ltb x y = true <-> x < y.
Proof. unfold Py.ltb. destruct (Rlt_dec x y); split; intros; try easy. Qed.

Lemma ltb_false_iff (x y : R) : Py.ltb x y = false <-> y <= x.
Proof.
  unfold Py.ltb. destruct (Rlt_dec x y); split; intros; try easy; lra.
Qed.

Lemma eqb_true_iff (x y : R) : Py.eqb x y = true <-> x = y.
Proof. unfold Py.eqb. destruct (Req_dec_T x y); split; intros; try easy. Qed.

Lemma eqb_false_iff (x y : R) : Py.eqb x y = false <-> x <> y.
Proof. unfold Py.eqb. destruct (Req_dec_T x y); split; intros; try easy. Qed.

(** Decide the comparisons of closed numbers that a goal is stuck on. *)
Ltac py_compare :=
  repeat match goal with
  | |- context [Py.leb ?x ?y] =>
      first [ rewrite (proj2 (leb_true_iff x y)) by lra
            | rewrite (proj2 (leb_false_iff x y)) by lra ]
  | |- context [Py.ltb ?x ?y] =>
      first [ rewrite (proj2 (ltb_true_iff x y)) by lra
            | rewrite (proj2 (ltb_false_iff x y)) by lra ]
  | |- context [Py.eqb ?x ?y] =>
      first [ rewrite (proj2 (eqb_true_iff x y)) by lra
            | rewrite (proj2 (eqb_false_iff x y)) by lra ]
  end.

Lemma div_ok (a b : R) : b <> 0 -> Py.div a b = Ok (a / b).
Proof.
  intros Hb. unfold Py.div. now rewrite (proj2 (eqb_false_iff b 0) Hb).
Qed.

Lemma div_zero (a : R) : Py.div a 0 = Raise ZeroDivisionError.
Proof. unfold Py.div. now rewrite (proj2 (eqb_true_iff 0 0) eq_refl). Qed.

Lemma log10_nonpositive (x : R) : x <= 0 -> Py.log10 x = Raise ValueError.
Proof.
  intros Hx. unfold Py.log10. now rewrite (proj2 (ltb_false_iff 0 x) Hx).
Qed.

Lemma log10_positive (x : R) : 0 < x -> Py.log10 x = Ok (ln x / ln 10).
Proof.
  intros Hx. unfold Py.log10. now rewrite (proj2 (ltb_true_iff 0 x) Hx).
Qed.

(** ** Sorting *)

Section SortFacts.
Context {A : Type} (key : A -> R).

Let desc (a b : A) : Prop := key b <= key a.

Lemma insert_desc_perm (x : A) (l : list A) :
  Permutation (x :: l) (Py.insert_desc key x l).
Proof.
  induction l as [|y l IH]; simpl.
  - apply Permutation_refl.
  - destruct (Py.leb (key y) (key x)).
    + apply Permutation_refl.
    + eapply perm_trans; [apply perm_swap|]. now apply perm_skip.
Qed.

Lemma sort_desc_perm (l : list A) : Permutation l (Py.sort_desc key l).
Proof.
  induction l as [|x l IH]; simpl.
  - apply perm_nil.
  - eapply perm_trans; [|apply insert_desc_perm]. now apply perm_skip.
Qed.

Lemma insert_desc_sorted (x : A) (l : list A) :
  StronglySorted desc l -> StronglySorted desc (Py.insert_desc key x l).
Proof.
  induction 1 as [|y l Hs IH Hy]; simpl.
  - constructor; constructor.
  - destruct (Py.leb (key y) (key x)) eqn:E.
    + apply leb_true_iff in E. constructor.
      * now constructor.
      * constructor; [exact E|].
        rewrite Forall_forall in Hy |- *. intros z Hz.
        specialize (Hy z Hz). unfold desc in *. lra.
    + apply leb_false_iff in E. constructor; [exact IH|].
      rewrite Forall_forall in Hy |- *. intros z Hz.
      apply (Permutation_in z (Permutation_sym (insert_desc_perm x l))) in Hz.
      destruct Hz as [<-|Hz]; [unfold desc; lra|now apply Hy].
Qed.

Lemma sort_desc_sorted (l : list A) : StronglySorted desc (Py.sort_desc key l).
Proof.
  induction l as [|x l IH]; simpl.
  - constructor.
  - now apply insert_desc_sorted.
Qed.

Lemma sorted_map_key (l : list A) :
  StronglySorted desc l -> non_increasing (map key l).
Proof.
  induction 1 as [|y l Hs IH Hy]; simpl; constructor; [exact IH|].
  rewrite Forall_forall in Hy |- *. intros k Hk.
  apply in_map_iff in Hk. destruct Hk as (z & <- & Hz). now apply Hy.
Qed.

Lemma sort_desc_non_increasing (l : list A) :
  non_increasing (map key (Py.sort_desc key l)).
Proof. apply sorted_map_key, sort_desc_sorted. Qed.

Lemma sort_desc_in (l : list A) (x : A) : In x (Py.sort_desc key l) <-> In x l.
Proof.
  split; apply Permutation_in;
    [apply Permutation_sym|]; apply sort_desc_perm.
Qed.

End SortFacts.

Lemma in_firstn {A : Type} (n : nat) (l : list A) (x : A) :
  In x (firstn n l) -> In x l.
Proof.
  revert n. induction l as [|y l IH]; intros [|n]; simpl; try easy.
  intros [->|H]; [now left|right; now apply (IH n)].
Qed.

Lemma non_increasing_firstn (n : nat) (l : list R) :
  non_increasing l -> non_increasing (firstn n l).
Proof.
  intros H. revert n. induction H as [|x l Hs IH Hx]; intros [|n]; simpl;
    try constructor.
  - apply IH.
  - rewrite Forall_forall in Hx |- *. intros y Hy. apply Hx.
    now apply (in_firstn n).
Qed.

(** ** Device registry *)

Lemma infer_facing_cases (n : string) :
  infer_facing n = (None, None) \/
  exists s b, infer_facing n = (Some s, Some 90) /\ dir_to_bearing s = Some b.
Proof.
  unfold infer_facing.
  destruct (Py.contains "north" n); [right; now exists "north"%string, 0|].
  destruct (Py.contains "east" n); [right; now exists "east"%string, 90|].
  destruct (Py.contains "south" n); [right; now exists "south"%string, 180|].
  destruct (Py.contains "west" n); [right; now exists "west"%string, 270|].
  now left.
Qed.

Lemma load_device_no_id sm wm (r : DeviceRecord) :
  no_id (dev_id r) -> load_device sm wm r = Ok None.
Proof. unfold load_device. now intros [-> | ->]. Qed.

Lemma load_device_registered sm wm (r : DeviceRecord) (d : Device) :
  load_device sm wm r = Ok (Some d) -> registered d.
Proof.
  unfold load_device.
  destruct (dev_id r) as [i|]; [|discriminate].
  destruct (Py.truthy i) eqn:Hi; simpl; [|discriminate].
  set (cfg := Py.get String.eqb wm i).
  assert (Hdone : forall dir bw f w lo hi x y z t u v a,
             (lo, hi) = match f, w with
                        | Some f, Some w => (Some (f - w / 2), Some (f + w / 2))
                        | _, _ => (None, None)
                        end ->
             ((dir = None /\ bw = None) \/
              (exists s b, dir = Some s /\ dir_to_bearing s = Some b /\
                           bw = Some 90)) ->
             registered {| id := i; name := x; type := y; model := z;
                           site_id := t; latitude := u; longitude := v;
                           frequency := f; channel_width := w; tx_power := a;
                           freq_min := lo; freq_max := hi;
                           direction := dir; beam_width := bw |}).
  { intros; repeat split; simpl; assumption. }
  destruct cfg as [c|];
    [destruct (cfg_frequency c), (cfg_channelWidth c)|]; cbv zeta iota beta;
    (destruct (dev_name r) as [| |n]; simpl; try discriminate;
     [ intros [= <-]; apply Hdone; [reflexivity|now left]
     | destruct (infer_facing_cases (Py.lower n)) as [E|(s & b & E & Hb)];
       rewrite E; intros [= <-]; apply Hdone;
       [reflexivity|now left|reflexivity|right; now exists s, b] ]).
Qed.

Lemma load_loop_registered sm wm (rs : list DeviceRecord) :
  forall acc out,
    Forall registered acc ->
    load_loop sm wm rs acc = Ok out ->
    Forall registered out.
Proof.
  induction rs as [|r rs IH]; simpl; intros acc out Hacc H.
  - now injection H as <-.
  - destruct (load_device sm wm r) as [[d|]|e] eqn:E; simpl in H;
      try discriminate.
    + apply (IH _ _ (proj2 (Forall_app _ _ _)
                       (conj Hacc (Forall_cons _ (load_device_registered _ _ _ _ E)
                                                 (Forall_nil _)))) H).
    + now apply (IH acc).
Qed.

Lemma load_devices_registered (database : FrequencyDatabase) (ds : list Device) :
  load_devices database = Ok ds -> Forall registered ds.
Proof. unfold load_devices. now apply load_loop_registered. Qed.

Lemma init_registered (database : FrequencyDatabase) (self : InterferenceDetector) :
  init database = Ok self ->
  Forall registered (devices self) /\ interference_results self = [].
Proof.
  unfold init. destruct (load_devices database) as [ds|e] eqn:E; simpl;
    [|discriminate].
  intros [= <-]. simpl.
  split; [exact (load_devices_registered database ds E)|reflexivity].
Qed.

Lemma load_loop_skip sm wm (pre post : list DeviceRecord) (r : DeviceRecord) :
  no_id (dev_id r) ->
  forall acc,
    load_loop sm wm (pre ++ r :: post) acc = load_loop sm wm (pre ++ post) acc.
Proof.
  intros Hr. induction pre as [|p pre IH]; simpl; intros acc.
  - now rewrite (load_device_no_id sm wm r Hr).
  - destruct (load_device sm wm p) as [[d|]|e]; simpl; auto.
Qed.

(** ** Scorer *)

Lemma or_default_nonzero (x : option R) (d : R) :
  d <> 0 -> Py.or_default x d <> 0.
Proof.
  intros Hd. unfold Py.or_default. destruct x as [v|]; [|exact Hd].
  destruct (Py.eqb v 0) eqn:E; [exact Hd|now apply eqb_false_iff].
Qed.

Lemma or_default_replaced (x : option R) (d : R) :
  x = None \/ x = Some 0 -> Py.or_default x d = d.
Proof.
  intros [-> | ->]; simpl; [reflexivity|].
  now rewrite (proj2 (eqb_true_iff 0 0) eq_refl).
Qed.

Lemma or_default_kept (v d : R) : v <> 0 -> Py.or_default (Some v) d = v.
Proof.
  intros Hv. simpl. now rewrite (proj2 (eqb_false_iff v 0) Hv).
Qed.

Lemma or_default_positive (x : option R) (d : R) :
  0 < d -> (forall w, x = Some w -> 0 <= w) -> 0 < Py.or_default x d.
Proof.
  intros Hd Hx. unfold Py.or_default. destruct x as [v|]; [|exact Hd].
  destruct (Py.eqb v 0) eqn:E; [exact Hd|].
  apply eqb_false_iff in E. specialize (Hx v eq_refl). lra.
Qed.

Lemma min_channel_width_nonzero (d1 d2 : Device) : min_channel_width d1 d2 <> 0.
Proof.
  unfold min_channel_width, Rmin.
  destruct (Rle_dec _ _); apply or_default_nonzero; lra.
Qed.

Lemma min_channel_width_positive (d1 d2 : Device) :
  (forall w, channel_width d1 = Some w -> 0 <= w) ->
  (forall w, channel_width d2 = Some w -> 0 <= w) ->
  0 < min_channel_width d1 d2.
Proof.
  intros H1 H2. unfold min_channel_width, Rmin.
  destruct (Rle_dec _ _); apply or_default_positive; auto; lra.
Qed.

Lemma distance_factor_unknown : distance_factor None = Ok 1.
Proof. reflexivity. Qed.

Lemma distance_factor_known (d : R) :
  0 < d ->
  distance_factor (Some d) =
    Ok (0.1 + 0.9 / (1 + exp ((ln d / ln 10 - 3) * 2))).
Proof.
  intros Hd. unfold distance_factor. rewrite (log10_positive d Hd). cbn [bind].
  rewrite div_ok; [reflexivity|].
  pose proof (exp_pos ((ln d / ln 10 - 3) * 2)). lra.
Qed.

Lemma distance_factor_raises (d : R) :
  d <= 0 -> distance_factor (Some d) = Raise ValueError.
Proof.
  intros Hd. unfold distance_factor. now rewrite (log10_nonpositive d Hd).
Qed.

Lemma distance_factor_positive (distance : option R) (f : R) :
  distance_factor distance = Ok f -> 0 < f.
Proof.
  destruct distance as [d|]; [|intros [= <-]; lra].
  destruct (Rlt_dec 0 d) as [Hd|Hd].
  - rewrite (distance_factor_known d Hd). intros [= <-].
    pose proof (exp_pos ((ln d / ln 10 - 3) * 2)) as He.
    assert (0 < 0.9 / (1 + exp ((ln d / ln 10 - 3) * 2))).
    { apply Rdiv_lt_0_compat; lra. }
    lra.
  - rewrite distance_factor_raises by lra. discriminate.
Qed.

Lemma score_returns (overlap : R) (distance spatial : option R) (d1 d2 : Device) :
  (forall d, distance = Some d -> 0 < d) ->
  exists f,
    distance_factor distance = Ok f /\
    _calculate_interference_score overlap distance spatial d1 d2 =
      Ok (overlap / min_channel_width d1 d2 * 100 * f
          * spatial_factor spatial * tx_power_factor d1 d2).
Proof.
  intros Hd. unfold _calculate_interference_score.
  rewrite (div_ok _ _ (min_channel_width_nonzero d1 d2)). cbn [bind].
  destruct distance as [d|].
  - rewrite (distance_factor_known d (Hd d eq_refl)). cbn [bind]. eauto.
  - rewrite distance_factor_unknown. cbn [bind]. eauto.
Qed.

Lemma score_raises (overlap d : R) (spatial : option R) (d1 d2 : Device) :
  d <= 0 ->
  _calculate_interference_score overlap (Some d) spatial d1 d2 = Raise ValueError.
Proof.
  intros Hd. unfold _calculate_interference_score.
  rewrite (div_ok _ _ (min_channel_width_nonzero d1 d2)). cbn [bind].
  now rewrite (distance_factor_raises d Hd).
Qed.

(** ** The double loop *)

Lemma before_nil {A : Type} (a b : A) : ~ before [] a b.
Proof. intros (l1 & l2 & l3 & H). now destruct l1. Qed.

Lemma before_cons {A : Type} (x : A) (l : list A) (a b : A) :
  before (x :: l) a b <-> (a = x /\ In b l) \/ before l a b.
Proof.
  split.
  - intros (l1 & l2 & l3 & H). destruct l1 as [|y l1]; simpl in H.
    + injection H as -> ->. left. split; [reflexivity|].
      apply in_or_app. right. now left.
    + injection H as -> ->. right. now exists l1, l2, l3.
  - intros [[-> Hb] | (l1 & l2 & l3 & ->)].
    + apply in_split in Hb. destruct Hb as (l2 & l3 & ->).
      now exists [], l2, l3.
    + now exists (x :: l1), l2, l3.
Qed.

Lemma before_filter {A : Type} (p : A -> bool) (l : list A) (a b : A) :
  before (filter p l) a b <-> before l a b /\ p a = true /\ p b = true.
Proof.
  induction l as [|x l IH]; simpl.
  - split; [intros H; now apply before_nil in H|intros [H _]; now apply before_nil in H].
  - destruct (p x) eqn:Hx.
    + rewrite !before_cons, IH, filter_In. split.
      * intros [[-> [Hb Hpb]] | (H & Ha & Hb)]; auto.
      * intros [[[-> Hb] | H] [Ha Hpb]]; auto.
    + rewrite before_cons, IH. split.
      * intros (H & Ha & Hb); auto.
      * intros [[[-> Hb] | H] [Ha Hpb]]; [congruence|auto].
Qed.

Section LoopFacts.
Variable geodesic_meters geodesic_bearing : point -> point -> result R.
Variable str : R -> string.
Variable self_devices : list Device.

Let analyze := analyze_pair geodesic_meters geodesic_bearing str self_devices.
Let inner := inner_loop geodesic_meters geodesic_bearing str self_devices.
Let outer := outer_loop geodesic_meters geodesic_bearing str self_devices.

Lemma inner_loop_ok (d1 : Device) (rest : list Device) :
  forall acc out,
    inner d1 rest acc = Ok out ->
    exists new,
      out = acc ++ new /\
      forall r, In r new <-> exists d2, In d2 rest /\ analyze d1 d2 = Ok (Some r).
Proof.
  induction rest as [|d2 rest IH]; simpl; intros acc out H.
  - injection H as <-. exists []. split; [now rewrite app_nil_r|].
    intros r. split; [easy|now intros (d & [] & _)].
  - unfold inner in H. simpl in H.
    destruct (analyze_pair _ _ _ _ d1 d2) as [o|e] eqn:E; simpl in H;
      [|discriminate].
    apply IH in H. destruct H as (new & -> & Hnew).
    destruct o as [x|].
    + exists (x :: new). split; [now rewrite <- app_assoc|].
      intros r. simpl. rewrite Hnew. split.
      * intros [<- | (d & Hd & Hr)]; [exists d2; auto|exists d; auto].
      * intros (d & [<- | Hd] & Hr).
        -- left. unfold analyze in Hr. congruence.
        -- right. exists d; auto.
    + exists new. split; [reflexivity|].
      intros r. rewrite Hnew. split.
      * intros (d & Hd & Hr). exists d; auto.
      * intros (d & [<- | Hd] & Hr).
        -- unfold analyze in Hr. congruence.
        -- exists d; auto.
Qed.

Lemma outer_loop_ok (freq_devices : list Device) :
  forall acc out,
    outer freq_devices acc = Ok out ->
    exists new,
      out = acc ++ new /\
      forall r, In r new <->
        exists d1 d2, before freq_devices d1 d2 /\ analyze d1 d2 = Ok (Some r).
Proof.
  induction freq_devices as [|d1 rest IH]; simpl; intros acc out H.
  - injection H as <-. exists []. split; [now rewrite app_nil_r|].
    intros r. split; [easy|]. intros (a & b & Hb & _). now apply before_nil in Hb.
  - unfold outer in H. simpl in H.
    destruct (inner_loop _ _ _ _ d1 rest acc) as [acc'|e] eqn:E; simpl in H;
      [|discriminate].
    apply inner_loop_ok in E. destruct E as (new1 & -> & H1).
    apply IH in H. destruct H as (new2 & -> & H2).
    exists (new1 ++ new2). split; [now rewrite app_assoc|].
    intros r. rewrite in_app_iff, H1, H2. split.
    + intros [(d2 & Hd & Hr) | (a & b & Hab & Hr)].
      * exists d1, d2. split; [apply before_cons; auto|exact Hr].
      * exists a, b. split; [apply before_cons; auto|exact Hr].
    + intros (a & b & Hab & Hr). apply before_cons in Hab.
      destruct Hab as [[-> Hb] | Hab]; [left; eauto|right; eauto].
Qed.



Lemma inner_loop_all_ok (d1 : Device) (rest : list Device) :
  forall acc out,
    inner d1 rest acc = Ok out ->
    forall d2, In d2 rest -> exists o, analyze d1 d2 = Ok o.
Proof.
  induction rest as [|d rest IH]; simpl; intros acc out H d2 Hd; [easy|].
  unfold inner in H. simpl in H.
  destruct (analyze_pair _ _ _ _ d1 d) as [o|e] eqn:E; simpl in H;
    [|discriminate].
  destruct Hd as [<- | Hd]; [now exists o|].
  now apply (IH _ _ H).
Qed.

Lemma outer_loop_all_ok (freq_devices : list Device) :
  forall acc out,
    outer freq_devices acc = Ok out ->
    forall d1 d2, before freq_devices d1 d2 -> exists o, analyze d1 d2 = Ok o.
Proof.
  induction freq_devices as [|d rest IH]; simpl; intros acc out H d1 d2 Hb.
  - now apply before_nil in Hb.
  - unfold outer in H. simpl in H.
    destruct (inner_loop _ _ _ _ d rest acc) as [acc'|e] eqn:E; simpl in H;
      [|discriminate].
    apply before_cons in Hb. destruct Hb as [[-> Hd] | Hb].
    + now apply (inner_loop_all_ok _ _ _ _ E).
    + now apply (IH _ _ H).
Qed.

End LoopFacts.

(** ** One pair, and the whole analysis *)

Lemma opt_str_eqb_false (x y : option string) :
  Py.opt_str_eqb x y = false <-> x <> y.
Proof.
  destruct x as [a|], y as [b|]; simpl; try (split; congruence).
  rewrite String.eqb_neq. split; congruence.
Qed.

Lemma before_short {A : Type} (l : list A) (a b : A) :
  (List.length l < 2)%nat -> ~ before l a b.
Proof.
  intros Hl (l1 & l2 & l3 & ->).
  rewrite length_app in Hl. simpl in Hl. rewrite length_app in Hl.
  simpl in Hl. lia.
Qed.

Section AnalysisFacts.
Variable geodesic_meters geodesic_bearing : point -> point -> result R.
Variable str : R -> string.

Let analyze := analyze_pair geodesic_meters geodesic_bearing str.
Let detect := detect_frequency_interference geodesic_meters geodesic_bearing str.

Lemma analyze_pair_some (ds : list Device) (d1 d2 : Device) (r : InterferenceResult) :
  analyze ds d1 d2 = Ok (Some r) ->
  site_id d1 <> site_id d2 /\
  device1 r = d1 /\ device2 r = d2 /\
  exists min1 max1 min2 max2,
    freq_min d1 = Some min1 /\ freq_max d1 = Some max1 /\
    freq_min d2 = Some min2 /\ freq_max d2 = Some max2 /\
    ranges_overlap min1 max1 min2 max2 /\
    frequency_overlap r = Rmin max1 max2 - Rmax min1 min2.
Proof.
  unfold analyze, analyze_pair.
  destruct (Py.opt_str_eqb (site_id d1) (site_id d2)) eqn:Hs; [discriminate|].
  apply opt_str_eqb_false in Hs.
  destruct (freq_min d1) as [min1|]; [|discriminate].
  destruct (freq_max d1) as [max1|]; [|discriminate].
  destruct (freq_min d2) as [min2|]; [|discriminate].
  destruct (freq_max d2) as [max2|]; [|discriminate].
  destruct (Py.leb min1 max2) eqn:H1; simpl; [|discriminate].
  destruct (Py.leb min2 max1) eqn:H2; simpl; [|discriminate].
  apply leb_true_iff in H1, H2.
  destruct (_calculate_interference_score _ _ _ _ _) as [s|e]; simpl;
    [|discriminate].
  intros [= <-]. simpl. repeat split; try assumption.
  exists min1, max1, min2, max2. unfold ranges_overlap.
  repeat split; try reflexivity; lra.
Qed.

Lemma analyze_pair_returns (ds : list Device) (d1 d2 : Device) :
  (forall d, pair_distance geodesic_meters d1 d2 = Some d -> 0 < d) ->
  exists o, analyze ds d1 d2 = Ok o.
Proof.
  intros Hd. unfold analyze, analyze_pair.
  destruct (Py.opt_str_eqb _ _); [eauto|].
  destruct (freq_min d1); [|eauto]. destruct (freq_max d1); [|eauto].
  destruct (freq_min d2); [|eauto]. destruct (freq_max d2); [|eauto].
  destruct (_ && _)%bool; [|eauto].
  edestruct score_returns as (f & _ & Hs); [exact Hd|].
  rewrite Hs. cbn [bind]. eauto.
Qed.


Lemma detect_ok (self : InterferenceDetector) rs self' :
  detect self = Ok (rs, self') ->
  self' = {| devices := devices self; interference_results := rs |} /\
  non_increasing (map interference_score rs) /\
  forall r, In r rs <->
    exists d1 d2,
      before (filter has_frequency (devices self)) d1 d2 /\
      analyze (devices self) d1 d2 = Ok (Some r).
Proof.
  unfold detect, detect_frequency_interference.
  destruct (Nat.ltb _ 2) eqn:Hlen.
  - intros [= <- <-]. split; [reflexivity|]. split; [constructor|].
    intros r. split; [easy|]. intros (a & b & Hab & _).
    apply Nat.ltb_lt in Hlen. now apply before_short in Hab.
  - destruct (outer_loop _ _ _ _ _ _) as [found|e] eqn:E; simpl; [|discriminate].
    intros [= <- <-]. split; [reflexivity|].
    split; [apply sort_desc_non_increasing|].
    apply outer_loop_ok in E. destruct E as (new & -> & Hnew).
    intros r. rewrite sort_desc_in. simpl. apply Hnew.
Qed.

Lemma detect_ok_pairs (self : InterferenceDetector) rs self' :
  detect self = Ok (rs, self') ->
  forall d1 d2,
    before (filter has_frequency (devices self)) d1 d2 ->
    exists o, analyze (devices self) d1 d2 = Ok o.
Proof.
  unfold detect, detect_frequency_interference.
  destruct (Nat.ltb _ 2) eqn:Hlen.
  - intros _ d1 d2 Hb. apply Nat.ltb_lt in Hlen. now apply before_short in Hb.
  - destruct (outer_loop _ _ _ _ _ _) as [found|e] eqn:E; simpl; [|discriminate].
    intros _. now apply (outer_loop_all_ok _ _ _ _ _ _ _ E).
Qed.


End AnalysisFacts.

(** ** Report assembler *)

Lemma ranked_issues_scores (i : nat) (l : list InterferenceResult) :
  map issue_interference_score (ranked_issues i l) = map interference_score l.
Proof.
  revert i. induction l as [|r l IH]; intros i; simpl; [reflexivity|].
  now rewrite IH.
Qed.

Lemma plain_issues_scores (l : list InterferenceResult) :
  map issue_interference_score (map (issue_of None) l) = map interference_score l.
Proof. rewrite map_map. reflexivity. Qed.

Section ReportFacts.
Variable geodesic_meters geodesic_bearing : point -> point -> result R.
Variable str : R -> string.
Variable DBSCAN_fit : R -> nat -> list (list (option R)) -> result (list Z).

Let detect := detect_frequency_interference geodesic_meters geodesic_bearing str.
Let report :=
  generate_interference_report geodesic_meters geodesic_bearing str DBSCAN_fit.

Lemma report_issues (self : InterferenceDetector) rep self2 :
  report self = Ok (rep, self2) ->
  (match interference_results self with
   | [] => exists rs, detect self = Ok (rs, self2)
   | _ :: _ => self2 = self
   end) /\
  top_issues rep = ranked_issues O (firstn 10 (interference_results self2)) /\
  all_issues rep = map (issue_of None) (interference_results self2) /\
  total_devices (summary rep) = List.length (devices self2) /\
  devices_with_frequency (summary rep) =
    List.length
      (filter (fun d => match frequency d with Some _ => true | None => false end)
              (devices self2)).
Proof.
  unfold report, generate_interference_report.
  destruct (interference_results self) as [|r0 rs0] eqn:Hres.
  - destruct (detect_frequency_interference _ _ _ self) as [[rs s1]|e] eqn:E;
      cbn [bind snd]; [|discriminate].
    destruct (cluster_interference_issues _ _ _ _) as [c|e]; cbn [bind];
      [|discriminate].
    intros [= <- <-]. simpl. split; [exists rs; exact E|]. now repeat split.
  - cbn [bind].
    destruct (cluster_interference_issues _ _ _ _) as [c|e]; cbn [bind];
      [|discriminate].
    intros [= <- <-]. simpl. now repeat split.
Qed.

Lemma report_sorted (self : InterferenceDetector) rep self2 :
  non_increasing (map interference_score (interference_results self)) ->
  report self = Ok (rep, self2) ->
  non_increasing (map issue_interference_score (top_issues rep)) /\
  non_increasing (map issue_interference_score (all_issues rep)).
Proof.
  intros Hsorted H. apply report_issues in H.
  destruct H as (Hself & -> & -> & _).
  rewrite ranked_issues_scores, plain_issues_scores, <- firstn_map.
  assert (Hs2 : non_increasing (map interference_score (interference_results self2))).
  { destruct (interference_results self) as [|r0 rs0] eqn:Hres.
    - destruct Hself as (rs & Hd). apply detect_ok in Hd.
      destruct Hd as (-> & Hs & _). exact Hs.
    - subst self2. now rewrite Hres. }
  split; [now apply non_increasing_firstn|exact Hs2].
Qed.

End ReportFacts.

(** ** What every result of a run records *)

Lemma before_in {A : Type} (l : list A) (a b : A) :
  before l a b -> In a l /\ In b l.
Proof.
  intros (l1 & l2 & l3 & ->). split.
  - apply in_or_app. right. now left.
  - apply in_or_app. right. right. apply in_or_app. right. now left.
Qed.

Lemma registered_range (d : Device) :
  registered d -> has_frequency d = true ->
  exists f w,
    frequency d = Some f /\ channel_width d = Some w /\
    freq_min d = Some (f - w / 2) /\ freq_max d = Some (f + w / 2).
Proof.
  intros (_ & Hrange & _) Hf. unfold has_frequency in Hf.
  destruct (frequency d) as [f|]; [|discriminate].
  destruct (channel_width d) as [w|]; [|discriminate].
  injection Hrange as -> ->. now exists f, w.
Qed.

Lemma detect_result_fields
    (geodesic_meters geodesic_bearing : point -> point -> result R)
    (str : R -> string) (self : InterferenceDetector) rs self' r :
  Forall registered (devices self) ->
  detect_frequency_interference geodesic_meters geodesic_bearing str self
    = Ok (rs, self') ->
  In r rs ->
  before (devices self) (device1 r) (device2 r) /\
  site_id (device1 r) <> site_id (device2 r) /\
  exists f1 w1 f2 w2,
    frequency (device1 r) = Some f1 /\ channel_width (device1 r) = Some w1 /\
    frequency (device2 r) = Some f2 /\ channel_width (device2 r) = Some w2 /\
    freq_min (device1 r) = Some (f1 - w1 / 2) /\
    freq_max (device1 r) = Some (f1 + w1 / 2) /\
    freq_min (device2 r) = Some (f2 - w2 / 2) /\
    freq_max (device2 r) = Some (f2 + w2 / 2) /\
    ranges_overlap (f1 - w1 / 2) (f1 + w1 / 2) (f2 - w2 / 2) (f2 + w2 / 2) /\
    frequency_overlap r =
      Rmin (f1 + w1 / 2) (f2 + w2 / 2) - Rmax (f1 - w1 / 2) (f2 - w2 / 2).
Proof.
  intros Hreg Hdet Hr. rewrite Forall_forall in Hreg.
  apply detect_ok in Hdet. destruct Hdet as (_ & _ & Hrs).
  apply Hrs in Hr. destruct Hr as (d1 & d2 & Hb & Ha).
  apply before_filter in Hb. destruct Hb as (Hb & Hf1 & Hf2).
  destruct (before_in _ _ _ Hb) as (Hi1 & Hi2).
  destruct (registered_range d1 (Hreg d1 Hi1) Hf1) as (f1 & w1 & E1 & E2 & E3 & E4).
  destruct (registered_range d2 (Hreg d2 Hi2) Hf2) as (f2 & w2 & E5 & E6 & E7 & E8).
  apply analyze_pair_some in Ha.
  destruct Ha as (Hs & Hd1 & Hd2 &
                  min1 & max1 & min2 & max2 & M1 & M2 & M3 & M4 & Hov & Hw).
  rewrite E3 in M1. rewrite E4 in M2. rewrite E7 in M3. rewrite E8 in M4.
  injection M1 as <-. injection M2 as <-.
  injection M3 as <-. injection M4 as <-.
  rewrite Hd1, Hd2.
  split; [exact Hb|]. split; [exact Hs|].
  exists f1, w1, f2, w2.
  exact (conj E1 (conj E2 (conj E5 (conj E6
           (conj E3 (conj E4 (conj E7 (conj E8 (conj Hov Hw))))))))).
Qed.

(** ** Claims about the result set *)

(** C1. After [detect_frequency_interference] returns, the results it
    returns, which it has also stored in the detector, are in non-increasing
    order of interference score; and so are the [top_issues] and
    [all_issues] of a report generated from that detector. *)
Theorem detect_results_sorted
    (geodesic_meters geodesic_bearing : point -> point -> result R)
    (str : R -> string)
    (DBSCAN_fit : R -> nat -> list (list (option R)) -> result (list Z))
    (self : InterferenceDetector) rs self' :
  detect_frequency_interference geodesic_meters geodesic_bearing str self
    = Ok (rs, self') ->
  non_increasing (map interference_score rs) /\
  interference_results self' = rs /\
  forall rep self'',
    generate_interference_report
      geodesic_meters geodesic_bearing str DBSCAN_fit self' = Ok (rep, self'') ->
    non_increasing (map issue_interference_score (top_issues rep)) /\
    non_increasing (map issue_interference_score (all_issues rep)).
Proof.
  intros H. apply detect_ok in H. destruct H as (-> & Hs & _).
  split; [exact Hs|]. split; [reflexivity|].
  intros rep self''. now apply report_sorted.
Qed.


(** ** Running the engine on the example snapshots *)

Lemma init_two_radios (f1 w1 f2 w2 : R) (p1 p2 : option R) (coords : option point) :
  init (two_radios f1 w1 f2 w2 p1 p2 coords) =
    Ok {| devices := [radio_A f1 w1 p1 coords; radio_B f2 w2 p2 coords];
          interference_results := [] |}.
Proof. destruct coords as [[lat lon]|]; reflexivity. Qed.

Section Evaluation.
Variable geodesic_meters geodesic_bearing : point -> point -> result R.
Variable str : R -> string.

Lemma analyze_pair_overlapping (ds : list Device) (d1 d2 : Device)
    (min1 max1 min2 max2 : R) :
  site_id d1 <> site_id d2 ->
  freq_min d1 = Some min1 -> freq_max d1 = Some max1 ->
  freq_min d2 = Some min2 -> freq_max d2 = Some max2 ->
  ranges_overlap min1 max1 min2 max2 ->
  analyze_pair geodesic_meters geodesic_bearing str ds d1 d2 =
    (let overlap := Rmin max1 max2 - Rmax min1 min2 in
     let distance := pair_distance geodesic_meters d1 d2 in
     let spatial_overlap := _calculate_spatial_overlap geodesic_bearing d1 d2 in
     interference_score <-
       _calculate_interference_score overlap distance spatial_overlap d1 d2 ;;
     Ok (Some {|
       device1 := d1; device2 := d2;
       frequency_overlap := overlap;
       distance := distance;
       spatial_overlap := spatial_overlap;
       interference_score := interference_score;
       recommendation :=
         _generate_recommendation str ds d1 d2 overlap distance interference_score
     |})).
Proof.
  intros Hs E1 E2 E3 E4 [H1 H2]. unfold analyze_pair.
  rewrite (proj2 (opt_str_eqb_false _ _) Hs), E1, E2, E3, E4.
  rewrite (proj2 (leb_true_iff _ _) H1).
  rewrite (proj2 (leb_true_iff min2 max1)) by lra. reflexivity.
Qed.

Lemma detect_two (a b : Device) :
  has_frequency a = true -> has_frequency b = true ->
  detect_frequency_interference geodesic_meters geodesic_bearing str
    {| devices := [a; b]; interference_results := [] |} =
  (o <- analyze_pair geodesic_meters geodesic_bearing str [a; b] a b ;;
   let found := match o with Some r => [r] | None => [] end in
   Ok (found, {| devices := [a; b]; interference_results := found |})).
Proof.
  intros Ha Hb. unfold detect_frequency_interference. simpl.
  rewrite Ha, Hb. simpl.
  destruct (analyze_pair _ _ _ _ a b) as [[r|]|e]; reflexivity.
Qed.

End Evaluation.

Lemma filter_step {A : Type} (p : A -> bool) (x : A) (l : list A) :
  filter p (x :: l) = if p x then x :: filter p l else filter p l.
Proof. reflexivity. Qed.

Lemma existsb_step {A : Type} (p : A -> bool) (x : A) (l : list A) :
  existsb p (x :: l) = (p x || existsb p l)%bool.
Proof. reflexivity. Qed.

Lemma example_alternative :
  _find_alternative_frequency [example_A; example_B] example_A example_B
  = Some (5180, 5200).
Proof.
  unfold _find_alternative_frequency, potential_frequencies, Py.mem.
  cbn [flat_map example_A example_B radio_A radio_B radio_device frequency app].
  set (unused := fun f : R => negb (existsb (Py.eqb f) [5180; 5185])).
  assert (H1 : unused 5180 = false).
  { unfold unused. rewrite existsb_step. now py_compare. }
  assert (H2 : unused 5200 = true).
  { unfold unused. rewrite !existsb_step. now py_compare. }
  rewrite filter_step, H1, filter_step, H2.
  rewrite existsb_step. now py_compare.
Qed.

Lemma Rmin_eval (a b c : R) : (a <= b /\ c = a) \/ (b <= a /\ c = b) -> Rmin a b = c.
Proof. unfold Rmin. destruct (Rle_dec a b); lra. Qed.

Lemma Rmax_eval (a b c : R) : (a <= b /\ c = b) \/ (b <= a /\ c = a) -> Rmax a b = c.
Proof. unfold Rmax. destruct (Rle_dec a b); lra. Qed.

Lemma example_min_channel_width : min_channel_width example_A example_B = 20.
Proof.
  unfold min_channel_width. cbn [example_A example_B radio_A radio_B radio_device channel_width].
  rewrite or_default_kept by lra. apply Rmin_eval. lra.
Qed.

Lemma example_overlap : frequency_overlap example_result = 15.
Proof.
  cbn [example_result frequency_overlap].
  rewrite (Rmin_eval _ _ 5190), (Rmax_eval _ _ 5175) by lra. lra.
Qed.

Lemma example_score : interference_score example_result = 75.
Proof.
  cbn [example_result interference_score].
  rewrite (Rmin_eval _ _ 5190), (Rmax_eval _ _ 5175) by lra.
  rewrite example_min_channel_width.
  cbn [spatial_factor tx_power_factor example_A example_B radio_A radio_B
       radio_device tx_power]. lra.
Qed.

Lemma example_recommendation (overlap : R) :
  _generate_recommendation str_hash [example_A; example_B] example_A example_B
    overlap None (interference_score example_result)
  = recommendation example_result.
Proof.
  unfold _generate_recommendation, severity_label.
  rewrite example_score, example_alternative. py_compare.
  cbn [example_A example_B radio_A radio_B radio_device frequency Py.opt_eqb].
  py_compare. reflexivity.
Qed.

Lemma example_detect (geodesic_meters geodesic_bearing : point -> point -> result R) :
  detect_frequency_interference geodesic_meters geodesic_bearing str_hash
    example_detector
  = Ok ([example_result], example_detected).
Proof.
  unfold example_detector. rewrite detect_two by reflexivity.
  rewrite (analyze_pair_overlapping _ _ _ _ _ _
             (5180 - 20 / 2) (5180 + 20 / 2) (5185 - 20 / 2) (5185 + 20 / 2));
    try reflexivity; [|discriminate|unfold ranges_overlap; lra].
  cbv zeta.
  change (pair_distance geodesic_meters example_A example_B) with (@None R).
  change (_calculate_spatial_overlap geodesic_bearing example_A example_B)
    with (@None R).
  destruct (score_returns
              (Rmin (5180 + 20 / 2) (5185 + 20 / 2)
               - Rmax (5180 - 20 / 2) (5185 - 20 / 2))
              None None example_A example_B) as (f & Hf & Hs); [discriminate|].
  rewrite distance_factor_unknown in Hf. injection Hf as <-.
  rewrite Hs. cbn [bind].
  change ((Rmin (5180 + 20 / 2) (5185 + 20 / 2)
           - Rmax (5180 - 20 / 2) (5185 - 20 / 2))
          / min_channel_width example_A example_B * 100 * 1
          * spatial_factor None * tx_power_factor example_A example_B)
    with (interference_score example_result).
  rewrite !example_recommendation. reflexivity.
Qed.

Lemma detect_uncoordinated
    (geodesic_meters geodesic_bearing : point -> point -> result R)
    (str : R -> string) (f1 w1 f2 w2 : R) (p1 p2 : option R) :
  ranges_overlap (f1 - w1 / 2) (f1 + w1 / 2) (f2 - w2 / 2) (f2 + w2 / 2) ->
  let a := radio_A f1 w1 p1 None in
  let b := radio_B f2 w2 p2 None in
  let r := uncoordinated_result str [a; b] a b
             (f1 - w1 / 2) (f1 + w1 / 2) (f2 - w2 / 2) (f2 + w2 / 2) in
  detect_frequency_interference geodesic_meters geodesic_bearing str
    {| devices := [a; b]; interference_results := [] |}
  = Ok ([r], {| devices := [a; b]; interference_results := [r] |}).
Proof.
  intros Hov a b r. rewrite detect_two by reflexivity.
  rewrite (analyze_pair_overlapping _ _ _ _ _ _
             (f1 - w1 / 2) (f1 + w1 / 2) (f2 - w2 / 2) (f2 + w2 / 2));
    try reflexivity; [|discriminate|exact Hov].
  cbv zeta.
  change (pair_distance geodesic_meters a b) with (@None R).
  change (_calculate_spatial_overlap geodesic_bearing a b) with (@None R).
  destruct (score_returns
              (Rmin (f1 + w1 / 2) (f2 + w2 / 2) - Rmax (f1 - w1 / 2) (f2 - w2 / 2))
              None None a b) as (f & Hf & Hs); [discriminate|].
  rewrite distance_factor_unknown in Hf. injection Hf as <-.
  rewrite Hs. reflexivity.
Qed.

(** ** Ranges and overlap width of the results *)

Lemma overlap_width_nonneg (min1 max1 min2 max2 : R) :
  min1 <= max1 -> min2 <= max2 -> ranges_overlap min1 max1 min2 max2 ->
  0 <= Rmin max1 max2 - Rmax min1 min2.
Proof.
  intros H1 H2 [H3 H4]. unfold Rmin, Rmax.
  destruct (Rle_dec max1 max2), (Rle_dec min1 min2); lra.
Qed.

(** C7, as stated, fails: a channel width of -20 MHz on radio A gives a
    result whose first device has [freq_min = 5190 > 5170 = freq_max] and
    whose recorded overlap is -20. *)
Lemma inverted_range_result :
  init (two_radios 5180 (-20) 5180 20 None None None)
    = Ok {| devices := [inverted_A; inverted_B]; interference_results := [] |} /\
  detect_frequency_interference
    (geodesic_const (Ok 50)) (geodesic_const (Ok 0)) str_hash
    {| devices := [inverted_A; inverted_B]; interference_results := [] |}
    = Ok ([inverted_result],
          {| devices := [inverted_A; inverted_B];
             interference_results := [inverted_result] |}) /\
  freq_min (device1 inverted_result) = Some (5180 - -20 / 2) /\
  freq_max (device1 inverted_result) = Some (5180 + -20 / 2) /\
  5180 + -20 / 2 < 5180 - -20 / 2 /\
  frequency_overlap inverted_result < 0.
Proof.
  split; [apply init_two_radios|].
  split; [apply detect_uncoordinated; unfold ranges_overlap; lra|].
  split; [reflexivity|]. split; [reflexivity|]. split; [lra|].
  cbn [inverted_result uncoordinated_result frequency_overlap].
  rewrite (Rmin_eval _ _ (5180 + -20 / 2)), (Rmax_eval _ _ (5180 - -20 / 2)) by lra.
  lra.
Qed.

(** C7, amended. Every result of a run on a detector built from a snapshot
    records both frequency ranges and both channel widths; a device whose
    channel width is not negative has [freq_min <= freq_max], and when that
    holds of both devices the recorded overlap width is not negative. *)
Theorem result_ranges_ordered
    (geodesic_meters geodesic_bearing : point -> point -> result R)
    (str : R -> string)
    (database : FrequencyDatabase) (self : InterferenceDetector) rs self' r :
  init database = Ok self ->
  detect_frequency_interference geodesic_meters geodesic_bearing str self
    = Ok (rs, self') ->
  In r rs ->
  exists min1 max1 w1 min2 max2 w2,
    freq_min (device1 r) = Some min1 /\ freq_max (device1 r) = Some max1 /\
    channel_width (device1 r) = Some w1 /\
    freq_min (device2 r) = Some min2 /\ freq_max (device2 r) = Some max2 /\
    channel_width (device2 r) = Some w2 /\
    (0 <= w1 -> min1 <= max1) /\
    (0 <= w2 -> min2 <= max2) /\
    (0 <= w1 -> 0 <= w2 -> 0 <= frequency_overlap r).
Proof.
  intros Hinit Hdet Hr.
  apply init_registered in Hinit. destruct Hinit as (Hreg & _).
  destruct (detect_result_fields _ _ _ _ _ _ r Hreg Hdet Hr)
    as (_ & _ & f1 & w1 & f2 & w2 & E1 & E2 & E3 & E4 & M1 & M2 & M3 & M4 & Hov & Hw).
  exists (f1 - w1 / 2), (f1 + w1 / 2), w1, (f2 - w2 / 2), (f2 + w2 / 2), w2.
  repeat (split; [assumption|]).
  split; [intros; lra|]. split; [intros; lra|].
  intros H1 H2. rewrite Hw. apply overlap_width_nonneg; [lra|lra|exact Hov].
Qed.

Lemma result_ranges_ordered_witness :
  init (two_radios 5180 20 5185 20 None None None) = Ok example_detector /\
  detect_frequency_interference
    (geodesic_const (Ok 50)) (geodesic_const (Ok 0)) str_hash example_detector
    = Ok ([example_result], example_detected) /\
  In example_result [example_result] /\
  exists min1 max1 min2 max2,
    freq_min example_A = Some min1 /\ freq_max example_A = Some max1 /\
    freq_min example_B = Some min2 /\ freq_max example_B = Some max2 /\
    min1 <= max1 /\ min2 <= max2 /\
    0 <= frequency_overlap example_result.
Proof.
  split; [apply init_two_radios|]. split; [apply example_detect|].
  split; [now left|].
  destruct (result_ranges_ordered
              (geodesic_const (Ok 50)) (geodesic_const (Ok 0)) str_hash
              (two_radios 5180 20 5185 20 None None None) example_detector
              [example_result] example_detected example_result
              (init_two_radios 5180 20 5185 20 None None None)
              (example_detect (geodesic_const (Ok 50)) (geodesic_const (Ok 0)))
              (or_introl eq_refl))
    as (min1 & max1 & w1 & min2 & max2 & w2 &
        E1 & E2 & W1 & E3 & E4 & W2 & H1 & H2 & H3).
  injection W1 as <-. injection W2 as <-.
  exists min1, max1, min2, max2.
  repeat (split; [assumption|]).
  assert (Hw : 0 <= 20) by lra.
  split; [exact (H1 Hw)|]. split; [exact (H2 Hw)|exact (H3 Hw Hw)].
Defined.

(** ** The three-radio example *)

Lemma analyze_uncoordinated
    (geodesic_meters geodesic_bearing : point -> point -> result R)
    (str : R -> string) (ds : list Device) (d1 d2 : Device)
    (min1 max1 min2 max2 : R) :
  latitude d1 = None ->
  site_id d1 <> site_id d2 ->
  freq_min d1 = Some min1 -> freq_max d1 = Some max1 ->
  freq_min d2 = Some min2 -> freq_max d2 = Some max2 ->
  ranges_overlap min1 max1 min2 max2 ->
  analyze_pair geodesic_meters geodesic_bearing str ds d1 d2
  = Ok (Some (uncoordinated_result str ds d1 d2 min1 max1 min2 max2)).
Proof.
  intros Hlat Hs E1 E2 E3 E4 Hov.
  rewrite (analyze_pair_overlapping _ _ _ _ _ _ _ _ _ _ Hs E1 E2 E3 E4 Hov).
  cbv zeta.
  assert (Hd : pair_distance geodesic_meters d1 d2 = None)
    by (unfold pair_distance; now rewrite Hlat).
  assert (Ho : _calculate_spatial_overlap geodesic_bearing d1 d2 = None)
    by (unfold _calculate_spatial_overlap; now rewrite Hlat).
  rewrite Hd, Ho.
  destruct (score_returns (Rmin max1 max2 - Rmax min1 min2) None None d1 d2)
    as (f & Hf & Hscore); [discriminate|].
  rewrite distance_factor_unknown in Hf. injection Hf as <-.
  rewrite Hscore. reflexivity.
Qed.

Lemma radio_min_channel_width (i1 n1 s1 i2 n2 s2 : string) (f1 f2 : R)
    (p1 p2 : option R) (c1 c2 : option point) :
  min_channel_width (radio_device i1 n1 s1 f1 20 p1 c1)
                    (radio_device i2 n2 s2 f2 20 p2 c2) = 20.
Proof.
  unfold min_channel_width. cbn [radio_device channel_width].
  rewrite or_default_kept by lra. apply Rmin_eval. lra.
Qed.

Lemma trio_scores :
  interference_score trio_AB = 75 /\
  interference_score trio_AC = 50 /\
  interference_score trio_BC = 75.
Proof.
  unfold trio_AB, trio_AC, trio_BC, uncoordinated_result.
  cbn [interference_score].
  unfold example_A, example_B, example_C, radio_A, radio_B, radio_C.
  rewrite !radio_min_channel_width.
  cbn [spatial_factor tx_power_factor radio_device tx_power].
  rewrite (Rmin_eval (5180 + 20 / 2) (5185 + 20 / 2) 5190) by lra.
  rewrite (Rmax_eval (5180 - 20 / 2) (5185 - 20 / 2) 5175) by lra.
  rewrite (Rmin_eval (5180 + 20 / 2) (5190 + 20 / 2) 5190) by lra.
  rewrite (Rmax_eval (5180 - 20 / 2) (5190 - 20 / 2) 5180) by lra.
  rewrite (Rmin_eval (5185 + 20 / 2) (5190 + 20 / 2) 5195) by lra.
  rewrite (Rmax_eval (5185 - 20 / 2) (5190 - 20 / 2) 5180) by lra.
  repeat split; lra.
Qed.

(** The analyzer finds the pairs in the order AB, AC, BC, with scores 75,
    50 and 75; the stable descending sort returns AB, BC, AC. *)
Lemma trio_detect (geodesic_meters geodesic_bearing : point -> point -> result R) :
  detect_frequency_interference geodesic_meters geodesic_bearing str_hash
    trio_detector
  = Ok ([trio_AB; trio_BC; trio_AC], trio_detected).
Proof.
  unfold detect_frequency_interference. cbn [trio_detector devices].
  change (filter has_frequency trio) with [example_A; example_B; example_C].
  cbn [List.length Nat.ltb Nat.leb outer_loop inner_loop].
  rewrite (analyze_uncoordinated _ _ _ trio example_A example_B
             (5180 - 20 / 2) (5180 + 20 / 2) (5185 - 20 / 2) (5185 + 20 / 2));
    try reflexivity; [|discriminate|unfold ranges_overlap; lra].
  cbn [bind app].
  rewrite (analyze_uncoordinated _ _ _ trio example_A example_C
             (5180 - 20 / 2) (5180 + 20 / 2) (5190 - 20 / 2) (5190 + 20 / 2));
    try reflexivity; [|discriminate|unfold ranges_overlap; lra].
  cbn [bind app].
  rewrite (analyze_uncoordinated _ _ _ trio example_B example_C
             (5185 - 20 / 2) (5185 + 20 / 2) (5190 - 20 / 2) (5190 + 20 / 2));
    try reflexivity; [|discriminate|unfold ranges_overlap; lra].
  cbn [bind app].
  fold trio_AB. fold trio_AC. fold trio_BC.
  destruct trio_scores as (SAB & SAC & SBC).
  cbn [Py.sort_desc Py.insert_desc]. rewrite SAC, SBC. py_compare.
  cbn [Py.insert_desc]. rewrite SAB, SBC. py_compare.
  reflexivity.
Qed.

(** ** The cluster analyzer and the report return *)

Lemma set_members_nonempty {K V : Type} (key_eqb : K -> K -> bool)
    (d : list (K * list V)) (k : K) (v : list V) :
  Forall (fun kv => snd kv <> []) d -> v <> [] ->
  Forall (fun kv => snd kv <> []) (Py.set key_eqb d k v).
Proof.
  intros Hd Hv. induction Hd as [|[k' v'] d Hk Hd IH]; simpl.
  - constructor; [exact Hv|constructor].
  - destruct (key_eqb k' k); constructor; try assumption.
Qed.

Lemma group_by_label_returns (results : list InterferenceResult)
    (labels : list Z) :
  forall i clusters,
    (i + List.length labels <= List.length results)%nat ->
    Forall (fun kv => snd kv <> []) clusters ->
    exists out,
      group_by_label results labels i clusters = Ok out /\
      Forall (fun kv => snd kv <> []) out.
Proof.
  induction labels as [|label labels IH]; simpl; intros i clusters Hlen Hc.
  - eauto.
  - destruct (Z.eqb label (-1)).
    + apply IH; [lia|exact Hc].
    + destruct (nth_error results i) as [r|] eqn:E.
      * apply IH; [lia|]. apply set_members_nonempty; [exact Hc|].
        now destruct (match Py.get Z.eqb clusters label with
                      | Some m => m | None => [] end).
      * apply nth_error_None in E. lia.
Qed.

Lemma all_cluster_stats_returns (clusters : list (Z * list InterferenceResult)) :
  Forall (fun kv => snd kv <> []) clusters ->
  exists stats, all_cluster_stats clusters = Ok stats.
Proof.
  induction 1 as [|[label members] clusters Hm Hc (stats & IH)]; simpl.
  - eauto.
  - unfold cluster_stats_of. rewrite div_ok.
    + cbn [bind]. rewrite IH. cbn [bind]. eauto.
    + apply not_0_INR. simpl in Hm. now destruct members.
Qed.

Lemma cluster_returns
    (DBSCAN_fit : R -> nat -> list (list (option R)) -> result (list Z))
    (self : InterferenceDetector) (eps : R) (min_samples : nat) (labels : list Z) :
  DBSCAN_fit eps min_samples (normalized_features (interference_results self))
    = Ok labels ->
  (List.length labels <= List.length (interference_results self))%nat ->
  exists info, cluster_interference_issues DBSCAN_fit self eps min_samples = Ok info.
Proof.
  intros Hfit Hlen. unfold cluster_interference_issues.
  destruct (interference_results self) as [|r rs] eqn:E; [eauto|].
  rewrite Hfit. cbn [bind].
  destruct (group_by_label_returns (r :: rs) labels O [])
    as (clusters & -> & Hne); [exact Hlen|constructor|].
  cbn [bind].
  destruct (all_cluster_stats_returns clusters Hne) as (stats & ->).
  cbn [bind]. eauto.
Qed.

Lemma report_returns
    (geodesic_meters geodesic_bearing : point -> point -> result R)
    (str : R -> string)
    (DBSCAN_fit : R -> nat -> list (list (option R)) -> result (list Z))
    (self : InterferenceDetector) (info : ClusterInfo) :
  interference_results self <> [] ->
  cluster_interference_issues DBSCAN_fit self 30 2%nat = Ok info ->
  exists rep,
    generate_interference_report
      geodesic_meters geodesic_bearing str DBSCAN_fit self = Ok (rep, self).
Proof.
  intros Hne Hinfo. unfold generate_interference_report.
  destruct (interference_results self) as [|r rs] eqn:E; [contradiction|].
  cbn [bind]. rewrite Hinfo. cbn [bind]. eauto.
Qed.

Lemma trio_report (geodesic_meters geodesic_bearing : point -> point -> result R) :
  exists rep,
    generate_interference_report
      geodesic_meters geodesic_bearing str_hash DBSCAN_one_cluster trio_detected
    = Ok (rep, trio_detected).
Proof.
  destruct (cluster_returns DBSCAN_one_cluster trio_detected 30 2%nat [0; 0; 0]%Z)
    as (info & Hinfo); [reflexivity|simpl; lia|].
  apply (report_returns _ _ _ _ _ info); [discriminate|exact Hinfo].
Qed.

(** ** Witnesses for the claims about the result set *)

Lemma detect_results_sorted_witness :
  detect_frequency_interference
    (geodesic_const (Ok 50)) (geodesic_const (Ok 0)) str_hash trio_detector
    = Ok ([trio_AB; trio_BC; trio_AC], trio_detected) /\
  non_increasing (map interference_score [trio_AB; trio_BC; trio_AC]) /\
  interference_results trio_detected = [trio_AB; trio_BC; trio_AC] /\
  exists rep,
    generate_interference_report
      (geodesic_const (Ok 50)) (geodesic_const (Ok 0)) str_hash
      DBSCAN_one_cluster trio_detected = Ok (rep, trio_detected) /\
    non_increasing (map issue_interference_score (top_issues rep)) /\
    non_increasing (map issue_interference_score (all_issues rep)).
Proof.
  split; [apply trio_detect|].
  destruct (detect_results_sorted
              (geodesic_const (Ok 50)) (geodesic_const (Ok 0)) str_hash
              DBSCAN_one_cluster trio_detector
              [trio_AB; trio_BC; trio_AC] trio_detected
              (trio_detect (geodesic_const (Ok 50)) (geodesic_const (Ok 0))))
    as (Hsorted & Hstored & Hreport).
  split; [exact Hsorted|]. split; [exact Hstored|].
  destruct (trio_report (geodesic_const (Ok 50)) (geodesic_const (Ok 0)))
    as (rep & Hrep).
  exists rep. split; [exact Hrep|]. exact (Hreport rep trio_detected Hrep).
Defined.


(** ** Claims about the scorer *)

(** C3, as stated, fails: two radios transmitting at -20 dBm, with 10 MHz of
    overlap on 20 MHz channels and nothing else known, score -25. *)
Lemma negative_power_score :
  _calculate_interference_score 10 None None
    (radio_A 5180 20 (Some (-20)) None) (radio_B 5180 20 (Some (-20)) None)
  = Ok (-25).
Proof.
  destruct (score_returns 10 None None
              (radio_A 5180 20 (Some (-20)) None)
              (radio_B 5180 20 (Some (-20)) None)) as (f & Hf & ->);
    [discriminate|].
  rewrite distance_factor_unknown in Hf. injection Hf as <-.
  f_equal.
  assert (Hw : min_channel_width (radio_A 5180 20 (Some (-20)) None)
                                 (radio_B 5180 20 (Some (-20)) None) = 20).
  { unfold min_channel_width.
    cbn [radio_A radio_B radio_device channel_width].
    rewrite or_default_kept by lra. apply Rmin_eval. lra. }
  rewrite Hw.
  cbn [spatial_factor tx_power_factor radio_A radio_B radio_device tx_power].
  lra.
Qed.

(** C3, amended. When the frequency overlap and the channel widths are not
    negative, the distance, if known, is positive, the spatial overlap, if
    known, is not negative, and the two transmit powers, if both known,
    average at least -10 dBm, [_calculate_interference_score] returns a
    score, and the score is not negative. *)
Theorem score_nonnegative
    (overlap : R) (distance spatial : option R) (d1 d2 : Device) :
  0 <= overlap ->
  (forall w, channel_width d1 = Some w -> 0 <= w) ->
  (forall w, channel_width d2 = Some w -> 0 <= w) ->
  (forall d, distance = Some d -> 0 < d) ->
  (forall s, spatial = Some s -> 0 <= s) ->
  (forall p1 p2, tx_power d1 = Some p1 -> tx_power d2 = Some p2 ->
                 -10 <= (p1 + p2) / 2) ->
  exists score,
    _calculate_interference_score overlap distance spatial d1 d2 = Ok score /\
    0 <= score.
Proof.
  intros Ho Hw1 Hw2 Hd Hs Hp.
  destruct (score_returns overlap distance spatial d1 d2 Hd) as (f & Hf & ->).
  eexists. split; [reflexivity|].
  pose proof (min_channel_width_positive d1 d2 Hw1 Hw2) as Hm.
  pose proof (distance_factor_positive _ _ Hf) as Hfpos.
  assert (Hq : 0 <= overlap / min_channel_width d1 d2).
  { apply Rle_mult_inv_pos; assumption. }
  assert (Hsf : 0 <= spatial_factor spatial).
  { unfold spatial_factor. destruct spatial as [s|]; [|lra].
    specialize (Hs s eq_refl). lra. }
  assert (Htx : 0 <= tx_power_factor d1 d2).
  { unfold tx_power_factor.
    destruct (tx_power d1) as [p1|]; [|lra].
    destruct (tx_power d2) as [p2|]; [|lra].
    specialize (Hp p1 p2 eq_refl eq_refl). lra. }
  apply Rmult_le_pos; [|exact Htx]. apply Rmult_le_pos; [|exact Hsf].
  apply Rmult_le_pos; [|lra]. apply Rmult_le_pos; [exact Hq|lra].
Qed.

Lemma score_nonnegative_witness :
  exists score,
    _calculate_interference_score 15 (Some 50) (Some 1)
      (radio_A 5180 20 (Some 20) None) (radio_B 5185 20 (Some 20) None)
    = Ok score /\
    0 <= score.
Proof.
  apply (score_nonnegative 15 (Some 50) (Some 1)
           (radio_A 5180 20 (Some 20) None) (radio_B 5185 20 (Some 20) None)).
  - lra.
  - intros w [= <-]. lra.
  - intros w [= <-]. lra.
  - intros d [= <-]. lra.
  - intros s [= <-]. lra.
  - intros p1 p2 [= <-] [= <-]. lra.
Defined.

(** C10. The divisor of the frequency factor is never zero: a channel width
    that is missing or 0 is replaced by 20 before the minimum is taken, the
    division returns, and the scorer never raises [ZeroDivisionError]. When
    the channel widths are not negative the divisor is positive, and at
    least any positive bound (at most 20) on the positive widths. *)
Theorem frequency_factor_divisor_nonzero
    (overlap : R) (distance spatial : option R) (d1 d2 : Device) :
  (channel_width d1 = None \/ channel_width d1 = Some 0 ->
   Py.or_default (channel_width d1) 20 = 20) /\
  (channel_width d2 = None \/ channel_width d2 = Some 0 ->
   Py.or_default (channel_width d2) 20 = 20) /\
  min_channel_width d1 d2 <> 0 /\
  Py.div overlap (min_channel_width d1 d2)
    = Ok (overlap / min_channel_width d1 d2) /\
  _calculate_interference_score overlap distance spatial d1 d2
    <> Raise ZeroDivisionError /\
  ((forall w, channel_width d1 = Some w -> 0 <= w) ->
   (forall w, channel_width d2 = Some w -> 0 <= w) ->
   0 < min_channel_width d1 d2 /\
   forall m, 0 < m <= 20 ->
     (forall w, channel_width d1 = Some w -> 0 < w -> m <= w) ->
     (forall w, channel_width d2 = Some w -> 0 < w -> m <= w) ->
     m <= min_channel_width d1 d2).
Proof.
  split; [apply or_default_replaced|]. split; [apply or_default_replaced|].
  split; [apply min_channel_width_nonzero|].
  split; [apply div_ok, min_channel_width_nonzero|].
  split.
  - destruct distance as [d|].
    + destruct (Rlt_dec 0 d) as [Hd|Hd].
      * destruct (score_returns overlap (Some d) spatial d1 d2) as (f & _ & ->);
          [now intros ? [= <-]|discriminate].
      * rewrite score_raises by lra. discriminate.
    + destruct (score_returns overlap None spatial d1 d2) as (f & _ & ->);
        [discriminate|discriminate].
  - intros H1 H2. split; [now apply min_channel_width_positive|].
    intros m Hm B1 B2.
    assert (Hb : forall x, (forall w, x = Some w -> 0 <= w) ->
                           (forall w, x = Some w -> 0 < w -> m <= w) ->
                           m <= Py.or_default x 20).
    { intros x Hx Bx. unfold Py.or_default. destruct x as [v|]; [|lra].
      destruct (Py.eqb v 0) eqn:E; [lra|]. apply eqb_false_iff in E.
      specialize (Hx v eq_refl). apply Bx; [reflexivity|lra]. }
    unfold min_channel_width, Rmin. destruct (Rle_dec _ _); auto.
Qed.

Lemma frequency_factor_divisor_nonzero_witness :
  (forall w, channel_width (radio_A 5180 0 None None) = Some w -> 0 <= w) /\
  (forall w, channel_width (radio_B 5185 40 None None) = Some w -> 0 <= w) /\
  Py.or_default (channel_width (radio_A 5180 0 None None)) 20 = 20 /\
  0 < min_channel_width (radio_A 5180 0 None None) (radio_B 5185 40 None None) /\
  20 <= min_channel_width (radio_A 5180 0 None None) (radio_B 5185 40 None None).
Proof.
  assert (H1 : forall w, channel_width (radio_A 5180 0 None None) = Some w -> 0 <= w)
    by (intros w [= <-]; lra).
  assert (H2 : forall w, channel_width (radio_B 5185 40 None None) = Some w -> 0 <= w)
    by (intros w [= <-]; lra).
  destruct (frequency_factor_divisor_nonzero 15 None None
              (radio_A 5180 0 None None) (radio_B 5185 40 None None))
    as (R1 & _ & _ & _ & _ & Hpos).
  destruct (Hpos H1 H2) as (Hp & Hbound).
  split; [exact H1|]. split; [exact H2|].
  split; [apply R1; now right|]. split; [exact Hp|].
  apply Hbound; [lra| |].
  - intros w [= <-]. lra.
  - intros w [= <-]. lra.
Defined.

(** ** Claim about the recommendation engine *)

(** C8. A score below 20 gives the no-action message and nothing else; a
    score above 70 gives a text that starts with the High severity label. *)
Theorem recommendation_bands
    (str : R -> string) (self_devices : list Device) (d1 d2 : Device)
    (overlap : R) (distance : option R) (score : R) :
  (score < 20 ->
   _generate_recommendation str self_devices d1 d2 overlap distance score
   = "Low interference risk. No action needed."%string) /\
  (score > 70 ->
   exists rest,
     _generate_recommendation str self_devices d1 d2 overlap distance score
     = ("Interference Severity: High. " ++ rest)%string).
Proof.
  split; intros Hs; unfold _generate_recommendation.
  - now rewrite (proj2 (ltb_true_iff score 20) Hs).
  - rewrite (proj2 (ltb_false_iff score 20)) by lra.
    unfold severity_label. rewrite (proj2 (ltb_true_iff 70 score)) by lra.
    eexists. reflexivity.
Qed.

Lemma recommendation_bands_witness :
  (10 < 20 /\
   _generate_recommendation str_hash [example_A; example_B]
     example_A example_B 2 None 10
   = "Low interference risk. No action needed."%string) /\
  (75 > 70 /\
   exists rest,
     _generate_recommendation str_hash [example_A; example_B]
       example_A example_B 15 None 75
     = ("Interference Severity: High. " ++ rest)%string).
Proof.
  split.
  - assert (H : 10 < 20) by lra. split; [exact H|].
    exact (proj1 (recommendation_bands str_hash [example_A; example_B]
                    example_A example_B 2 None 10) H).
  - assert (H : 75 > 70) by lra. split; [exact H|].
    exact (proj2 (recommendation_bands str_hash [example_A; example_B]
                    example_A example_B 15 None 75) H).
Defined.

(** ** Claim about failures of the analysis *)

(** C4 fails on the code. Two radios with overlapping channels on two sites
    that share their coordinates: when the geodesic distance of a point to
    itself is 0, [detect_frequency_interference] raises [ValueError]
    ([math.log10(0)] in the scorer, outside any [try]). *)
Theorem detect_raises_at_distance_zero
    (geodesic_meters geodesic_bearing : point -> point -> result R)
    (str : R -> string) (lat lon : R) :
  geodesic_meters (lat, lon) (lat, lon) = Ok 0 ->
  init (two_radios 5180 20 5185 20 None None (Some (lat, lon)))
    = Ok {| devices := [radio_A 5180 20 None (Some (lat, lon));
                        radio_B 5185 20 None (Some (lat, lon))];
            interference_results := [] |} /\
  detect_frequency_interference geodesic_meters geodesic_bearing str
    {| devices := [radio_A 5180 20 None (Some (lat, lon));
                   radio_B 5185 20 None (Some (lat, lon))];
       interference_results := [] |}
    = Raise ValueError.
Proof.
  intros Hzero. split; [apply init_two_radios|].
  rewrite detect_two by reflexivity.
  rewrite (analyze_pair_overlapping _ _ _ _ _ _
             (5180 - 20 / 2) (5180 + 20 / 2) (5185 - 20 / 2) (5185 + 20 / 2));
    try reflexivity; [|discriminate|unfold ranges_overlap; lra].
  cbv zeta.
  assert (Hd : pair_distance geodesic_meters
                 (radio_A 5180 20 None (Some (lat, lon)))
                 (radio_B 5185 20 None (Some (lat, lon))) = Some 0).
  { unfold pair_distance.
    cbn [radio_A radio_B radio_device latitude longitude option_map fst snd].
    now rewrite Hzero. }
  rewrite Hd, score_raises by lra. reflexivity.
Qed.

Lemma detect_raises_at_distance_zero_witness :
  geodesic_const (Ok 0) (40.7, -74) (40.7, -74) = Ok 0 /\
  detect_frequency_interference
    (geodesic_const (Ok 0)) (geodesic_const (Raise AttributeError)) str_hash
    {| devices := [radio_A 5180 20 None (Some (40.7, -74));
                   radio_B 5185 20 None (Some (40.7, -74))];
       interference_results := [] |}
    = Raise ValueError.
Proof.
  split; [reflexivity|].
  apply (detect_raises_at_distance_zero
           (geodesic_const (Ok 0)) (geodesic_const (Raise AttributeError))
           str_hash 40.7 (-74)).
  reflexivity.
Defined.

(** ** Claim about the spatial overlap *)

Lemma mod_range (x m : R) : 0 < m -> 0 <= Py.mod_ x m < m.
Proof.
  intros Hm. unfold Py.mod_.
  destruct (base_Int_part (x / m)) as [H1 H2].
  assert (Hx : x = m * (x / m)) by (field; lra).
  split.
  - apply (Rmult_le_compat_l m) in H1; lra.
  - assert (m * (IZR (Int_part (x / m)) - x / m) > m * -1)
      by (apply Rmult_lt_compat_l; lra).
    lra.
Qed.

Lemma deviation_range (x : R) : 0 <= Rabs (Py.mod_ x 360 - 180) <= 180.
Proof.
  destruct (mod_range x 360) as [H1 H2]; [lra|].
  split; [apply Rabs_pos|]. apply Rabs_le. lra.
Qed.

(** What [_calculate_spatial_overlap] does with a bearing. For two devices
    with coordinates, directions and beam widths: when reading the bearing
    raises, the value is absent; were a bearing at hand, with compass
    directions and positive beam widths, the steps of the [try] block would
    give the average of the two [1 - deviation / half_beam] when both
    devices face each other, half of that term for the one device that
    faces, and 0 when neither does, a value in [0, 1]. *)
Lemma spatial_overlap_steps
    (geodesic_bearing : point -> point -> result R) (d1 d2 : Device)
    (lat1 lon1 lat2 lon2 : R) (dir1 dir2 : string) (bw1 bw2 : R) :
  latitude d1 = Some lat1 -> longitude d1 = Some lon1 ->
  latitude d2 = Some lat2 -> longitude d2 = Some lon2 ->
  direction d1 = Some dir1 -> direction d2 = Some dir2 ->
  beam_width d1 = Some bw1 -> beam_width d2 = Some bw2 ->
  (forall e, geodesic_bearing (lat1, lon1) (lat2, lon2) = Raise e ->
             _calculate_spatial_overlap geodesic_bearing d1 d2 = None) /\
  (forall bearing1to2 bearing1 bearing2,
     geodesic_bearing (lat1, lon1) (lat2, lon2) = Ok bearing1to2 ->
     dir_to_bearing dir1 = Some bearing1 ->
     dir_to_bearing dir2 = Some bearing2 ->
     0 < bw1 -> 0 < bw2 ->
     let bearing2to1 := Py.mod_ (bearing1to2 + 180) 360 in
     let angle_diff1 := Rabs (Py.mod_ (bearing1 - bearing1to2 + 180) 360 - 180) in
     let angle_diff2 := Rabs (Py.mod_ (bearing2 - bearing2to1 + 180) 360 - 180) in
     let half_beam1 := bw1 / 2 in
     let half_beam2 := bw2 / 2 in
     0 <= angle_diff1 <= 180 /\ 0 <= angle_diff2 <= 180 /\
     exists v,
       _calculate_spatial_overlap geodesic_bearing d1 d2 = Some v /\
       0 <= v <= 1 /\
       (angle_diff1 <= half_beam1 -> angle_diff2 <= half_beam2 ->
        v = ((1 - angle_diff1 / half_beam1) + (1 - angle_diff2 / half_beam2)) / 2) /\
       (angle_diff1 <= half_beam1 -> ~ angle_diff2 <= half_beam2 ->
        v = 0.5 * (1 - angle_diff1 / half_beam1)) /\
       (~ angle_diff1 <= half_beam1 -> angle_diff2 <= half_beam2 ->
        v = 0.5 * (1 - angle_diff2 / half_beam2)) /\
       (~ angle_diff1 <= half_beam1 -> ~ angle_diff2 <= half_beam2 -> v = 0)).
Proof.
  intros E1 E2 E3 E4 E5 E6 E7 E8.
  unfold _calculate_spatial_overlap. rewrite E1, E2, E3, E4, E5, E6, E7, E8.
  unfold spatial_overlap_try. split.
  - intros e He. now rewrite He.
  - intros b12 b1 b2 Hb H1 H2 Hw1 Hw2.
    rewrite Hb, H1, H2. cbn [bind].
    set (a1 := Rabs (Py.mod_ (b1 - b12 + 180) 360 - 180)).
    set (a2 := Rabs (Py.mod_ (b2 - Py.mod_ (b12 + 180) 360 + 180) 360 - 180)).
    set (h1 := bw1 / 2). set (h2 := bw2 / 2).
    assert (Ha1 : 0 <= a1 <= 180) by apply deviation_range.
    assert (Ha2 : 0 <= a2 <= 180) by apply deviation_range.
    assert (Hh1 : 0 < h1) by (unfold h1; lra).
    assert (Hh2 : 0 < h2) by (unfold h2; lra).
    assert (Hq : forall a h, 0 <= a -> 0 < h -> a <= h -> 0 <= a / h <= 1).
    { intros a h Ha Hh Hle. split.
      - apply Rle_mult_inv_pos; assumption.
      - apply (Rmult_le_reg_r h); [exact Hh|].
        replace (a / h * h) with a by (field; lra). lra. }
    split; [exact Ha1|]. split; [exact Ha2|].
    destruct (Rle_dec a1 h1) as [L1|L1], (Rle_dec a2 h2) as [L2|L2].
    + rewrite (proj2 (leb_true_iff a1 h1) L1), (proj2 (leb_true_iff a2 h2) L2).
      cbn [andb]. rewrite !div_ok by lra. cbn [bind try_except].
      eexists. split; [reflexivity|].
      pose proof (Hq a1 h1 (proj1 Ha1) Hh1 L1).
      pose proof (Hq a2 h2 (proj1 Ha2) Hh2 L2).
      repeat split; intros; try lra; try contradiction.
    + rewrite (proj2 (leb_true_iff a1 h1) L1).
      rewrite (proj2 (leb_false_iff a2 h2)) by lra.
      cbn [andb]. rewrite !div_ok by lra. cbn [bind try_except].
      eexists. split; [reflexivity|].
      pose proof (Hq a1 h1 (proj1 Ha1) Hh1 L1).
      repeat split; intros; try lra; try contradiction.
    + rewrite (proj2 (leb_false_iff a1 h1)) by lra.
      rewrite (proj2 (leb_true_iff a2 h2) L2).
      cbn [andb]. rewrite !div_ok by lra. cbn [bind try_except].
      eexists. split; [reflexivity|].
      pose proof (Hq a2 h2 (proj1 Ha2) Hh2 L2).
      repeat split; intros; try lra; try contradiction.
    + rewrite (proj2 (leb_false_iff a1 h1)) by lra.
      rewrite (proj2 (leb_false_iff a2 h2)) by lra.
      cbn [andb bind try_except].
      eexists. split; [reflexivity|].
      repeat split; intros; try lra; try contradiction.
Qed.

Lemma mod_small (x m : R) : 0 <= x < m -> Py.mod_ x m = x.
Proof.
  intros [H0 Hm]. unfold Py.mod_.
  assert (Hz : 0%Z = Int_part (x / m)).
  { apply Int_part_spec. split.
    - assert (x / m < 1).
      { apply (Rmult_lt_reg_r m); [lra|].
        replace (x / m * m) with x by (field; lra). lra. }
      simpl. lra.
    - apply Rle_mult_inv_pos; lra. }
  rewrite <- Hz. simpl. lra.
Qed.

(** With a bearing at hand, the steps give 1 for two devices that point
    exactly at each other. *)
Lemma spatial_overlap_steps_facing
    (geodesic_bearing : point -> point -> result R) (d1 d2 : Device)
    (lat1 lon1 lat2 lon2 : R) (dir1 dir2 : string) (bw1 bw2 bearing1to2 : R) :
  latitude d1 = Some lat1 -> longitude d1 = Some lon1 ->
  latitude d2 = Some lat2 -> longitude d2 = Some lon2 ->
  direction d1 = Some dir1 -> direction d2 = Some dir2 ->
  beam_width d1 = Some bw1 -> beam_width d2 = Some bw2 ->
  0 < bw1 -> 0 < bw2 ->
  geodesic_bearing (lat1, lon1) (lat2, lon2) = Ok bearing1to2 ->
  dir_to_bearing dir1 = Some bearing1to2 ->
  dir_to_bearing dir2 = Some (Py.mod_ (bearing1to2 + 180) 360) ->
  _calculate_spatial_overlap geodesic_bearing d1 d2 = Some 1.
Proof.
  intros E1 E2 E3 E4 E5 E6 E7 E8 Hw1 Hw2 Hb H1 H2.
  unfold _calculate_spatial_overlap. rewrite E1, E2, E3, E4, E5, E6, E7, E8.
  unfold spatial_overlap_try. rewrite Hb, H1, H2. cbn [bind].
  replace (bearing1to2 - bearing1to2 + 180) with 180 by lra.
  replace (Py.mod_ (bearing1to2 + 180) 360 - Py.mod_ (bearing1to2 + 180) 360 + 180)
    with 180 by lra.
  rewrite (mod_small 180 360) by lra.
  replace (180 - 180) with 0 by lra. rewrite Rabs_R0.
  rewrite !(proj2 (leb_true_iff 0 _)) by lra. cbn [andb].
  rewrite !div_ok by lra. cbn [bind try_except]. f_equal. field. lra.
Qed.

Lemma facing_sectors_steps :
  _calculate_spatial_overlap (geodesic_const (Ok 0)) facing_north facing_south
  = Some 1.
Proof.
  assert (Hw : 0 < 90) by lra.
  assert (Hsouth : dir_to_bearing "south" = Some (Py.mod_ (0 + 180) 360)).
  { rewrite (mod_small (0 + 180) 360) by lra.
    replace (0 + 180) with 180 by lra. reflexivity. }
  exact (spatial_overlap_steps_facing (geodesic_const (Ok 0))
           facing_north facing_south
           40 (-74) 41 (-74) "north" "south" 90 90 0
           eq_refl eq_refl eq_refl eq_refl eq_refl eq_refl eq_refl eq_refl
           Hw Hw eq_refl eq_refl Hsouth).
Qed.

(** C5 fails on the code. [_calculate_spatial_overlap] reads the bearing as
    [geopy.distance.geodesic(...).bearing] inside its [try] block. When
    that access raises, as it does with geopy for every two points (its
    geodesic objects have no such attribute), the [except] branch answers:
    the value is absent for every two devices, whatever they hold, and
    every result of a run records no spatial overlap. *)
Theorem spatial_overlap_never_present
    (geodesic_meters geodesic_bearing : point -> point -> result R)
    (str : R -> string) :
  (forall p q, exists e, geodesic_bearing p q = Raise e) ->
  (forall d1 d2, _calculate_spatial_overlap geodesic_bearing d1 d2 = None) /\
  (forall self rs self',
     detect_frequency_interference geodesic_meters geodesic_bearing str self
       = Ok (rs, self') ->
     forall r, In r rs -> spatial_overlap r = None).
Proof.
  intros Hraise.
  assert (Hnone : forall d1 d2,
             _calculate_spatial_overlap geodesic_bearing d1 d2 = None).
  { intros d1 d2. unfold _calculate_spatial_overlap.
    destruct (latitude d1) as [lat1|]; [|reflexivity].
    destruct (longitude d1) as [lon1|]; [|reflexivity].
    destruct (latitude d2) as [lat2|]; [|reflexivity].
    destruct (longitude d2) as [lon2|]; [|reflexivity].
    destruct (direction d1) as [dir1|]; [|reflexivity].
    destruct (direction d2) as [dir2|]; [|reflexivity].
    destruct (beam_width d1) as [bw1|]; [|reflexivity].
    destruct (beam_width d2) as [bw2|]; [|reflexivity].
    unfold spatial_overlap_try.
    destruct (Hraise (lat1, lon1) (lat2, lon2)) as (e & ->). reflexivity. }
  split; [exact Hnone|].
  intros self rs self' Hdet r Hr.
  apply (detect_ok _ _ _ _ _ _ Hdet) in Hr.
  destruct Hr as (d1 & d2 & _ & Ha). revert Ha. unfold analyze_pair.
  destruct (Py.opt_str_eqb _ _); [discriminate|].
  destruct (freq_min d1); [|discriminate]. destruct (freq_max d1); [|discriminate].
  destruct (freq_min d2); [|discriminate]. destruct (freq_max d2); [|discriminate].
  destruct (_ && _)%bool; [|discriminate].
  destruct (_calculate_interference_score _ _ _ _ _) as [sc|e];
    cbn [bind]; [|discriminate].
  intros [= <-]. cbn [spatial_overlap]. apply Hnone.
Qed.

Lemma spatial_overlap_never_present_witness :
  (latitude facing_north = Some 40 /\ longitude facing_north = Some (-74) /\
   direction facing_north = Some "north"%string /\
   beam_width facing_north = Some 90) /\
  (latitude facing_south = Some 41 /\ longitude facing_south = Some (-74) /\
   direction facing_south = Some "south"%string /\
   beam_width facing_south = Some 90) /\
  _calculate_spatial_overlap geopy_bearing facing_north facing_south = None /\
  _calculate_spatial_overlap (geodesic_const (Ok 0)) facing_north facing_south
    = Some 1.
Proof.
  assert (Hraise : forall p q, exists e, geopy_bearing p q = Raise e)
    by (intros p q; now exists AttributeError).
  split; [repeat split|]. split; [repeat split|].
  split; [|exact facing_sectors_steps].
  exact (proj1 (spatial_overlap_never_present
                  (geodesic_const (Ok 50)) geopy_bearing str_hash Hraise)
           facing_north facing_south).
Defined.

(** ** Claim about the cluster analyzer *)

Lemma std_single (x : R) : Np.std [x] = 0.
Proof.
  unfold Np.std, Np.mean, Np.sum. cbn [map fold_right List.length INR].
  replace (((x - (x + 0) / 1) * (x - (x + 0) / 1) + 0) / 1) with 0 by (field; lra).
  apply sqrt_0.
Qed.

Lemma normalize_single (x : R) : Np.normalize [x] = [None].
Proof.
  unfold Np.normalize, Np.divide. cbn [map]. rewrite std_single.
  now rewrite (proj2 (eqb_true_iff 0 0) eq_refl).
Qed.

Lemma normalized_features_single (r : InterferenceResult) :
  normalized_features [r] = [[None; None; None]].
Proof.
  unfold normalized_features. cbn [map]. now rewrite !normalize_single.
Qed.

(** C6 fails on the code. Without results the cluster analyzer returns the
    empty dictionary. With exactly one result it does cluster: every
    column has standard deviation 0, the normalized row is non-finite in
    its three entries, and that row goes to DBSCAN; what DBSCAN raises
    there, [cluster_interference_issues] raises, and so does
    [generate_interference_report]. *)
Theorem cluster_single_result
    (geodesic_meters geodesic_bearing : point -> point -> result R)
    (str : R -> string)
    (DBSCAN_fit : R -> nat -> list (list (option R)) -> result (list Z))
    (self_devices : list Device) (r : InterferenceResult)
    (eps : R) (min_samples : nat) :
  cluster_interference_issues DBSCAN_fit
    {| devices := self_devices; interference_results := [] |} eps min_samples
    = Ok EmptyDict /\
  normalized_features [r] = [[None; None; None]] /\
  (forall e,
     DBSCAN_fit eps min_samples [[None; None; None]] = Raise e ->
     cluster_interference_issues DBSCAN_fit
       {| devices := self_devices; interference_results := [r] |} eps min_samples
       = Raise e) /\
  (forall labels,
     DBSCAN_fit eps min_samples [[None; None; None]] = Ok labels ->
     cluster_interference_issues DBSCAN_fit
       {| devices := self_devices; interference_results := [r] |} eps min_samples
       = (clusters <- group_by_label [r] labels O [] ;;
          cluster_stats <- all_cluster_stats clusters ;;
          Ok (ClusterDict (count_clusters labels) cluster_stats))) /\
  (forall e,
     DBSCAN_fit 30 2%nat [[None; None; None]] = Raise e ->
     generate_interference_report
       geodesic_meters geodesic_bearing str DBSCAN_fit
       {| devices := self_devices; interference_results := [r] |}
       = Raise e).
Proof.
  split; [reflexivity|]. split; [apply normalized_features_single|].
  assert (Hl : forall labels,
             DBSCAN_fit eps min_samples [[None; None; None]] = Ok labels ->
             cluster_interference_issues DBSCAN_fit
               {| devices := self_devices; interference_results := [r] |}
               eps min_samples
             = (clusters <- group_by_label [r] labels O [] ;;
                cluster_stats <- all_cluster_stats clusters ;;
                Ok (ClusterDict (count_clusters labels) cluster_stats))).
  { intros labels Hlabels. unfold cluster_interference_issues.
    cbn [interference_results].
    rewrite normalized_features_single, Hlabels. reflexivity. }
  assert (Hc : forall e eps' min_samples',
             DBSCAN_fit eps' min_samples' [[None; None; None]] = Raise e ->
             cluster_interference_issues DBSCAN_fit
               {| devices := self_devices; interference_results := [r] |}
               eps' min_samples' = Raise e).
  { intros e eps' min_samples' He. unfold cluster_interference_issues.
    cbn [interference_results].
    rewrite normalized_features_single, He. reflexivity. }
  split; [intros e; apply Hc|]. split; [exact Hl|].
  intros e He. unfold generate_interference_report.
  cbn [interference_results bind]. now rewrite (Hc e 30 2%nat He).
Qed.

Lemma cluster_single_result_witness :
  DBSCAN_checked DBSCAN_one_cluster 30 2%nat
    [[None; None; None]] = Raise ValueError /\
  cluster_interference_issues
    (DBSCAN_checked DBSCAN_one_cluster)
    example_detected 30 2%nat = Raise ValueError /\
  generate_interference_report
    (geodesic_const (Ok 50)) (geodesic_const (Ok 0)) str_hash
    (DBSCAN_checked DBSCAN_one_cluster)
    example_detected = Raise ValueError.
Proof.
  destruct (cluster_single_result
              (geodesic_const (Ok 50)) (geodesic_const (Ok 0)) str_hash
              (DBSCAN_checked DBSCAN_one_cluster)
              [example_A; example_B] example_result 30 2%nat)
    as (_ & _ & Hcluster & _ & Hreport).
  split; [reflexivity|].
  split; [apply Hcluster|apply Hreport]; reflexivity.
Defined.

(** ** Claim about records without identifier *)

Lemma load_loop_length sm wm (rs : list DeviceRecord) :
  forall acc out,
    load_loop sm wm rs acc = Ok out ->
    (List.length out <= List.length acc + List.length rs)%nat.
Proof.
  induction rs as [|r rs IH]; simpl; intros acc out H.
  - injection H as <-. lia.
  - destruct (load_device sm wm r) as [[d|]|e]; simpl in H; try discriminate.
    + apply IH in H. rewrite length_app in H. simpl in H. lia.
    + apply IH in H. lia.
Qed.

(** C9. A device record whose id is missing or empty is skipped, whatever
    else it holds: its turn of the loop yields no [Device] and does not
    fail; the registry, the detector, and so the results and the report of
    the whole analysis are those of the snapshot without the record; the
    devices counted are at most the other records; and every [Device] of
    the registry has a non-empty id. *)
Theorem record_without_id_skipped
    (geodesic_meters geodesic_bearing : point -> point -> result R)
    (str : R -> string)
    (DBSCAN_fit : R -> nat -> list (list (option R)) -> result (list Z))
    (database : FrequencyDatabase) (pre post : list DeviceRecord)
    (record : DeviceRecord) :
  no_id (dev_id record) ->
  (forall site_map wireless_map,
     load_device site_map wireless_map record = Ok None) /\
  load_devices (with_devices database (pre ++ record :: post))
    = load_devices (with_devices database (pre ++ post)) /\
  init (with_devices database (pre ++ record :: post))
    = init (with_devices database (pre ++ post)) /\
  main geodesic_meters geodesic_bearing str DBSCAN_fit
       (with_devices database (pre ++ record :: post))
    = main geodesic_meters geodesic_bearing str DBSCAN_fit
           (with_devices database (pre ++ post)) /\
  (forall self,
     init (with_devices database (pre ++ record :: post)) = Ok self ->
     (List.length (devices self) <= List.length (pre ++ post))%nat /\
     Forall (fun d => Py.truthy (id d) = true) (devices self)).
Proof.
  intros Hid.
  assert (Hload : load_devices (with_devices database (pre ++ record :: post))
                  = load_devices (with_devices database (pre ++ post))).
  { unfold load_devices. cbn [with_devices get_devices get_sites get_wireless_configs].
    now apply load_loop_skip. }
  assert (Hinit : init (with_devices database (pre ++ record :: post))
                  = init (with_devices database (pre ++ post))).
  { unfold init. now rewrite Hload. }
  split; [intros sm wm; now apply load_device_no_id|].
  split; [exact Hload|]. split; [exact Hinit|].
  split; [unfold main; now rewrite Hinit|].
  intros self Hself. split.
  - rewrite Hinit in Hself. unfold init in Hself.
    clear Hload Hinit.
    destruct (load_devices (with_devices database (pre ++ post))) as [ds|e] eqn:E;
      simpl in Hself; [|discriminate].
    injection Hself as <-. cbn [devices].
    unfold load_devices in E. apply load_loop_length in E.
    cbn [with_devices get_devices] in E. simpl in E. exact E.
  - apply init_registered in Hself. destruct Hself as (Hreg & _).
    eapply Forall_impl; [|exact Hreg]. intros d Hd. apply Hd.
Qed.

Lemma record_without_id_skipped_witness :
  no_id (dev_id anonymous_record) /\
  load_devices
    (with_devices (two_radios 5180 20 5185 20 None None None)
       ([radio_record "a" "A" "s1"] ++ anonymous_record :: [radio_record "b" "B" "s2"]))
  = load_devices
      (with_devices (two_radios 5180 20 5185 20 None None None)
         ([radio_record "a" "A" "s1"] ++ [radio_record "b" "B" "s2"])) /\
  init
    (with_devices (two_radios 5180 20 5185 20 None None None)
       ([radio_record "a" "A" "s1"] ++ anonymous_record :: [radio_record "b" "B" "s2"]))
  = Ok example_detector.
Proof.
  assert (Hid : no_id (dev_id anonymous_record)) by (now left).
  destruct (record_without_id_skipped
              (geodesic_const (Ok 50)) (geodesic_const (Ok 0)) str_hash
              (DBSCAN_checked DBSCAN_one_cluster)
              (two_radios 5180 20 5185 20 None None None)
              [radio_record "a" "A" "s1"] [radio_record "b" "B" "s2"]
              anonymous_record Hid)
    as (_ & Hload & Hinit & _).
  split; [exact Hid|]. split; [exact Hload|].
  rewrite Hinit. apply init_two_radios.
Defined.

(** * Further properties of the engine *)

(** ** Device registry *)

Lemma dir_to_bearing_compass (s : string) (b : R) :
  dir_to_bearing s = Some b ->
  In s ["north"; "east"; "south"; "west"]%string.
Proof.
  unfold dir_to_bearing. cbn [Py.get In].
  destruct (String.eqb "north" s) eqn:E1; [apply String.eqb_eq in E1; auto|].
  destruct (String.eqb "east" s) eqn:E2; [apply String.eqb_eq in E2; auto|].
  destruct (String.eqb "south" s) eqn:E3; [apply String.eqb_eq in E3; auto|].
  destruct (String.eqb "west" s) eqn:E4; [apply String.eqb_eq in E4; auto 6|].
  discriminate.
Qed.

(** Every [Device] the registry builds has a non-empty id; its frequency
    bounds are [frequency -/+ channel_width / 2] when frequency and channel
    width are both present and are absent otherwise; and it either has no
    direction and no beam width, or a compass direction and a beam width of
    90 degrees. *)
Theorem registry_devices_wellformed
    (database : FrequencyDatabase) (ds : list Device) (d : Device) :
  load_devices database = Ok ds ->
  In d ds ->
  id d <> ""%string /\
  (forall f w, frequency d = Some f -> channel_width d = Some w ->
     freq_min d = Some (f - w / 2) /\ freq_max d = Some (f + w / 2)) /\
  (frequency d = None \/ channel_width d = None ->
     freq_min d = None /\ freq_max d = None) /\
  ((direction d = None /\ beam_width d = None) \/
   (exists s, direction d = Some s /\
              In s ["north"; "east"; "south"; "west"]%string /\
              beam_width d = Some 90)).
Proof.
  intros Hload Hd. apply load_devices_registered in Hload.
  rewrite Forall_forall in Hload. destruct (Hload d Hd) as (Hid & Hrange & Hdir).
  split; [intros E; rewrite E in Hid; discriminate|].
  split; [intros f w Ef Ew; rewrite Ef, Ew in Hrange; now injection Hrange as -> ->|].
  split.
  - intros [E | E]; rewrite E in Hrange.
    + now injection Hrange as -> ->.
    + destruct (frequency d); now injection Hrange as -> ->.
  - destruct Hdir as [Hnone | (s & b & Hs & Hb & Hw)]; [now left|].
    right. exists s. split; [exact Hs|]. split; [|exact Hw].
    now apply (dir_to_bearing_compass s b).
Qed.

Lemma registry_devices_wellformed_witness :
  load_devices (two_radios 5180 20 5185 20 None None None)
    = Ok [example_A; example_B] /\
  In example_A [example_A; example_B] /\
  id example_A <> ""%string /\
  freq_min example_A = Some (5180 - 20 / 2).
Proof.
  assert (Hload : load_devices (two_radios 5180 20 5185 20 None None None)
                  = Ok [example_A; example_B]) by reflexivity.
  assert (Hin : In example_A [example_A; example_B]) by (now left).
  destruct (registry_devices_wellformed _ _ _ Hload Hin) as (Hid & Hrange & _).
  split; [exact Hload|]. split; [exact Hin|]. split; [exact Hid|].
  exact (proj1 (Hrange 5180 20 eq_refl eq_refl)).
Defined.

Lemma load_device_with_id sm wm (r : DeviceRecord) :
  has_id r = true ->
  (dev_name r = NameNotStr /\ load_device sm wm r = Raise AttributeError) \/
  (dev_name r <> NameNotStr /\
   exists d, load_device sm wm r = Ok (Some d) /\
             Some (id d) = dev_id r /\ site_id d = dev_siteId r).
Proof.
  unfold has_id, load_device.
  destruct (dev_id r) as [i|]; [|discriminate]. intros Hi. rewrite Hi.
  cbn [negb].
  destruct (match Py.get String.eqb wm i with Some c => cfg_frequency c | None => None end),
           (match Py.get String.eqb wm i with Some c => cfg_channelWidth c | None => None end);
    cbv zeta iota beta;
    (destruct (dev_name r) as [| |n]; cbn [bind];
     [ right; split; [discriminate|];
       destruct (infer_facing "") as [dir bw]; eexists; split; [reflexivity|now split]
     | now left
     | right; split; [discriminate|];
       destruct (infer_facing (Py.lower n)) as [dir bw];
       eexists; split; [reflexivity|now split] ]).
Qed.

Lemma load_device_without_id sm wm (r : DeviceRecord) :
  has_id r = false -> load_device sm wm r = Ok None.
Proof.
  unfold has_id, load_device. destruct (dev_id r) as [i|]; [|reflexivity].
  now intros ->.
Qed.

Lemma load_loop_raises sm wm (rs : list DeviceRecord) :
  Exists (fun r => has_id r = true /\ dev_name r = NameNotStr) rs ->
  forall acc, load_loop sm wm rs acc = Raise AttributeError.
Proof.
  induction rs as [|r rs IH]; intros Hex acc; [inversion Hex|].
  simpl. destruct (has_id r) eqn:Hr.
  - destruct (load_device_with_id sm wm r Hr) as [(_ & ->) | (Hn & d & -> & _)];
      [reflexivity|].
    cbn [bind]. apply IH. inversion Hex as [? ? (_ & Hbad) | ? ? Hrest]; subst;
      [contradiction|exact Hrest].
  - rewrite (load_device_without_id sm wm r Hr). cbn [bind]. apply IH.
    inversion Hex as [? ? (Hid & _) | ? ? Hrest]; subst; [congruence|exact Hrest].
Qed.

Lemma load_loop_returns sm wm (rs : list DeviceRecord) :
  Forall (fun r => has_id r = true -> dev_name r <> NameNotStr) rs ->
  forall acc, exists out,
    load_loop sm wm rs acc = Ok (acc ++ out) /\
    map (fun d => Some (id d)) out = map dev_id (filter has_id rs) /\
    map site_id out = map dev_siteId (filter has_id rs).
Proof.
  induction 1 as [|r rs Hr Hrs IH]; intros acc.
  - exists []. now rewrite app_nil_r.
  - simpl. destruct (has_id r) eqn:Hid.
    + destruct (load_device_with_id sm wm r Hid) as [(Hbad & _) | (_ & d & -> & Hd & Hs)];
        [now apply Hr in Hbad|].
      cbn [bind]. destruct (IH (acc ++ [d])) as (out & -> & Hids & Hsites).
      exists (d :: out). rewrite <- app_assoc. split; [reflexivity|].
      simpl. now rewrite Hids, Hsites, Hd, Hs.
    + rewrite (load_device_without_id sm wm r Hid). cbn [bind]. apply IH.
Qed.

(** [load_devices] fails exactly when a record that has an id carries a name
    that is not a string, and then with [AttributeError]. Otherwise it
    returns one [Device] for each record that has an id, in the order of
    the records, with that record's id and site id. *)
Theorem load_devices_outcome (database : FrequencyDatabase) :
  ((exists r, In r (get_devices database) /\
              has_id r = true /\ dev_name r = NameNotStr) <->
   load_devices database = Raise AttributeError) /\
  ((forall r, In r (get_devices database) ->
              has_id r = true -> dev_name r <> NameNotStr) <->
   exists ds,
     load_devices database = Ok ds /\
     map (fun d => Some (id d)) ds
       = map dev_id (filter has_id (get_devices database)) /\
     map site_id ds = map dev_siteId (filter has_id (get_devices database))).
Proof.
  assert (Hdec : (exists r, In r (get_devices database) /\
                            has_id r = true /\ dev_name r = NameNotStr) \/
                 (forall r, In r (get_devices database) ->
                            has_id r = true -> dev_name r <> NameNotStr)).
  { induction (get_devices database) as [|r rs IH].
    - right. intros r [].
    - destruct IH as [(x & Hx & H) | IH]; [left; exists x; split; [now right|exact H]|].
      destruct (has_id r) eqn:Hid.
      + destruct (dev_name r) eqn:Hn.
        * right. intros x [<- | Hx]; [congruence|now apply IH].
        * left. exists r. split; [now left|now split].
        * right. intros x [<- | Hx]; [congruence|now apply IH].
      + right. intros x [<- | Hx]; [congruence|now apply IH]. }
  assert (Hbad : (exists r, In r (get_devices database) /\
                            has_id r = true /\ dev_name r = NameNotStr) ->
                 load_devices database = Raise AttributeError).
  { intros Hex. apply load_loop_raises. now apply Exists_exists. }
  assert (Hgood : (forall r, In r (get_devices database) ->
                             has_id r = true -> dev_name r <> NameNotStr) ->
                  exists ds,
                    load_devices database = Ok ds /\
                    map (fun d => Some (id d)) ds
                      = map dev_id (filter has_id (get_devices database)) /\
                    map site_id ds
                      = map dev_siteId (filter has_id (get_devices database))).
  { intros Hall. unfold load_devices.
    destruct (load_loop_returns
                (site_map_of (get_sites database))
                (wireless_map_of (get_wireless_configs database))
                (get_devices database)) with (acc := @nil Device)
      as (out & Hout & Hids); [now apply Forall_forall|].
    exists out. split; [exact Hout|exact Hids]. }
  split; split.
  - exact Hbad.
  - intros Hraise. destruct Hdec as [Hex | Hall]; [exact Hex|].
    destruct (Hgood Hall) as (ds & Hds & _). congruence.
  - exact Hgood.
  - intros (ds & Hds & _). destruct Hdec as [Hex | Hall]; [|exact Hall].
    rewrite (Hbad Hex) in Hds. discriminate.
Qed.

(** *** Lookups in the site and wireless maps *)

Section DictFacts.
Context {K V : Type} (key_eqb : K -> K -> bool).
Hypothesis key_eqb_eq : forall a b, key_eqb a b = true <-> a = b.

Lemma key_eqb_refl (a : K) : key_eqb a a = true.
Proof. now apply key_eqb_eq. Qed.

Lemma get_set (d : list (K * V)) (k k' : K) (v : V) :
  Py.get key_eqb (Py.set key_eqb d k v) k'
  = if key_eqb k k' then Some v else Py.get key_eqb d k'.
Proof.
  induction d as [|[k0 v0] d IH]; simpl.
  - reflexivity.
  - destruct (key_eqb k0 k) eqn:E0; simpl.
    + apply key_eqb_eq in E0. subst k0. now destruct (key_eqb k k').
    + destruct (key_eqb k0 k') eqn:E1; [|exact IH].
      apply key_eqb_eq in E1. subst k0.
      destruct (key_eqb k k') eqn:E2; [|reflexivity].
      apply key_eqb_eq in E2. subst k'. rewrite key_eqb_refl in E0. discriminate.
Qed.

Lemma get_in (d : list (K * V)) (k : K) (v : V) :
  Py.get key_eqb d k = Some v -> In (k, v) d.
Proof.
  induction d as [|[k0 v0] d IH]; simpl; [discriminate|].
  destruct (key_eqb k0 k) eqn:E.
  - apply key_eqb_eq in E. intros [= <-]. left. now subst.
  - intros H. right. now apply IH.
Qed.

End DictFacts.

Lemma find_app {A : Type} (p : A -> bool) (l1 l2 : list A) :
  find p (l1 ++ l2) = match find p l1 with Some x => Some x | None => find p l2 end.
Proof.
  induction l1 as [|x l1 IH]; simpl; [reflexivity|]. now destruct (p x).
Qed.

Lemma truthy_eqb_empty (i j : string) :
  Py.truthy i = true -> Py.truthy j = false -> String.eqb j i = false.
Proof.
  destruct i, j; simpl; try discriminate. reflexivity.
Qed.

Lemma keyed_fold_get {V : Type} (key : V -> option string) (records : list V)
    (i : string) :
  Py.truthy i = true ->
  forall m,
    Py.get String.eqb
      (fold_left
         (fun m r =>
            match key r with
            | Some j => if Py.truthy j then Py.set String.eqb m j r else m
            | None => m
            end)
         records m) i
    = match find (fun r => Py.opt_str_eqb (key r) (Some i)) (rev records) with
      | Some r => Some r
      | None => Py.get String.eqb m i
      end.
Proof.
  intros Hi. induction records as [|r records IH]; intros m; simpl.
  - reflexivity.
  - rewrite IH, find_app. simpl.
    destruct (find _ (rev records)); [reflexivity|].
    destruct (key r) as [j|]; simpl; [|reflexivity].
    destruct (Py.truthy j) eqn:Hj.
    + rewrite (get_set String.eqb String.eqb_eq). now destruct (String.eqb j i).
    + now rewrite (truthy_eqb_empty i j Hi Hj).
Qed.

Lemma keyed_fold_get_empty {V : Type} (key : V -> option string)
    (records : list V) (i : string) :
  Py.truthy i = false ->
  forall m,
    Py.get String.eqb m i = None ->
    Py.get String.eqb
      (fold_left
         (fun m r =>
            match key r with
            | Some j => if Py.truthy j then Py.set String.eqb m j r else m
            | None => m
            end)
         records m) i = None.
Proof.
  intros Hi. induction records as [|r records IH]; intros m Hm; simpl.
  - exact Hm.
  - apply IH. destruct (key r) as [j|]; [|exact Hm].
    destruct (Py.truthy j) eqn:Hj; [|exact Hm].
    rewrite (get_set String.eqb String.eqb_eq).
    destruct (String.eqb j i) eqn:E; [|exact Hm].
    apply String.eqb_eq in E. congruence.
Qed.

Lemma site_map_get (sites : list SiteRecord) (i : string) :
  Py.get String.eqb (site_map_of sites) i = last_site sites i.
Proof.
  unfold site_map_of, last_site. destruct (Py.truthy i) eqn:Hi.
  - rewrite (keyed_fold_get site_rec_id sites i Hi). simpl.
    now destruct (find _ _).
  - now apply keyed_fold_get_empty.
Qed.

Lemma wireless_map_get (configs : list WirelessConfig) (i : string) :
  Py.get String.eqb (wireless_map_of configs) i = last_config configs i.
Proof.
  unfold wireless_map_of, last_config. destruct (Py.truthy i) eqn:Hi.
  - rewrite (keyed_fold_get cfg_deviceId configs i Hi). simpl.
    now destruct (find _ _).
  - now apply keyed_fold_get_empty.
Qed.

Lemma load_device_fields sm wm (r : DeviceRecord) (d : Device) :
  load_device sm wm r = Ok (Some d) ->
  let site := match site_id d with Some i => Py.get String.eqb sm i | None => None end in
  let config := Py.get String.eqb wm (id d) in
  latitude d = match site with Some s => site_latitude s | None => None end /\
  longitude d = match site with Some s => site_longitude s | None => None end /\
  frequency d = match config with Some c => cfg_frequency c | None => None end /\
  channel_width d = match config with Some c => cfg_channelWidth c | None => None end /\
  tx_power d = match config with Some c => cfg_txPower c | None => None end.
Proof.
  unfold load_device.
  destruct (dev_id r) as [i|]; [|discriminate].
  destruct (Py.truthy i); cbn [negb]; [|discriminate].
  destruct (match Py.get String.eqb wm i with Some c => cfg_frequency c | None => None end) eqn:Ef,
           (match Py.get String.eqb wm i with Some c => cfg_channelWidth c | None => None end) eqn:Ew;
    cbv zeta iota beta;
    (destruct (dev_name r) as [| |n]; cbn [bind]; try discriminate;
     [ destruct (infer_facing "") as [dir bw]
     | destruct (infer_facing (Py.lower n)) as [dir bw] ];
     intros [= <-]; cbn [site_id id latitude longitude frequency channel_width tx_power];
     rewrite ?Ef, ?Ew; auto).
Qed.

Lemma load_loop_in sm wm (rs : list DeviceRecord) :
  forall acc out,
    load_loop sm wm rs acc = Ok out ->
    forall d, In d out ->
      In d acc \/ exists r, In r rs /\ load_device sm wm r = Ok (Some d).
Proof.
  induction rs as [|r rs IH]; simpl; intros acc out H d Hd.
  - injection H as <-. now left.
  - destruct (load_device sm wm r) as [[x|]|e] eqn:E; cbn [bind] in H;
      try discriminate.
    + destruct (IH _ _ H d Hd) as [Hacc | (r' & Hr' & Hl)].
      * apply in_app_or in Hacc. destruct Hacc as [Hacc | [<- | []]]; [now left|].
        right. exists r. split; [now left|exact E].
      * right. exists r'. split; [now right|exact Hl].
    + destruct (IH _ _ H d Hd) as [Hacc | (r' & Hr' & Hl)]; [now left|].
      right. exists r'. split; [now right|exact Hl].
Qed.

(** When several site records carry the same id, or several wireless
    configurations the same device id, the last one of the list decides: a
    device takes its coordinates from the last site record with its site
    id, and its frequency, channel width and transmit power from the last
    configuration with its id. Without such a record the fields are
    absent. *)
Theorem device_fields_from_last_records
    (database : FrequencyDatabase) (ds : list Device) (d : Device) :
  load_devices database = Ok ds ->
  In d ds ->
  let site :=
    match site_id d with
    | Some i => last_site (get_sites database) i
    | None => None
    end in
  let config := last_config (get_wireless_configs database) (id d) in
  latitude d = match site with Some s => site_latitude s | None => None end /\
  longitude d = match site with Some s => site_longitude s | None => None end /\
  frequency d = match config with Some c => cfg_frequency c | None => None end /\
  channel_width d = match config with Some c => cfg_channelWidth c | None => None end /\
  tx_power d = match config with Some c => cfg_txPower c | None => None end.
Proof.
  intros Hload Hd. unfold load_devices in Hload.
  destruct (load_loop_in _ _ _ _ _ Hload d Hd) as [[] | (r & _ & Hr)].
  apply load_device_fields in Hr. cbv zeta in Hr.
  rewrite wireless_map_get in Hr.
  destruct (site_id d) as [i|]; [rewrite site_map_get in Hr|]; exact Hr.
Qed.

Lemma device_fields_from_last_records_witness :
  load_devices recorded_twice = Ok [radio_A 5200 40 None (Some (40, -74))] /\
  In (radio_A 5200 40 None (Some (40, -74))) [radio_A 5200 40 None (Some (40, -74))] /\
  latitude (radio_A 5200 40 None (Some (40, -74))) = Some 40 /\
  frequency (radio_A 5200 40 None (Some (40, -74))) = Some 5200.
Proof.
  assert (Hload : load_devices recorded_twice
                  = Ok [radio_A 5200 40 None (Some (40, -74))]) by reflexivity.
  assert (Hin : In (radio_A 5200 40 None (Some (40, -74)))
                   [radio_A 5200 40 None (Some (40, -74))]) by (now left).
  destruct (device_fields_from_last_records _ _ _ Hload Hin)
    as (Hlat & _ & Hfreq & _).
  split; [exact Hload|]. split; [exact Hin|]. split; [exact Hlat|exact Hfreq].
Defined.

(** ** When the analysis raises *)

Section RaiseFacts.
Variable geodesic_meters geodesic_bearing : point -> point -> result R.
Variable str : R -> string.

Let analyze := analyze_pair geodesic_meters geodesic_bearing str.

Lemma analyze_pair_raises_iff (ds : list Device) (d1 d2 : Device) (e : exn) :
  analyze ds d1 d2 = Raise e <->
  e = ValueError /\ qualifies d1 d2 /\
  exists d, pair_distance geodesic_meters d1 d2 = Some d /\ d <= 0.
Proof.
  unfold analyze. split.
  - intros H.
    destruct (pair_distance geodesic_meters d1 d2) as [d|] eqn:Hd.
    + destruct (Rlt_dec 0 d) as [Hpos|Hneg].
      * destruct (analyze_pair_returns geodesic_meters geodesic_bearing str ds d1 d2)
          as (o & Ho); [|congruence].
        intros d' Hd'. rewrite Hd in Hd'. now injection Hd' as <-.
      * revert H. unfold analyze_pair.
        destruct (Py.opt_str_eqb _ _) eqn:Hs; [discriminate|].
        apply opt_str_eqb_false in Hs.
        destruct (freq_min d1) as [min1|] eqn:E1; [|discriminate].
        destruct (freq_max d1) as [max1|] eqn:E2; [|discriminate].
        destruct (freq_min d2) as [min2|] eqn:E3; [|discriminate].
        destruct (freq_max d2) as [max2|] eqn:E4; [|discriminate].
        destruct (Py.leb min1 max2) eqn:H1; simpl; [|discriminate].
        destruct (Py.leb min2 max1) eqn:H2; simpl; [|discriminate].
        apply leb_true_iff in H1, H2.
        rewrite Hd, score_raises by lra. cbn [bind]. intros [= <-].
        split; [reflexivity|]. split.
        -- split; [exact Hs|]. exists min1, max1, min2, max2.
           unfold ranges_overlap. repeat split; try assumption; lra.
        -- exists d. split; [reflexivity|lra].
    + destruct (analyze_pair_returns geodesic_meters geodesic_bearing str ds d1 d2)
        as (o & Ho); [|congruence].
      intros d' Hd'. rewrite Hd in Hd'. discriminate.
  - intros (-> & (Hs & min1 & max1 & min2 & max2 & E1 & E2 & E3 & E4 & Hov) & d & Hd & Hle).
    rewrite (analyze_pair_overlapping _ _ _ _ _ _ _ _ _ _ Hs E1 E2 E3 E4 Hov).
    cbv zeta. rewrite Hd, score_raises by exact Hle. reflexivity.
Qed.

Lemma inner_loop_raises (ds : list Device) (d1 : Device) (rest : list Device) :
  forall acc e,
    inner_loop geodesic_meters geodesic_bearing str ds d1 rest acc = Raise e ->
    exists d2, In d2 rest /\ analyze ds d1 d2 = Raise e.
Proof.
  induction rest as [|d rest IH]; simpl; intros acc e H; [discriminate|].
  destruct (analyze_pair _ _ _ ds d1 d) as [o|e'] eqn:E; cbn [bind] in H.
  - destruct (IH _ _ H) as (d2 & Hd2 & Hr). exists d2. split; [now right|exact Hr].
  - injection H as <-. exists d. split; [now left|exact E].
Qed.

Lemma outer_loop_raises (ds : list Device) (freq_devices : list Device) :
  forall acc e,
    outer_loop geodesic_meters geodesic_bearing str ds freq_devices acc = Raise e ->
    exists d1 d2, before freq_devices d1 d2 /\ analyze ds d1 d2 = Raise e.
Proof.
  induction freq_devices as [|d rest IH]; simpl; intros acc e H; [discriminate|].
  destruct (inner_loop _ _ _ ds d rest acc) as [acc'|e'] eqn:E; cbn [bind] in H.
  - destruct (IH _ _ H) as (d1 & d2 & Hb & Hr).
    exists d1, d2. split; [apply before_cons; now right|exact Hr].
  - injection H as <-. apply inner_loop_raises in E. destruct E as (d2 & Hd2 & Hr).
    exists d, d2. split; [apply before_cons; now left|exact Hr].
Qed.

End RaiseFacts.

Lemma detect_raises_value_error
    (geodesic_meters geodesic_bearing : point -> point -> result R)
    (str : R -> string) (self : InterferenceDetector) (e : exn) :
  detect_frequency_interference geodesic_meters geodesic_bearing str self = Raise e ->
  e = ValueError.
Proof.
  unfold detect_frequency_interference.
  destruct (Nat.ltb _ 2); [discriminate|].
  destruct (outer_loop _ _ _ _ _ _) as [found|e'] eqn:E; cbn [bind];
    [discriminate|].
  intros [= <-]. apply outer_loop_raises in E.
  destruct E as (d1 & d2 & _ & Hr). apply analyze_pair_raises_iff in Hr.
  now destruct Hr as (-> & _).
Qed.

(** C2 fails on the code. Take a detector built from a snapshot and two
    of its devices [a], [b] (in registry order) that meet the three
    conditions of the claim: both have a frequency and a channel width,
    their site ids differ, and their frequency ranges overlap. When the
    pair lies at a known distance that is not positive (two sites with the
    same coordinates), the run raises [ValueError] ([math.log10] in the
    scorer): it produces no result for this pair, nor for any other. *)
Theorem overlapping_pair_without_result
    (geodesic_meters geodesic_bearing : point -> point -> result R)
    (str : R -> string)
    (database : FrequencyDatabase) (self : InterferenceDetector)
    (a b : Device) (d : R) :
  init database = Ok self ->
  before (devices self) a b ->
  site_id a <> site_id b ->
  (exists f1 w1 f2 w2,
     frequency a = Some f1 /\ channel_width a = Some w1 /\
     frequency b = Some f2 /\ channel_width b = Some w2 /\
     ranges_overlap (f1 - w1 / 2) (f1 + w1 / 2) (f2 - w2 / 2) (f2 + w2 / 2)) ->
  pair_distance geodesic_meters a b = Some d -> d <= 0 ->
  detect_frequency_interference geodesic_meters geodesic_bearing str self
    = Raise ValueError.
Proof.
  intros Hinit Hb Hs (f1 & w1 & f2 & w2 & E1 & E2 & E3 & E4 & Hov) Hd Hle.
  apply init_registered in Hinit. destruct Hinit as (Hreg & _).
  destruct (before_in _ _ _ Hb) as (Hia & Hib).
  rewrite Forall_forall in Hreg.
  assert (Hfa : has_frequency a = true) by (unfold has_frequency; now rewrite E1, E2).
  assert (Hfb : has_frequency b = true) by (unfold has_frequency; now rewrite E3, E4).
  destruct (registered_range a (Hreg a Hia) Hfa) as (f1' & w1' & A1 & A2 & A3 & A4).
  destruct (registered_range b (Hreg b Hib) Hfb) as (f2' & w2' & B1 & B2 & B3 & B4).
  assert (f1' = f1) by congruence. assert (w1' = w1) by congruence.
  assert (f2' = f2) by congruence. assert (w2' = w2) by congruence.
  subst f1' w1' f2' w2'.
  assert (Hr : analyze_pair geodesic_meters geodesic_bearing str
                 (devices self) a b = Raise ValueError).
  { apply analyze_pair_raises_iff. split; [reflexivity|]. split.
    - split; [exact Hs|].
      exists (f1 - w1 / 2), (f1 + w1 / 2), (f2 - w2 / 2), (f2 + w2 / 2). auto.
    - now exists d. }
  destruct (detect_frequency_interference geodesic_meters geodesic_bearing str self)
    as [[rs self']|e] eqn:E.
  - assert (Hbf : before (filter has_frequency (devices self)) a b)
      by (apply before_filter; auto).
    destruct (detect_ok_pairs _ _ _ _ _ _ E a b Hbf) as (o & Ho). congruence.
  - now rewrite (detect_raises_value_error _ _ _ _ _ E).
Qed.

Lemma overlapping_pair_without_result_witness :
  init (two_radios 5180 20 5185 20 None None (Some (40.7, -74)))
    = Ok {| devices := [radio_A 5180 20 None (Some (40.7, -74));
                        radio_B 5185 20 None (Some (40.7, -74))];
            interference_results := [] |} /\
  site_id (radio_A 5180 20 None (Some (40.7, -74)))
    <> site_id (radio_B 5185 20 None (Some (40.7, -74))) /\
  ranges_overlap (5180 - 20 / 2) (5180 + 20 / 2) (5185 - 20 / 2) (5185 + 20 / 2) /\
  detect_frequency_interference
    (geodesic_const (Ok 0)) geopy_bearing str_hash
    {| devices := [radio_A 5180 20 None (Some (40.7, -74));
                   radio_B 5185 20 None (Some (40.7, -74))];
       interference_results := [] |}
    = Raise ValueError.
Proof.
  assert (Hinit := init_two_radios 5180 20 5185 20 None None (Some (40.7, -74))).
  assert (Hs : site_id (radio_A 5180 20 None (Some (40.7, -74)))
               <> site_id (radio_B 5185 20 None (Some (40.7, -74))))
    by discriminate.
  assert (Hov : ranges_overlap (5180 - 20 / 2) (5180 + 20 / 2)
                               (5185 - 20 / 2) (5185 + 20 / 2))
    by (unfold ranges_overlap; lra).
  assert (Hle : 0 <= 0) by lra.
  split; [exact Hinit|]. split; [exact Hs|]. split; [exact Hov|].
  apply (overlapping_pair_without_result
           (geodesic_const (Ok 0)) geopy_bearing str_hash
           (two_radios 5180 20 5185 20 None None (Some (40.7, -74))) _
           (radio_A 5180 20 None (Some (40.7, -74)))
           (radio_B 5185 20 None (Some (40.7, -74))) 0 Hinit).
  - exists [], [], []. reflexivity.
  - exact Hs.
  - exists 5180, 20, 5185, 20. repeat split; try reflexivity; apply Hov.
  - reflexivity.
  - exact Hle.
Defined.

(** [detect_frequency_interference] raises exactly when, among the devices
    with frequency and channel width, some pair that passes the site and
    overlap tests lies at a known distance that is not positive; the
    exception is then [ValueError], and there is no other way for it to
    fail. *)
Theorem detect_raises_iff
    (geodesic_meters geodesic_bearing : point -> point -> result R)
    (str : R -> string) (self : InterferenceDetector) (e : exn) :
  detect_frequency_interference geodesic_meters geodesic_bearing str self = Raise e
  <->
  e = ValueError /\
  exists d1 d2 d,
    before (filter has_frequency (devices self)) d1 d2 /\
    qualifies d1 d2 /\
    pair_distance geodesic_meters d1 d2 = Some d /\ d <= 0.
Proof.
  assert (Hraise : forall e',
             detect_frequency_interference geodesic_meters geodesic_bearing str self
               = Raise e' ->
             e' = ValueError /\
             exists d1 d2 d,
               before (filter has_frequency (devices self)) d1 d2 /\
               qualifies d1 d2 /\
               pair_distance geodesic_meters d1 d2 = Some d /\ d <= 0).
  { intros e'. unfold detect_frequency_interference.
    destruct (Nat.ltb _ 2); [discriminate|].
    destruct (outer_loop _ _ _ _ _ _) as [found|e''] eqn:E; cbn [bind];
      [discriminate|].
    intros [= <-]. apply outer_loop_raises in E.
    destruct E as (d1 & d2 & Hb & Hr). apply analyze_pair_raises_iff in Hr.
    destruct Hr as (-> & Hq & d & Hd & Hle).
    split; [reflexivity|]. now exists d1, d2, d. }
  split; [apply Hraise|].
  intros (-> & d1 & d2 & d & Hb & Hq & Hd & Hle).
  destruct (detect_frequency_interference geodesic_meters geodesic_bearing str self)
    as [[rs self']|e'] eqn:E.
  - destruct (detect_ok_pairs _ _ _ _ _ _ E d1 d2 Hb) as (o & Ho).
    assert (Hr : analyze_pair geodesic_meters geodesic_bearing str
                   (devices self) d1 d2 = Raise ValueError).
    { apply analyze_pair_raises_iff. split; [reflexivity|]. split; [exact Hq|].
      now exists d. }
    congruence.
  - now destruct (Hraise e' eq_refl) as (-> & _).
Qed.

(** ** How many results, and in which order *)

Section CountFacts.
Variable geodesic_meters geodesic_bearing : point -> point -> result R.
Variable str : R -> string.

Lemma inner_loop_length (ds : list Device) (d1 : Device) (rest : list Device) :
  forall acc out,
    inner_loop geodesic_meters geodesic_bearing str ds d1 rest acc = Ok out ->
    (List.length out <= List.length acc + List.length rest)%nat.
Proof.
  induction rest as [|d rest IH]; simpl; intros acc out H.
  - injection H as <-. lia.
  - destruct (analyze_pair _ _ _ ds d1 d) as [[r|]|e]; cbn [bind] in H;
      try discriminate; apply IH in H.
    + rewrite length_app in H. simpl in H. lia.
    + lia.
Qed.

Lemma outer_loop_length (ds : list Device) (freq_devices : list Device) :
  forall acc out,
    outer_loop geodesic_meters geodesic_bearing str ds freq_devices acc = Ok out ->
    (2 * List.length out
     <= 2 * List.length acc
        + List.length freq_devices * (List.length freq_devices - 1))%nat.
Proof.
  induction freq_devices as [|d rest IH]; simpl; intros acc out H.
  - injection H as <-. lia.
  - destruct (inner_loop _ _ _ ds d rest acc) as [acc'|e] eqn:E; cbn [bind] in H;
      [|discriminate].
    apply inner_loop_length in E. apply IH in H.
    rewrite Nat.sub_0_r. nia.
Qed.

End CountFacts.

(** A run reports at most one result for each pair of devices with
    frequency and channel width: with [n] such devices there are at most
    [n (n - 1) / 2] results. *)
Theorem detect_results_count
    (geodesic_meters geodesic_bearing : point -> point -> result R)
    (str : R -> string) (self : InterferenceDetector) rs self' :
  detect_frequency_interference geodesic_meters geodesic_bearing str self
    = Ok (rs, self') ->
  let n := List.length (filter has_frequency (devices self)) in
  (2 * List.length rs <= n * (n - 1))%nat.
Proof.
  unfold detect_frequency_interference.
  destruct (Nat.ltb _ 2).
  - intros [= <- <-]. simpl. lia.
  - destruct (outer_loop _ _ _ _ _ _) as [found|e] eqn:E; cbn [bind];
      [|discriminate].
    intros [= <- <-]. apply outer_loop_length in E. simpl in E.
    rewrite <- (Permutation_length (sort_desc_perm interference_score found)).
    exact E.
Qed.

Lemma detect_results_count_witness :
  detect_frequency_interference
    (geodesic_const (Ok 50)) (geodesic_const (Ok 0)) str_hash trio_detector
    = Ok ([trio_AB; trio_BC; trio_AC], trio_detected) /\
  (2 * List.length [trio_AB; trio_BC; trio_AC]
   <= List.length (filter has_frequency (devices trio_detector))
      * (List.length (filter has_frequency (devices trio_detector)) - 1))%nat.
Proof.
  split; [apply trio_detect|].
  exact (detect_results_count
           (geodesic_const (Ok 50)) (geodesic_const (Ok 0)) str_hash
           trio_detector [trio_AB; trio_BC; trio_AC] trio_detected
           (trio_detect (geodesic_const (Ok 50)) (geodesic_const (Ok 0)))).
Defined.

Section StableSort.
Context {A : Type} (key : A -> R).

Lemma insert_desc_same_key (k : R) (x : A) (l : list A) :
  filter (fun y => Py.eqb (key y) k) (Py.insert_desc key x l)
  = filter (fun y => Py.eqb (key y) k) (x :: l).
Proof.
  induction l as [|y l IH]; [reflexivity|].
  cbn [Py.insert_desc]. destruct (Py.leb (key y) (key x)) eqn:E; [reflexivity|].
  apply leb_false_iff in E.
  rewrite filter_step, IH, !filter_step.
  destruct (Py.eqb (key x) k) eqn:Ex, (Py.eqb (key y) k) eqn:Ey; try reflexivity.
  apply eqb_true_iff in Ex, Ey. lra.
Qed.

Lemma sort_desc_stable (k : R) (l : list A) :
  filter (fun y => Py.eqb (key y) k) (Py.sort_desc key l)
  = filter (fun y => Py.eqb (key y) k) l.
Proof.
  induction l as [|x l IH]; [reflexivity|].
  cbn [Py.sort_desc]. rewrite insert_desc_same_key, !filter_step. now rewrite IH.
Qed.

End StableSort.

(** The results a run returns are the results of the double loop,
    rearranged: none is lost or repeated by the sort, and the results of
    any one score come in the order in which the loop met their pairs. *)
Theorem detect_sort_is_stable
    (geodesic_meters geodesic_bearing : point -> point -> result R)
    (str : R -> string) (self : InterferenceDetector) rs self' :
  detect_frequency_interference geodesic_meters geodesic_bearing str self
    = Ok (rs, self') ->
  exists found,
    outer_loop geodesic_meters geodesic_bearing str (devices self)
      (filter has_frequency (devices self)) [] = Ok found /\
    Permutation found rs /\
    forall score,
      filter (fun r => Py.eqb (interference_score r) score) rs
      = filter (fun r => Py.eqb (interference_score r) score) found.
Proof.
  unfold detect_frequency_interference.
  destruct (Nat.ltb _ 2) eqn:Hlen.
  - intros [= <- <-]. exists []. split; [|split; [constructor|reflexivity]].
    apply Nat.ltb_lt in Hlen.
    destruct (filter has_frequency (devices self)) as [|a [|b l]];
      [reflexivity|reflexivity|simpl in Hlen; lia].
  - destruct (outer_loop _ _ _ _ _ _) as [found|e] eqn:E; cbn [bind];
      [|discriminate].
    intros [= <- <-]. exists found. split; [reflexivity|].
    split; [apply sort_desc_perm|]. intros score. apply sort_desc_stable.
Qed.

Lemma detect_sort_is_stable_witness :
  detect_frequency_interference
    (geodesic_const (Ok 50)) (geodesic_const (Ok 0)) str_hash trio_detector
    = Ok ([trio_AB; trio_BC; trio_AC], trio_detected) /\
  exists found,
    outer_loop (geodesic_const (Ok 50)) (geodesic_const (Ok 0)) str_hash
      (devices trio_detector) (filter has_frequency (devices trio_detector)) []
    = Ok found /\
    Permutation found [trio_AB; trio_BC; trio_AC].
Proof.
  split; [apply trio_detect|].
  destruct (detect_sort_is_stable
              (geodesic_const (Ok 50)) (geodesic_const (Ok 0)) str_hash
              trio_detector [trio_AB; trio_BC; trio_AC] trio_detected
              (trio_detect (geodesic_const (Ok 50)) (geodesic_const (Ok 0))))
    as (found & Hfound & Hperm & _).
  exists found. split; assumption.
Defined.

(** ** Shape of the scoring factors *)

Lemma ln_10_pos : 0 < ln 10.
Proof. rewrite <- ln_1. apply ln_increasing; lra. Qed.

Lemma log10_le (d d' : R) : 0 < d -> d <= d' -> ln d / ln 10 <= ln d' / ln 10.
Proof.
  intros Hd Hle. pose proof ln_10_pos as H10.
  assert (ln d <= ln d').
  { destruct (Req_dec_T d d') as [->|Hne]; [lra|].
    left. apply ln_increasing; lra. }
  apply Rmult_le_compat_r; [|assumption].
  left. now apply Rinv_0_lt_compat.
Qed.

Lemma exp_le (x y : R) : x <= y -> exp x <= exp y.
Proof.
  intros [H | ->]; [left; now apply exp_increasing|lra].
Qed.

Lemma sigmoid_le (x y : R) :
  x <= y -> 0.9 / (1 + exp ((y - 3) * 2)) <= 0.9 / (1 + exp ((x - 3) * 2)).
Proof.
  intros Hxy.
  pose proof (exp_pos ((x - 3) * 2)) as Hx.
  pose proof (exp_le ((x - 3) * 2) ((y - 3) * 2)) as Hle.
  apply Rmult_le_compat_l; [lra|].
  apply Rinv_le_contravar; lra.
Qed.

Lemma sigmoid_range (x : R) : 0 < 0.9 / (1 + exp ((x - 3) * 2)) < 0.9.
Proof.
  pose proof (exp_pos ((x - 3) * 2)) as Hx.
  split.
  - apply Rdiv_lt_0_compat; lra.
  - apply (Rmult_lt_reg_r (1 + exp ((x - 3) * 2))); [lra|].
    replace (0.9 / (1 + exp ((x - 3) * 2)) * (1 + exp ((x - 3) * 2))) with 0.9
      by (field; lra).
    lra.
Qed.

Lemma log10_1000 : ln 1000 / ln 10 = 3.
Proof.
  pose proof ln_10_pos as H10.
  replace 1000 with (10 * (10 * 10)) by lra.
  rewrite !ln_mult by lra. field. lra.
Qed.

Lemma distance_factor_at_most_1 (distance : option R) (f : R) :
  distance_factor distance = Ok f -> f <= 1.
Proof.
  destruct distance as [d|]; [|intros [= <-]; lra].
  destruct (Rlt_dec 0 d) as [Hd|Hd].
  - rewrite (distance_factor_known d Hd). intros [= <-].
    pose proof (sigmoid_range (ln d / ln 10)). lra.
  - rewrite distance_factor_raises by lra. discriminate.
Qed.

(** For a positive distance the distance factor lies strictly between 0.1
    and 1, and a longer distance never gives a larger factor; at 1000 m the
    factor is 0.55. *)
Theorem distance_factor_shape (d d' : R) :
  0 < d -> d <= d' ->
  exists f f',
    distance_factor (Some d) = Ok f /\
    distance_factor (Some d') = Ok f' /\
    0.1 < f' /\ f' <= f /\ f < 1 /\
    distance_factor (Some 1000) = Ok 0.55.
Proof.
  intros Hd Hle.
  exists (0.1 + 0.9 / (1 + exp ((ln d / ln 10 - 3) * 2))),
         (0.1 + 0.9 / (1 + exp ((ln d' / ln 10 - 3) * 2))).
  split; [apply distance_factor_known; exact Hd|].
  split; [apply distance_factor_known; lra|].
  pose proof (sigmoid_range (ln d / ln 10)).
  pose proof (sigmoid_range (ln d' / ln 10)).
  pose proof (sigmoid_le _ _ (log10_le d d' Hd Hle)).
  split; [lra|]. split; [lra|]. split; [lra|].
  rewrite distance_factor_known by lra. rewrite log10_1000.
  replace ((3 - 3) * 2) with 0 by lra. rewrite exp_0. f_equal. lra.
Qed.

Lemma distance_factor_shape_witness :
  0 < 100 /\ 100 <= 5000 /\
  exists f f',
    distance_factor (Some 100) = Ok f /\
    distance_factor (Some 5000) = Ok f' /\
    0.1 < f' /\ f' <= f /\ f < 1.
Proof.
  assert (H1 : 0 < 100) by lra. assert (H2 : 100 <= 5000) by lra.
  destruct (distance_factor_shape 100 5000 H1 H2)
    as (f & f' & Hf & Hf' & Ha & Hb & Hc & _).
  split; [exact H1|]. split; [exact H2|].
  exists f, f'. repeat split; assumption.
Defined.

(** ** Spatial overlap: range *)

Lemma div_some (a h q : R) : Py.div a h = Ok q -> h <> 0 /\ q = a / h.
Proof.
  unfold Py.div. destruct (Py.eqb h 0) eqn:E; [discriminate|].
  apply eqb_false_iff in E. now intros [= <-].
Qed.

Lemma facing_term_range (a h q : R) :
  0 <= a -> a <= h -> Py.div a h = Ok q -> 0 <= 1 - q <= 1.
Proof.
  intros Ha Hle Hq. apply div_some in Hq. destruct Hq as (Hh & ->).
  assert (0 < h) by lra.
  assert (0 <= a / h) by (apply Rle_mult_inv_pos; lra).
  assert (a / h <= 1).
  { apply (Rmult_le_reg_r h); [lra|].
    replace (a / h * h) with a by (field; lra). lra. }
  lra.
Qed.

Lemma spatial_overlap_in_unit
    (geodesic_bearing : point -> point -> result R) (d1 d2 : Device) (v : R) :
  _calculate_spatial_overlap geodesic_bearing d1 d2 = Some v -> 0 <= v <= 1.
Proof.
  unfold _calculate_spatial_overlap.
  destruct (latitude d1) as [lat1|]; [|discriminate].
  destruct (longitude d1) as [lon1|]; [|discriminate].
  destruct (latitude d2) as [lat2|]; [|discriminate].
  destruct (longitude d2) as [lon2|]; [|discriminate].
  destruct (direction d1) as [dir1|]; [|discriminate].
  destruct (direction d2) as [dir2|]; [|discriminate].
  destruct (beam_width d1) as [bw1|]; [|discriminate].
  destruct (beam_width d2) as [bw2|]; [|discriminate].
  unfold spatial_overlap_try.
  destruct (geodesic_bearing (lat1, lon1) (lat2, lon2)) as [b12|e];
    cbn [bind try_except]; [|discriminate].
  destruct (dir_to_bearing dir1) as [b1|]; [|discriminate].
  destruct (dir_to_bearing dir2) as [b2|]; [|discriminate].
  set (a1 := Rabs (Py.mod_ (b1 - b12 + 180) 360 - 180)).
  set (a2 := Rabs (Py.mod_ (b2 - Py.mod_ (b12 + 180) 360 + 180) 360 - 180)).
  assert (Ha1 : 0 <= a1) by apply Rabs_pos.
  assert (Ha2 : 0 <= a2) by apply Rabs_pos.
  destruct (Py.leb a1 (bw1 / 2)) eqn:L1, (Py.leb a2 (bw2 / 2)) eqn:L2; cbn [andb];
    try apply leb_true_iff in L1; try apply leb_true_iff in L2.
  - destruct (Py.div a1 (bw1 / 2)) as [q1|] eqn:Q1; cbn [bind try_except];
      [|discriminate].
    destruct (Py.div a2 (bw2 / 2)) as [q2|] eqn:Q2; cbn [bind try_except];
      [|discriminate].
    intros [= <-].
    pose proof (facing_term_range _ _ _ Ha1 L1 Q1).
    pose proof (facing_term_range _ _ _ Ha2 L2 Q2). lra.
  - destruct (Py.div a1 (bw1 / 2)) as [q1|] eqn:Q1; cbn [bind try_except];
      [|discriminate].
    intros [= <-]. pose proof (facing_term_range _ _ _ Ha1 L1 Q1). lra.
  - destruct (Py.div a2 (bw2 / 2)) as [q2|] eqn:Q2; cbn [bind try_except];
      [|discriminate].
    intros [= <-]. pose proof (facing_term_range _ _ _ Ha2 L2 Q2). lra.
  - intros [= <-]. lra.
Qed.

(** Whatever the devices hold and whatever geopy answers, a spatial overlap
    that is present lies in [0, 1]; it is absent as soon as a coordinate, a
    direction or a beam width of either device is missing; and the spatial
    factor the scorer derives from it lies in [0.2, 1]. *)
Theorem spatial_overlap_always_in_unit
    (geodesic_bearing : point -> point -> result R) (d1 d2 : Device) :
  (forall v, _calculate_spatial_overlap geodesic_bearing d1 d2 = Some v ->
             0 <= v <= 1) /\
  (latitude d1 = None \/ longitude d1 = None \/
   latitude d2 = None \/ longitude d2 = None \/
   direction d1 = None \/ direction d2 = None \/
   beam_width d1 = None \/ beam_width d2 = None ->
   _calculate_spatial_overlap geodesic_bearing d1 d2 = None) /\
  0.2 <= spatial_factor (_calculate_spatial_overlap geodesic_bearing d1 d2) <= 1.
Proof.
  split; [intros v; apply spatial_overlap_in_unit|]. split.
  - unfold _calculate_spatial_overlap.
    intros [H | [H | [H | [H | [H | [H | [H | H]]]]]]]; rewrite H;
      repeat match goal with
             | |- context [match ?x with _ => _ end] => destruct x
             end; reflexivity.
  - destruct (_calculate_spatial_overlap geodesic_bearing d1 d2) as [v|] eqn:E;
      cbn [spatial_factor]; [|lra].
    apply spatial_overlap_in_unit in E. lra.
Qed.

(** ** Bounds on the results of a run *)

Lemma score_inversion (overlap : R) (distance spatial : option R)
    (d1 d2 : Device) (s : R) :
  _calculate_interference_score overlap distance spatial d1 d2 = Ok s ->
  exists f,
    distance_factor distance = Ok f /\
    s = overlap / min_channel_width d1 d2 * 100 * f
        * spatial_factor spatial * tx_power_factor d1 d2.
Proof.
  unfold _calculate_interference_score.
  rewrite (div_ok _ _ (min_channel_width_nonzero d1 d2)). cbn [bind].
  destruct (distance_factor distance) as [f|e]; cbn [bind]; [|discriminate].
  intros [= <-]. now exists f.
Qed.

Lemma analyze_pair_result
    (geodesic_meters geodesic_bearing : point -> point -> result R)
    (str : R -> string) (ds : list Device) (d1 d2 : Device)
    (r : InterferenceResult) :
  analyze_pair geodesic_meters geodesic_bearing str ds d1 d2 = Ok (Some r) ->
  distance r = pair_distance geodesic_meters d1 d2 /\
  spatial_overlap r = _calculate_spatial_overlap geodesic_bearing d1 d2 /\
  _calculate_interference_score
    (frequency_overlap r) (distance r) (spatial_overlap r) d1 d2
    = Ok (interference_score r) /\
  recommendation r
    = _generate_recommendation str ds d1 d2
        (frequency_overlap r) (distance r) (interference_score r).
Proof.
  unfold analyze_pair.
  destruct (Py.opt_str_eqb _ _); [discriminate|].
  destruct (freq_min d1); [|discriminate]. destruct (freq_max d1); [|discriminate].
  destruct (freq_min d2); [|discriminate]. destruct (freq_max d2); [|discriminate].
  destruct (_ && _)%bool; [|discriminate].
  destruct (_calculate_interference_score _ _ _ _ _) as [s|e] eqn:E;
    cbn [bind]; [|discriminate].
  intros [= <-]. cbn. now repeat split.
Qed.

Lemma overlap_width_bounded (f1 w1 f2 w2 : R) :
  Rmin (f1 + w1 / 2) (f2 + w2 / 2) - Rmax (f1 - w1 / 2) (f2 - w2 / 2)
  <= Rmin w1 w2.
Proof.
  unfold Rmin, Rmax.
  destruct (Rle_dec (f1 + w1 / 2) (f2 + w2 / 2)),
           (Rle_dec (f1 - w1 / 2) (f2 - w2 / 2)),
           (Rle_dec w1 w2); lra.
Qed.

(** In every result of a run on a detector built from a snapshot, the
    recorded overlap is at most the narrower of the two channel widths.
    When both widths are positive the overlap lies between 0 and that
    width, and a score whose transmit-power factor is not negative lies
    between 0 and 100 times this factor: between 0 and 100 when a transmit
    power is missing. *)
Theorem result_score_bounds
    (geodesic_meters geodesic_bearing : point -> point -> result R)
    (str : R -> string)
    (database : FrequencyDatabase) (self : InterferenceDetector) rs self' r :
  init database = Ok self ->
  detect_frequency_interference geodesic_meters geodesic_bearing str self
    = Ok (rs, self') ->
  In r rs ->
  exists w1 w2,
    channel_width (device1 r) = Some w1 /\
    channel_width (device2 r) = Some w2 /\
    frequency_overlap r <= Rmin w1 w2 /\
    (0 < w1 -> 0 < w2 ->
     0 <= frequency_overlap r /\
     (0 <= tx_power_factor (device1 r) (device2 r) ->
      0 <= interference_score r
        <= 100 * tx_power_factor (device1 r) (device2 r)) /\
     (tx_power (device1 r) = None \/ tx_power (device2 r) = None ->
      0 <= interference_score r <= 100)).
Proof.
  intros Hinit Hdet Hr.
  apply init_registered in Hinit. destruct Hinit as (Hreg & _).
  destruct (detect_result_fields _ _ _ _ _ _ r Hreg Hdet Hr)
    as (_ & _ & f1 & w1 & f2 & w2 & E1 & E2 & E3 & E4 & M1 & M2 & M3 & M4 & Hov & Hw).
  exists w1, w2. split; [exact E2|]. split; [exact E4|].
  split; [rewrite Hw; apply overlap_width_bounded|].
  intros Hw1 Hw2.
  assert (Hnonneg : 0 <= frequency_overlap r).
  { rewrite Hw. apply overlap_width_nonneg; [lra|lra|exact Hov]. }
  assert (Hle : frequency_overlap r <= Rmin w1 w2)
    by (rewrite Hw; apply overlap_width_bounded).
  split; [exact Hnonneg|].
  pose proof Hdet as Hdet0. apply detect_ok in Hdet0.
  destruct Hdet0 as (_ & _ & Hrs). apply Hrs in Hr.
  destruct Hr as (d1 & d2 & _ & Ha).
  pose proof (analyze_pair_some _ _ _ _ _ _ _ Ha) as (_ & Hd1 & Hd2 & _).
  apply analyze_pair_result in Ha. destruct Ha as (_ & Hsp & Hscore & _).
  rewrite <- Hd1, <- Hd2 in Hscore, Hsp.
  apply score_inversion in Hscore. destruct Hscore as (f & Hf & Hs).
  assert (Hm : min_channel_width (device1 r) (device2 r) = Rmin w1 w2).
  { unfold min_channel_width. rewrite E2, E4. now rewrite !or_default_kept by lra. }
  rewrite Hm in Hs.
  assert (Hmin : 0 < Rmin w1 w2) by (unfold Rmin; destruct (Rle_dec w1 w2); lra).
  assert (Hq : 0 <= frequency_overlap r / Rmin w1 w2 <= 1).
  { split; [apply Rle_mult_inv_pos; lra|].
    apply (Rmult_le_reg_r (Rmin w1 w2)); [lra|].
    replace (frequency_overlap r / Rmin w1 w2 * Rmin w1 w2)
      with (frequency_overlap r) by (field; lra).
    lra. }
  pose proof (distance_factor_positive _ _ Hf) as Hf0.
  pose proof (distance_factor_at_most_1 _ _ Hf) as Hf1.
  assert (Hsf : 0.2 <= spatial_factor (spatial_overlap r) <= 1).
  { rewrite Hsp.
    destruct (_calculate_spatial_overlap geodesic_bearing (device1 r) (device2 r))
      as [v|] eqn:E; cbn [spatial_factor]; [|lra].
    apply spatial_overlap_in_unit in E. lra. }
  assert (Hprod : 0 <= frequency_overlap r / Rmin w1 w2 * 100 * f
                       * spatial_factor (spatial_overlap r) <= 100).
  { set (q := frequency_overlap r / Rmin w1 w2) in *.
    set (sf := spatial_factor (spatial_overlap r)) in *.
    assert (0 <= q * f <= 1) by nra.
    assert (0 <= q * f * sf <= 1) by nra.
    nra. }
  assert (Hgen : 0 <= tx_power_factor (device1 r) (device2 r) ->
                 0 <= interference_score r
                   <= 100 * tx_power_factor (device1 r) (device2 r)).
  { intros Ht. rewrite Hs. nra. }
  split; [exact Hgen|].
  intros Hmissing.
  assert (Ht : tx_power_factor (device1 r) (device2 r) = 1).
  { unfold tx_power_factor. destruct Hmissing as [-> | ->]; [reflexivity|].
    now destruct (tx_power (device1 r)). }
  rewrite Ht in Hgen. lra.
Qed.

Lemma result_score_bounds_witness :
  init (two_radios 5180 20 5185 20 None None None) = Ok example_detector /\
  detect_frequency_interference
    (geodesic_const (Ok 50)) (geodesic_const (Ok 0)) str_hash example_detector
    = Ok ([example_result], example_detected) /\
  In example_result [example_result] /\
  0 <= frequency_overlap example_result <= 20 /\
  0 <= interference_score example_result <= 100.
Proof.
  split; [apply init_two_radios|]. split; [apply example_detect|].
  split; [now left|].
  destruct (result_score_bounds
              (geodesic_const (Ok 50)) (geodesic_const (Ok 0)) str_hash
              (two_radios 5180 20 5185 20 None None None) example_detector
              [example_result] example_detected example_result
              (init_two_radios 5180 20 5185 20 None None None)
              (example_detect (geodesic_const (Ok 50)) (geodesic_const (Ok 0)))
              (or_introl eq_refl))
    as (w1 & w2 & W1 & W2 & Hle & Hpos).
  injection W1 as <-. injection W2 as <-.
  assert (Hw : 0 < 20) by lra.
  destruct (Hpos Hw Hw) as (H0 & _ & Hscore).
  assert (Hmin : Rmin 20 20 = 20) by (apply Rmin_eval; lra).
  rewrite Hmin in Hle.
  split; [split; assumption|]. apply Hscore. now left.
Defined.

(** ** Monotonicity of the score *)

(** With a non-negative overlap, non-negative channel widths and a
    transmit-power factor that is not negative, the score does not grow
    when the distance grows, does not shrink when the spatial overlap
    grows, and an unknown distance or an unknown spatial overlap scores at
    least as high as any known one. *)
Theorem score_monotone
    (overlap d d' s s' : R) (d1 d2 : Device) :
  0 <= overlap ->
  (forall w, channel_width d1 = Some w -> 0 <= w) ->
  (forall w, channel_width d2 = Some w -> 0 <= w) ->
  0 <= tx_power_factor d1 d2 ->
  0 < d -> d <= d' ->
  0 <= s -> s <= s' -> s' <= 1 ->
  exists near far aligned unknown_distance unknown_overlap,
    _calculate_interference_score overlap (Some d) (Some s) d1 d2 = Ok near /\
    _calculate_interference_score overlap (Some d') (Some s) d1 d2 = Ok far /\
    _calculate_interference_score overlap (Some d) (Some s') d1 d2 = Ok aligned /\
    _calculate_interference_score overlap None (Some s) d1 d2
      = Ok unknown_distance /\
    _calculate_interference_score overlap (Some d) None d1 d2
      = Ok unknown_overlap /\
    far <= near /\ near <= aligned /\
    near <= unknown_distance /\ near <= unknown_overlap.
Proof.
  intros Ho Hw1 Hw2 Ht Hd Hdd Hs Hss Hs1.
  pose proof (min_channel_width_positive d1 d2 Hw1 Hw2) as Hm.
  assert (Hb : 0 <= overlap / min_channel_width d1 d2 * 100).
  { apply Rmult_le_pos; [apply Rle_mult_inv_pos; assumption|lra]. }
  set (b := overlap / min_channel_width d1 d2 * 100) in *.
  set (t := tx_power_factor d1 d2) in *.
  assert (Hscore : forall dist sp f,
             distance_factor dist = Ok f ->
             _calculate_interference_score overlap dist sp d1 d2
             = Ok (b * f * spatial_factor sp * t)).
  { intros dist sp f Hf. unfold _calculate_interference_score.
    rewrite (div_ok _ _ (min_channel_width_nonzero d1 d2)). cbn [bind].
    rewrite Hf. reflexivity. }
  pose proof (distance_factor_known d Hd) as Fd.
  assert (Hd' : 0 < d') by lra.
  pose proof (distance_factor_known d' Hd') as Fd'.
  set (f := 0.1 + 0.9 / (1 + exp ((ln d / ln 10 - 3) * 2))) in *.
  set (f' := 0.1 + 0.9 / (1 + exp ((ln d' / ln 10 - 3) * 2))) in *.
  assert (Hf : 0 < f' /\ f' <= f /\ f <= 1).
  { pose proof (sigmoid_range (ln d / ln 10)).
    pose proof (sigmoid_range (ln d' / ln 10)).
    pose proof (sigmoid_le _ _ (log10_le d d' Hd Hdd)).
    unfold f, f'. lra. }
  exists (b * f * spatial_factor (Some s) * t),
         (b * f' * spatial_factor (Some s) * t),
         (b * f * spatial_factor (Some s') * t),
         (b * 1 * spatial_factor (Some s) * t),
         (b * f * spatial_factor None * t).
  split; [now apply Hscore|]. split; [now apply Hscore|].
  split; [now apply Hscore|]. split; [now apply Hscore|].
  split; [now apply Hscore|].
  cbn [spatial_factor].
  assert (0 <= b * f) by (apply Rmult_le_pos; lra).
  repeat split.
  - apply Rmult_le_compat_r; [exact Ht|]. apply Rmult_le_compat_r; [lra|].
    apply Rmult_le_compat_l; lra.
  - apply Rmult_le_compat_r; [exact Ht|]. apply Rmult_le_compat_l; lra.
  - apply Rmult_le_compat_r; [exact Ht|]. apply Rmult_le_compat_r; [lra|].
    apply Rmult_le_compat_l; lra.
  - apply Rmult_le_compat_r; [exact Ht|]. apply Rmult_le_compat_l; lra.
Qed.

Lemma score_monotone_witness :
  exists near far,
    _calculate_interference_score 15 (Some 100) (Some 0.5) example_A example_B
      = Ok near /\
    _calculate_interference_score 15 (Some 5000) (Some 0.5) example_A example_B
      = Ok far /\
    far <= near.
Proof.
  destruct (score_monotone 15 100 5000 0.5 1 example_A example_B)
    as (near & far & _ & _ & _ & Hnear & Hfar & _ & _ & _ & Hle & _);
    try lra.
  - intros w [= <-]. lra.
  - intros w [= <-]. lra.
  - cbn. lra.
  - exists near, far. repeat split; assumption.
Defined.

(** ** Alternative frequency *)

Lemma mem_iff (x : R) (xs : list R) : Py.mem x xs = true <-> In x xs.
Proof.
  unfold Py.mem. rewrite existsb_exists. split.
  - intros (y & Hy & E). apply eqb_true_iff in E. now subst.
  - intros H. exists x. split; [exact H|now apply eqb_true_iff].
Qed.

Lemma used_frequency_iff (ds : list Device) (f : R) :
  In f (flat_map (fun d => match frequency d with Some f => [f] | None => [] end) ds)
  <-> exists d, In d ds /\ frequency d = Some f.
Proof.
  rewrite in_flat_map. split.
  - intros (d & Hd & Hf). exists d. split; [exact Hd|].
    destruct (frequency d) as [g|]; [|contradiction].
    destruct Hf as [-> | []]. reflexivity.
  - intros (d & Hd & Hf). exists d. split; [exact Hd|]. rewrite Hf. now left.
Qed.

Lemma filter_head {A : Type} (p : A -> bool) (l : list A) (a : A) (rest : list A) :
  filter p l = a :: rest ->
  exists l1 l2, l = l1 ++ a :: l2 /\ Forall (fun x => p x = false) l1 /\ p a = true.
Proof.
  induction l as [|x l IH]; simpl; [discriminate|].
  destruct (p x) eqn:E.
  - intros [= -> _]. exists [], l. now repeat split.
  - intros H. destruct (IH H) as (l1 & l2 & -> & Hl1 & Ha).
    exists (x :: l1), l2. repeat split; [|exact Ha]. now constructor.
Qed.

(** When [_find_alternative_frequency] proposes a change from [current] to
    [alternative]: [current] is the frequency of one of the two devices and
    a candidate frequency; [alternative] is the first candidate of the list
    that no device of the registry uses; and when the two devices belong to
    the registry the two frequencies differ. *)
Theorem alternative_frequency_sound
    (self_devices : list Device) (d1 d2 : Device) (current alternative : R) :
  _find_alternative_frequency self_devices d1 d2 = Some (current, alternative) ->
  (frequency d1 = Some current \/ frequency d2 = Some current) /\
  In current potential_frequencies /\
  (forall d, In d self_devices -> frequency d <> Some alternative) /\
  (exists before_it after_it,
     potential_frequencies = before_it ++ alternative :: after_it /\
     forall f, In f before_it ->
       exists d, In d self_devices /\ frequency d = Some f) /\
  (In d1 self_devices -> In d2 self_devices -> alternative <> current).
Proof.
  unfold _find_alternative_frequency.
  set (used := flat_map _ self_devices).
  destruct (filter _ potential_frequencies) as [|a rest] eqn:Hfilter;
    [discriminate|].
  apply filter_head in Hfilter.
  destruct Hfilter as (l1 & l2 & Hsplit & Hl1 & Ha).
  apply negb_true_iff in Ha.
  assert (Hunused : forall d, In d self_devices -> frequency d <> Some a).
  { intros d Hd Hf.
    assert (In a used) by (apply used_frequency_iff; now exists d).
    apply mem_iff in H. congruence. }
  assert (Hfirst : forall f, In f l1 ->
             exists d, In d self_devices /\ frequency d = Some f).
  { intros f Hf. rewrite Forall_forall in Hl1. specialize (Hl1 f Hf).
    apply negb_false_iff in Hl1. apply mem_iff in Hl1.
    now apply used_frequency_iff. }
  intros H.
  assert (Hcur : (frequency d1 = Some current \/ frequency d2 = Some current) /\
                 In current potential_frequencies /\ alternative = a).
  { destruct (frequency d1) as [f1|].
    - destruct (Py.mem f1 potential_frequencies) eqn:M1.
      + injection H as <- <-. apply mem_iff in M1. auto.
      + destruct (frequency d2) as [f2|]; [|discriminate].
        destruct (Py.mem f2 potential_frequencies) eqn:M2; [|discriminate].
        injection H as <- <-. apply mem_iff in M2. auto.
    - destruct (frequency d2) as [f2|]; [|discriminate].
      destruct (Py.mem f2 potential_frequencies) eqn:M2; [|discriminate].
      injection H as <- <-. apply mem_iff in M2. auto. }
  destruct Hcur as (Hwho & Hcand & ->).
  split; [exact Hwho|]. split; [exact Hcand|]. split; [exact Hunused|].
  split; [now exists l1, l2|].
  intros H1 H2 Heq. subst current.
  destruct Hwho as [Hf | Hf]; [exact (Hunused d1 H1 Hf)|exact (Hunused d2 H2 Hf)].
Qed.

Lemma alternative_frequency_sound_witness :
  _find_alternative_frequency [example_A; example_B] example_A example_B
    = Some (5180, 5200) /\
  In 5180 potential_frequencies /\
  (forall d, In d [example_A; example_B] -> frequency d <> Some 5200) /\
  5200 <> 5180.
Proof.
  destruct (alternative_frequency_sound [example_A; example_B]
              example_A example_B 5180 5200 example_alternative)
    as (_ & Hcand & Hunused & _ & Hne).
  split; [exact example_alternative|]. split; [exact Hcand|].
  split; [exact Hunused|]. apply Hne; [now left|right; now left].
Defined.

(** ** Recommendation text *)

Lemma join_starts (sep : string) (c : ascii) (s : string) (tl : list string) :
  exists t, Py.join sep (String c s :: tl) = String c t.
Proof.
  unfold Py.join. destruct tl as [|y tl]; simpl; eauto.
Qed.

Lemma app_head_starts (l1 l2 : list string) (c : ascii) (s : string) (tl : list string) :
  l1 = String c s :: tl -> exists tl', l1 ++ l2 = String c s :: tl'.
Proof. intros ->. simpl. eauto. Qed.

(** Above the no-action threshold the text is a severity label followed by
    at least one suggestion: Medium for a score above 40 and at most 70,
    Low for a score from 20 to 40, and the text after the label is never
    empty. *)
Theorem recommendation_labels
    (str : R -> string) (self_devices : list Device) (d1 d2 : Device)
    (overlap : R) (distance : option R) (score : R) :
  20 <= score ->
  exists c rest,
    (score > 70 ->
     _generate_recommendation str self_devices d1 d2 overlap distance score
     = ("Interference Severity: High. " ++ String c rest)%string) /\
    (40 < score <= 70 ->
     _generate_recommendation str self_devices d1 d2 overlap distance score
     = ("Interference Severity: Medium. " ++ String c rest)%string) /\
    (score <= 40 ->
     _generate_recommendation str self_devices d1 d2 overlap distance score
     = ("Interference Severity: Low. " ++ String c rest)%string).
Proof.
  intros Hs. unfold _generate_recommendation.
  rewrite (proj2 (ltb_false_iff score 20) Hs).
  set (recs0 := match _find_alternative_frequency self_devices d1 d2 with
                | Some (current, alternative) => _
                | None => []
                end).
  set (dirs := match direction d1, direction d2 with
               | Some _, Some _ => _
               | _, _ => []
               end).
  assert (Hhead : exists c s tl,
             match (recs0 ++ power_reduction str d1 ++ power_reduction str d2) ++ dirs with
             | [] => ["Consider changing frequency of one device to a different band."%string]
             | _ :: _ => (recs0 ++ power_reduction str d1 ++ power_reduction str d2) ++ dirs
             end = String c s :: tl).
  { destruct recs0 as [|x l] eqn:E0.
    - destruct (power_reduction str d1) as [|x1 l1] eqn:E1.
      + destruct (power_reduction str d2) as [|x2 l2] eqn:E2.
        * cbn [app]. destruct dirs as [|x3 l3] eqn:E3; [cbn; eauto|].
          unfold dirs in E3.
          destruct (direction d1), (direction d2); try discriminate.
          injection E3 as <- <-. cbn. eauto.
        * cbn [app]. unfold power_reduction in E2.
          destruct (tx_power d2) as [p|]; [|discriminate].
          destruct (Py.ltb 15 p); [|discriminate].
          injection E2 as <- <-. cbn. eauto.
      + cbn [app]. unfold power_reduction in E1.
        destruct (tx_power d1) as [p|]; [|discriminate].
        destruct (Py.ltb 15 p); [|discriminate].
        injection E1 as <- <-. cbn. eauto.
    - cbn [app]. unfold recs0 in E0.
      destruct (_find_alternative_frequency self_devices d1 d2) as [[cur alt]|];
        [|discriminate].
      injection E0 as <- <-. cbn. eauto. }
  destruct Hhead as (c & s & tl & ->).
  destruct (join_starts " " c s tl) as (t & ->).
  exists c, t. unfold severity_label. repeat split; intros Hband.
  - now rewrite (proj2 (ltb_true_iff 70 score)) by lra.
  - rewrite (proj2 (ltb_false_iff 70 score)) by lra.
    now rewrite (proj2 (ltb_true_iff 40 score)) by lra.
  - rewrite (proj2 (ltb_false_iff 70 score)) by lra.
    now rewrite (proj2 (ltb_false_iff 40 score)) by lra.
Qed.

Lemma recommendation_labels_witness :
  20 <= 50 /\
  exists c rest,
    _generate_recommendation str_hash [example_A; example_B]
      example_A example_B 10 None 50
    = ("Interference Severity: Medium. " ++ String c rest)%string.
Proof.
  assert (H : 20 <= 50) by lra. split; [exact H|].
  destruct (recommendation_labels str_hash [example_A; example_B]
              example_A example_B 10 None 50 H) as (c & rest & _ & Hmedium & _).
  exists c, rest. apply Hmedium. lra.
Defined.

(** With no alternative frequency to offer, no transmit power above 15 dBm
    and a device without direction, the only suggestion is the generic one:
    the text is the severity label followed by the advice to move one
    device to another band. *)
Theorem recommendation_fallback
    (str : R -> string) (self_devices : list Device) (d1 d2 : Device)
    (overlap : R) (distance : option R) (score : R) :
  20 <= score ->
  _find_alternative_frequency self_devices d1 d2 = None ->
  (forall p, tx_power d1 = Some p -> p <= 15) ->
  (forall p, tx_power d2 = Some p -> p <= 15) ->
  direction d1 = None \/ direction d2 = None ->
  _generate_recommendation str self_devices d1 d2 overlap distance score
  = ("Interference Severity: " ++ severity_label score
     ++ ". Consider changing frequency of one device to a different band.")%string.
Proof.
  intros Hs Halt Hp1 Hp2 Hdir. unfold _generate_recommendation.
  rewrite (proj2 (ltb_false_iff score 20) Hs), Halt.
  assert (Hpow : forall d, (forall p, tx_power d = Some p -> p <= 15) ->
                           power_reduction str d = []).
  { intros d Hd. unfold power_reduction. destruct (tx_power d) as [p|]; [|reflexivity].
    now rewrite (proj2 (ltb_false_iff 15 p) (Hd p eq_refl)). }
  rewrite (Hpow d1 Hp1), (Hpow d2 Hp2).
  assert (Hd : match direction d1, direction d2 with
               | Some _, Some _ =>
                   [("Adjust antenna direction of " ++ name d1 ++ " or "
                     ++ name d2 ++ " to reduce overlap.")%string]
               | _, _ => []
               end = []).
  { destruct Hdir as [-> | ->]; [reflexivity|now destruct (direction d1)]. }
  rewrite Hd. cbn [app Py.join String.concat].
  unfold severity_label.
  destruct (Py.ltb 70 score); [reflexivity|]. now destruct (Py.ltb 40 score).
Qed.

Lemma recommendation_fallback_witness :
  _generate_recommendation str_hash [example_B; example_C]
    example_B example_C 15 None 75
  = ("Interference Severity: " ++ severity_label 75
     ++ ". Consider changing frequency of one device to a different band.")%string.
Proof.
  apply (recommendation_fallback str_hash [example_B; example_C]
           example_B example_C 15 None 75).
  - lra.
  - unfold _find_alternative_frequency, example_B, example_C, radio_B, radio_C.
    cbn [flat_map radio_device frequency app].
    destruct (filter _ potential_frequencies); [reflexivity|].
    unfold Py.mem, potential_frequencies. rewrite !existsb_step. py_compare.
    reflexivity.
  - intros p [=].
  - intros p [=].
  - now left.
Defined.

(** ** Report assembler: counts and ranks *)

Lemma severity_partition (l : list InterferenceResult) :
  (count_if (fun r => Py.ltb 70 (interference_score r)) l
   + count_if (fun r => (Py.ltb 40 (interference_score r)
                         && Py.leb (interference_score r) 70)%bool) l
   + count_if (fun r => Py.leb (interference_score r) 40) l)%nat
  = List.length l.
Proof.
  unfold count_if. induction l as [|r l IH]; [reflexivity|].
  rewrite !filter_step.
  destruct (Rlt_dec 70 (interference_score r)) as [H70|H70].
  - rewrite (proj2 (ltb_true_iff 70 _) H70).
    rewrite (proj2 (leb_false_iff _ 70)) by lra.
    rewrite (proj2 (leb_false_iff _ 40)) by lra.
    rewrite andb_false_r. simpl. lia.
  - rewrite (proj2 (ltb_false_iff 70 _)) by lra.
    rewrite (proj2 (leb_true_iff _ 70)) by lra.
    destruct (Rlt_dec 40 (interference_score r)) as [H40|H40].
    + rewrite (proj2 (ltb_true_iff 40 _) H40).
      rewrite (proj2 (leb_false_iff _ 40)) by lra. simpl. lia.
    + rewrite (proj2 (ltb_false_iff 40 _)) by lra.
      rewrite (proj2 (leb_true_iff _ 40)) by lra. simpl. lia.
Qed.

Lemma ranked_issues_ranks (i : nat) (l : list InterferenceResult) :
  map rank (ranked_issues i l) = map Some (seq (i + 1) (List.length l)).
Proof.
  revert i. induction l as [|r l IH]; intros i; simpl; [reflexivity|].
  rewrite IH. now replace (S i + 1)%nat with (S (i + 1)) by lia.
Qed.

Lemma ranked_issues_length (i : nat) (l : list InterferenceResult) :
  List.length (ranked_issues i l) = List.length l.
Proof.
  revert i. induction l as [|r l IH]; intros i; simpl; [reflexivity|]. now rewrite IH.
Qed.

Section ReportCounts.
Variable geodesic_meters geodesic_bearing : point -> point -> result R.
Variable str : R -> string.
Variable DBSCAN_fit : R -> nat -> list (list (option R)) -> result (list Z).

Lemma report_summary (self : InterferenceDetector) rep self2 :
  generate_interference_report
    geodesic_meters geodesic_bearing str DBSCAN_fit self = Ok (rep, self2) ->
  devices self2 = devices self /\
  total_interference_issues (summary rep)
    = List.length (interference_results self2) /\
  (high_severity_issues (summary rep) + medium_severity_issues (summary rep)
   + low_severity_issues (summary rep))%nat
    = List.length (interference_results self2).
Proof.
  unfold generate_interference_report.
  destruct (interference_results self) as [|r0 rs0] eqn:Hres.
  - destruct (detect_frequency_interference _ _ _ self) as [[rs s1]|e] eqn:E;
      cbn [bind snd]; [|discriminate].
    apply detect_ok in E. destruct E as (-> & _).
    destruct (cluster_interference_issues _ _ _ _) as [c|e]; cbn [bind];
      [|discriminate].
    intros [= <- <-]. cbn [summary devices interference_results
                           total_interference_issues high_severity_issues
                           medium_severity_issues low_severity_issues].
    split; [reflexivity|]. split; [reflexivity|apply severity_partition].
  - cbn [bind].
    destruct (cluster_interference_issues _ _ _ _) as [c|e]; cbn [bind];
      [|discriminate].
    intros [= <- <-]. cbn [summary total_interference_issues high_severity_issues
                           medium_severity_issues low_severity_issues].
    split; [reflexivity|]. split; [reflexivity|apply severity_partition].
Qed.

End ReportCounts.

(** In every report the three severity counts add up to the number of
    issues, which is the length of [all_issues]; [top_issues] holds the
    first ten issues at most, ranked 1, 2, ...; the devices counted are
    those of the detector, and those with a frequency are among them. *)
Theorem report_counts_consistent
    (geodesic_meters geodesic_bearing : point -> point -> result R)
    (str : R -> string)
    (DBSCAN_fit : R -> nat -> list (list (option R)) -> result (list Z))
    (self : InterferenceDetector) rep self2 :
  generate_interference_report
    geodesic_meters geodesic_bearing str DBSCAN_fit self = Ok (rep, self2) ->
  (high_severity_issues (summary rep) + medium_severity_issues (summary rep)
   + low_severity_issues (summary rep))%nat
    = total_interference_issues (summary rep) /\
  List.length (all_issues rep) = total_interference_issues (summary rep) /\
  List.length (top_issues rep)
    = Nat.min 10 (total_interference_issues (summary rep)) /\
  map rank (top_issues rep) = map Some (seq 1 (List.length (top_issues rep))) /\
  total_devices (summary rep) = List.length (devices self) /\
  (devices_with_frequency (summary rep) <= total_devices (summary rep))%nat.
Proof.
  intros H.
  destruct (report_summary _ _ _ _ _ _ _ H) as (Hdev & Htotal & Hsum).
  destruct (report_issues _ _ _ _ _ _ _ H) as (_ & Htop & Hall & Hn & Hf).
  rewrite Htotal, Hsum, Htop, Hall, Hn, Hf, Hdev.
  rewrite length_map, ranked_issues_ranks, ranked_issues_length, length_firstn.
  repeat split; try reflexivity. apply filter_length_le.
Qed.

Lemma report_counts_consistent_witness :
  exists rep,
    generate_interference_report
      (geodesic_const (Ok 50)) (geodesic_const (Ok 0)) str_hash
      DBSCAN_one_cluster trio_detected = Ok (rep, trio_detected) /\
    (high_severity_issues (summary rep) + medium_severity_issues (summary rep)
     + low_severity_issues (summary rep))%nat
      = total_interference_issues (summary rep) /\
    List.length (all_issues rep) = total_interference_issues (summary rep).
Proof.
  destruct (trio_report (geodesic_const (Ok 50)) (geodesic_const (Ok 0)))
    as (rep & Hrep).
  exists rep. split; [exact Hrep|].
  destruct (report_counts_consistent _ _ _ _ _ _ _ Hrep) as (H1 & H2 & _).
  split; assumption.
Defined.

(** With fewer than two devices that have frequency and channel width, a
    fresh detector reports nothing: the report is produced, whatever the
    libraries do, with no issue, no cluster and a cluster count of 0, and
    it still counts the devices. *)
Theorem report_without_pairs
    (geodesic_meters geodesic_bearing : point -> point -> result R)
    (str : R -> string)
    (DBSCAN_fit : R -> nat -> list (list (option R)) -> result (list Z))
    (self : InterferenceDetector) :
  interference_results self = [] ->
  (List.length (filter has_frequency (devices self)) < 2)%nat ->
  exists rep,
    generate_interference_report
      geodesic_meters geodesic_bearing str DBSCAN_fit self
      = Ok (rep, {| devices := devices self; interference_results := [] |}) /\
    top_issues rep = [] /\ all_issues rep = [] /\ report_clusters rep = [] /\
    total_interference_issues (summary rep) = O /\
    high_severity_issues (summary rep) = O /\
    medium_severity_issues (summary rep) = O /\
    low_severity_issues (summary rep) = O /\
    summary_clusters (summary rep) = 0%Z /\
    total_devices (summary rep) = List.length (devices self).
Proof.
  intros Hres Hlen. unfold generate_interference_report. rewrite Hres.
  unfold detect_frequency_interference.
  rewrite (proj2 (Nat.ltb_lt _ _) Hlen). cbn [bind snd].
  eexists. split; [reflexivity|]. now repeat split.
Qed.

Lemma report_without_pairs_witness :
  exists rep,
    generate_interference_report
      (geodesic_const (Ok 50)) (geodesic_const (Ok 0)) str_hash
      (DBSCAN_checked DBSCAN_one_cluster)
      {| devices := [example_A]; interference_results := [] |}
      = Ok (rep, {| devices := [example_A]; interference_results := [] |}) /\
    all_issues rep = [] /\ total_devices (summary rep) = 1%nat.
Proof.
  destruct (report_without_pairs
              (geodesic_const (Ok 50)) (geodesic_const (Ok 0)) str_hash
              (DBSCAN_checked DBSCAN_one_cluster)
              {| devices := [example_A]; interference_results := [] |}
              eq_refl)
    as (rep & Hrep & _ & Hall & _ & _ & _ & _ & _ & _ & Hn).
  - simpl. lia.
  - exists rep. repeat split; assumption.
Defined.

(** ** The whole analysis *)

Lemma load_loop_count sm wm (rs : list DeviceRecord) :
  forall acc out,
    load_loop sm wm rs acc = Ok out ->
    List.length out = (List.length acc + List.length (filter has_id rs))%nat.
Proof.
  induction rs as [|r rs IH]; simpl; intros acc out H.
  - injection H as <-. lia.
  - destruct (has_id r) eqn:Hid.
    + destruct (load_device_with_id sm wm r Hid) as [(_ & E) | (_ & d & E & _)];
        rewrite E in H; cbn [bind] in H; [discriminate|].
      apply IH in H. rewrite length_app in H. simpl in *. lia.
    + rewrite (load_device_without_id sm wm r Hid) in H. cbn [bind] in H.
      now apply IH in H.
Qed.

Lemma detect_depends_on_devices
    (geodesic_meters geodesic_bearing : point -> point -> result R)
    (str : R -> string) (self other : InterferenceDetector) :
  devices self = devices other ->
  detect_frequency_interference geodesic_meters geodesic_bearing str self
  = detect_frequency_interference geodesic_meters geodesic_bearing str other.
Proof.
  intros H. unfold detect_frequency_interference. now rewrite H.
Qed.

(** ** Cluster analyzer: the cluster map *)

Section DictKeys.
Context {K V : Type} (key_eqb : K -> K -> bool).
Hypothesis key_eqb_eq : forall a b, key_eqb a b = true <-> a = b.

Lemma set_in (d : list (K * V)) (k : K) (v : V) (k' : K) (v' : V) :
  In (k', v') (Py.set key_eqb d k v) ->
  (k' = k /\ v' = v) \/ In (k', v') d.
Proof.
  induction d as [|[k0 v0] d IH]; simpl.
  - intros [[= <- <-] | []]. now left.
  - destruct (key_eqb k0 k) eqn:E.
    + apply key_eqb_eq in E. subst k0.
      intros [[= <- <-] | H]; [now left|right; now right].
    + intros [[= <- <-] | H]; [right; now left|].
      destruct (IH H) as [? | ?]; [now left|right; now right].
Qed.

Lemma set_keys_present (d : list (K * V)) (k : K) (v : V) :
  In k (map fst d) -> map fst (Py.set key_eqb d k v) = map fst d.
Proof.
  induction d as [|[k0 v0] d IH]; simpl; [contradiction|].
  destruct (key_eqb k0 k) eqn:E; [reflexivity|].
  intros [-> | H].
  - rewrite (key_eqb_refl key_eqb key_eqb_eq) in E. discriminate.
  - simpl. now rewrite IH.
Qed.

Lemma set_keys_absent (d : list (K * V)) (k : K) (v : V) :
  ~ In k (map fst d) -> map fst (Py.set key_eqb d k v) = map fst d ++ [k].
Proof.
  induction d as [|[k0 v0] d IH]; simpl; [reflexivity|].
  intros H. destruct (key_eqb k0 k) eqn:E.
  - apply key_eqb_eq in E. subst k0. exfalso. apply H. now left.
  - simpl. rewrite IH; [reflexivity|]. intros Hin. apply H. now right.
Qed.

End DictKeys.

Lemma Z_eqb_eq (a b : Z) : Z.eqb a b = true <-> a = b.
Proof. apply Z.eqb_eq. Qed.

Lemma set_keys_nodup {V : Type} (d : list (Z * V)) (k : Z) (v : V) :
  NoDup (map fst d) ->
  NoDup (map fst (Py.set Z.eqb d k v)) /\
  forall x, In x (map fst (Py.set Z.eqb d k v)) <-> In x (map fst d) \/ x = k.
Proof.
  intros Hd. destruct (in_dec Z.eq_dec k (map fst d)) as [Hin | Hout].
  - rewrite (set_keys_present Z.eqb Z_eqb_eq d k v Hin). split; [exact Hd|].
    intros x. split; [now left|]. intros [H | ->]; assumption.
  - rewrite (set_keys_absent Z.eqb Z_eqb_eq d k v Hout). split.
    + apply NoDup_app; [exact Hd|repeat constructor; intros []|].
      intros x Hx [<- | []]. contradiction.
    + intros x. rewrite in_app_iff. simpl. split.
      * intros [H | [<- | []]]; auto.
      * intros [H | ->]; auto.
Qed.

Lemma group_by_label_map (results : list InterferenceResult) (labels : list Z) :
  forall i clusters out,
    group_by_label results labels i clusters = Ok out ->
    NoDup (map fst clusters) ->
    (forall k m, In (k, m) clusters ->
       k <> (-1)%Z /\ m <> [] /\ forall r, In r m -> In r results) ->
    NoDup (map fst out) /\
    (forall k, In k (map fst out) <->
               In k (map fst clusters) \/ (In k labels /\ k <> (-1)%Z)) /\
    (forall k m, In (k, m) out ->
       k <> (-1)%Z /\ m <> [] /\ forall r, In r m -> In r results).
Proof.
  induction labels as [|label labels IH]; simpl; intros i clusters out H Hnd Hm.
  - injection H as <-. split; [exact Hnd|]. split; [|exact Hm].
    intros k. split; [now left|]. now intros [? | ([] & _)].
  - destruct (Z.eqb label (-1)) eqn:E.
    + apply Z.eqb_eq in E. subst label.
      destruct (IH _ _ _ H Hnd Hm) as (N & I & M).
      split; [exact N|]. split; [|exact M].
      intros k. rewrite I. split.
      * intros [? | (? & ?)]; auto.
      * intros [? | ([<- | ?] & Hk)]; auto. contradiction.
    + apply Z.eqb_neq in E.
      destruct (nth_error results i) as [r|] eqn:Hr; [|discriminate].
      set (members := match Py.get Z.eqb clusters label with
                      | Some m => m
                      | None => []
                      end) in H.
      destruct (set_keys_nodup clusters label (members ++ [r]) Hnd) as (N1 & I1).
      assert (Hm1 : forall k m,
                 In (k, m) (Py.set Z.eqb clusters label (members ++ [r])) ->
                 k <> (-1)%Z /\ m <> [] /\ forall x, In x m -> In x results).
      { intros k m Hin. apply (set_in Z.eqb Z_eqb_eq) in Hin.
        destruct Hin as [(-> & ->) | Hin]; [|now apply Hm].
        split; [exact E|]. split; [now destruct members|].
        intros x Hx. apply in_app_or in Hx. destruct Hx as [Hx | [<- | []]].
        - unfold members in Hx.
          destruct (Py.get Z.eqb clusters label) as [m0|] eqn:G; [|contradiction].
          apply (get_in Z.eqb Z_eqb_eq) in G. now apply (Hm label m0 G).
        - now apply nth_error_In in Hr. }
      destruct (IH _ _ _ H N1 Hm1) as (N & I & M).
      split; [exact N|]. split; [|exact M].
      intros k. rewrite I, I1. split.
      * intros [[? | ->] | (? & ?)]; auto.
      * intros [? | ([<- | ?] & Hk)]; auto.
Qed.

Lemma all_cluster_stats_map (clusters : list (Z * list InterferenceResult)) :
  forall stats,
    all_cluster_stats clusters = Ok stats ->
    map fst stats = map fst clusters /\
    forall label st, In (label, st) stats ->
      In (label, results st) clusters /\
      size st = List.length (results st) /\
      avg_score st * INR (size st) = Np.sum (map interference_score (results st)) /\
      (List.length (common_devices st) <= 3)%nat /\
      (List.length (common_frequencies st) <= 3)%nat.
Proof.
  induction clusters as [|[label members] clusters IH]; simpl; intros stats H.
  - injection H as <-. split; [reflexivity|]. intros ? ? [].
  - unfold cluster_stats_of in H.
    destruct (Py.div _ (INR (List.length members))) as [avg|e] eqn:Hdiv;
      cbn [bind] in H; [|discriminate].
    destruct (all_cluster_stats clusters) as [tail|e]; cbn [bind] in H;
      [|discriminate].
    injection H as <-. destruct (IH tail eq_refl) as (Hkeys & Hstats).
    split; [simpl; now rewrite Hkeys|].
    intros l st [[= <- <-] | Hin].
    + cbn [results size avg_score common_devices common_frequencies].
      apply div_some in Hdiv. destruct Hdiv as (Hn & ->).
      split; [now left|]. split; [reflexivity|].
      split; [field; exact Hn|].
      split;
        repeat match goal with
               | |- context [match ?l with [] => _ | _ :: _ => _ end] => destruct l
               end; simpl; lia.
    + destruct (Hstats l st Hin) as (H1 & H2). split; [now right|exact H2].
Qed.

Lemma count_clusters_keys (labels keys : list Z) :
  NoDup keys ->
  (forall k, In k keys <-> In k labels /\ k <> (-1)%Z) ->
  count_clusters labels = Z.of_nat (List.length keys).
Proof.
  intros Hnd Hkeys. unfold count_clusters.
  pose proof (NoDup_nodup Z.eq_dec labels) as Hn.
  destruct (existsb (Z.eqb (-1)) labels) eqn:E.
  - apply existsb_exists in E. destruct E as (x & Hx & Ex).
    apply Z.eqb_eq in Ex. subst x.
    assert (Hp : Permutation (nodup Z.eq_dec labels) ((-1)%Z :: keys)).
    { apply NoDup_Permutation; [exact Hn| |].
      - constructor; [|exact Hnd]. intros Hin. apply Hkeys in Hin. now destruct Hin.
      - intros k. rewrite nodup_In. simpl. rewrite Hkeys. split.
        + intros Hk. destruct (Z.eq_dec k (-1)) as [-> | Hne]; auto.
        + intros [<- | (Hk & _)]; assumption. }
    rewrite (Permutation_length Hp). simpl List.length. lia.
  - assert (Hout : ~ In (-1)%Z labels).
    { intros Hin. assert (existsb (Z.eqb (-1)) labels = true).
      { apply existsb_exists. exists (-1)%Z. split; [exact Hin|apply Z.eqb_refl]. }
      congruence. }
    assert (Hp : Permutation (nodup Z.eq_dec labels) keys).
    { apply NoDup_Permutation; [exact Hn|exact Hnd|].
      intros k. rewrite nodup_In, Hkeys. split.
      - intros Hk. split; [exact Hk|]. intros ->. contradiction.
      - now intros (Hk & _). }
    rewrite (Permutation_length Hp). lia.
Qed.

(** When the cluster analyzer returns for a detector that has results:
    the count [n_clusters] is the number of entries of the cluster map; no
    label occurs twice and none is the noise label -1; every cluster has at
    least one member, all of them results of the detector; [size] is the
    number of members and [avg_score] their mean score; and at most three
    devices and three frequencies are listed. *)
Theorem cluster_map_consistent
    (DBSCAN_fit : R -> nat -> list (list (option R)) -> result (list Z))
    (self : InterferenceDetector) (eps : R) (min_samples : nat)
    (info : ClusterInfo) :
  interference_results self <> [] ->
  cluster_interference_issues DBSCAN_fit self eps min_samples = Ok info ->
  exists n_clusters clusters,
    info = ClusterDict n_clusters clusters /\
    n_clusters = Z.of_nat (List.length clusters) /\
    NoDup (map fst clusters) /\
    forall label st, In (label, st) clusters ->
      label <> (-1)%Z /\
      (1 <= size st)%nat /\
      size st = List.length (results st) /\
      (forall r, In r (results st) -> In r (interference_results self)) /\
      avg_score st * INR (size st) = Np.sum (map interference_score (results st)) /\
      (List.length (common_devices st) <= 3)%nat /\
      (List.length (common_frequencies st) <= 3)%nat.
Proof.
  intros Hne. unfold cluster_interference_issues.
  destruct (interference_results self) as [|r0 rs0] eqn:Hres; [contradiction|].
  destruct (DBSCAN_fit _ _ _) as [labels|e]; cbn [bind]; [|discriminate].
  destruct (group_by_label (r0 :: rs0) labels O []) as [groups|e] eqn:Hg;
    cbn [bind]; [|discriminate].
  destruct (all_cluster_stats groups) as [stats|e] eqn:Hs; cbn [bind];
    [|discriminate].
  intros [= <-].
  destruct (group_by_label_map _ _ _ _ _ Hg) as (Hnd & Hkeys & Hmem);
    [constructor|intros ? ? []|].
  destruct (all_cluster_stats_map _ _ Hs) as (Hk & Hst).
  exists (count_clusters labels), stats. split; [reflexivity|].
  split.
  - rewrite (count_clusters_keys labels (map fst groups) Hnd).
    + now rewrite <- Hk, !length_map.
    + intros k. rewrite Hkeys. simpl. tauto.
  - split; [now rewrite Hk|].
    intros label st Hin. destruct (Hst label st Hin) as (Hc & Hsize & Havg & H3 & H3').
    destruct (Hmem _ _ Hc) as (Hl & Hnonempty & Hin').
    split; [exact Hl|]. split.
    + rewrite Hsize. destruct (results st); [contradiction|simpl; lia].
    + repeat split; assumption.
Qed.

Lemma cluster_map_consistent_witness :
  interference_results trio_detected <> [] /\
  exists n_clusters clusters,
    cluster_interference_issues DBSCAN_one_cluster trio_detected 30 2%nat
      = Ok (ClusterDict n_clusters clusters) /\
    n_clusters = Z.of_nat (List.length clusters).
Proof.
  assert (Hne : interference_results trio_detected <> []) by discriminate.
  split; [exact Hne|].
  destruct (cluster_returns DBSCAN_one_cluster trio_detected 30 2%nat [0; 0; 0]%Z)
    as (info & Hinfo); [reflexivity|simpl; lia|].
  destruct (cluster_map_consistent DBSCAN_one_cluster trio_detected 30 2%nat
              info Hne Hinfo) as (n & clusters & -> & Hn & _).
  now exists n, clusters.
Defined.

(** ** Cluster analyzer: a feature that does not vary *)

Lemma sum_constant (c : R) (l : list R) :
  Forall (eq c) l -> Np.sum l = INR (List.length l) * c.
Proof.
  induction 1 as [|x l Hx Hl IH].
  - simpl. lra.
  - subst x. cbn [Np.sum fold_right List.length]. fold (Np.sum l).
    rewrite IH, S_INR. lra.
Qed.

Lemma mean_constant (c : R) (l : list R) :
  l <> [] -> Forall (eq c) l -> Np.mean l = c.
Proof.
  intros Hne Hc. unfold Np.mean. rewrite (sum_constant c l Hc).
  field. apply not_0_INR. destruct l; [contradiction|discriminate].
Qed.

Lemma std_constant (c : R) (l : list R) :
  l <> [] -> Forall (eq c) l -> Np.std l = 0.
Proof.
  intros Hne Hc. unfold Np.std. rewrite (mean_constant c l Hne Hc).
  rewrite (mean_constant 0).
  - apply sqrt_0.
  - destruct l; [contradiction|discriminate].
  - rewrite Forall_forall in Hc |- *. intros y Hy.
    apply in_map_iff in Hy. destruct Hy as (x & <- & Hx).
    rewrite <- (Hc x Hx). lra.
Qed.

Lemma normalize_constant (c : R) (l : list R) :
  l <> [] -> Forall (eq c) l -> Forall (eq None) (Np.normalize l).
Proof.
  intros Hne Hc. unfold Np.normalize, Np.divide.
  rewrite (std_constant c l Hne Hc), (proj2 (eqb_true_iff 0 0) eq_refl).
  apply Forall_forall. intros y Hy. apply in_map_iff in Hy.
  now destruct Hy as (x & <- & _).
Qed.

Lemma normalize_length (l : list R) : List.length (Np.normalize l) = List.length l.
Proof. unfold Np.normalize. apply length_map. Qed.

Lemma forallb_all_false {A : Type} (p : A -> bool) (l : list A) :
  l <> [] -> (forall x, In x l -> p x = false) -> forallb p l = false.
Proof.
  destruct l as [|x l]; [contradiction|]. intros _ H. simpl.
  now rewrite (H x (or_introl eq_refl)).
Qed.

Lemma constant_feature_not_finite (results : list InterferenceResult) :
  results <> [] ->
  (exists c, forall r, In r results -> Py.or_default (frequency (device1 r)) 0 = c) \/
  (exists c, forall r, In r results -> Py.or_default (frequency (device2 r)) 0 = c) \/
  (exists c, forall r, In r results -> interference_score r = c) ->
  forallb (forallb is_finite) (normalized_features results) = false.
Proof.
  intros Hne Hconst. unfold normalized_features.
  set (X := map feature results).
  set (col0 := map (fun f => fst (fst f)) X).
  set (col1 := map (fun f => snd (fst f)) X).
  set (col2 := map snd X).
  assert (HX : X <> []) by (unfold X; destruct results; [contradiction|discriminate]).
  assert (Hn0 : col0 <> []) by (unfold col0; destruct X; [contradiction|discriminate]).
  assert (Hn1 : col1 <> []) by (unfold col1; destruct X; [contradiction|discriminate]).
  assert (Hn2 : col2 <> []) by (unfold col2; destruct X; [contradiction|discriminate]).
  assert (Hcol : forall (g : R * R * R -> R) c,
             (forall r, In r results -> g (feature r) = c) ->
             Forall (eq c) (map g X)).
  { intros g c Hg. apply Forall_forall. intros y Hy.
    apply in_map_iff in Hy. destruct Hy as (f & <- & Hf).
    unfold X in Hf. apply in_map_iff in Hf. destruct Hf as (r & <- & Hr).
    symmetry. now apply Hg. }
  apply forallb_all_false.
  - assert (Hlen : List.length
                     (combine (combine (Np.normalize col0) (Np.normalize col1))
                              (Np.normalize col2)) <> O).
    { rewrite !length_combine, !normalize_length.
      unfold col0, col1, col2. rewrite !length_map.
      destruct X; [contradiction|simpl; lia]. }
    destruct (combine _ _); [contradiction|discriminate].
  - intros row Hrow. apply in_map_iff in Hrow. destruct Hrow as (t & <- & Ht).
    destruct t as [[a b] c]. cbn [fst snd forallb].
    pose proof (in_combine_l _ _ _ _ Ht) as Hab.
    pose proof (in_combine_r _ _ _ _ Ht) as Hc.
    pose proof (in_combine_l _ _ _ _ Hab) as Ha.
    pose proof (in_combine_r _ _ _ _ Hab) as Hb.
    destruct Hconst as [(k & Hk) | [(k & Hk) | (k & Hk)]].
    + pose proof (normalize_constant k col0 Hn0
                    (Hcol (fun f => fst (fst f)) k Hk)) as Hnone.
      rewrite Forall_forall in Hnone. now rewrite <- (Hnone a Ha).
    + pose proof (normalize_constant k col1 Hn1
                    (Hcol (fun f => snd (fst f)) k Hk)) as Hnone.
      rewrite Forall_forall in Hnone. rewrite <- (Hnone b Hb).
      now destruct (is_finite a).
    + pose proof (normalize_constant k col2 Hn2 (Hcol snd k Hk)) as Hnone.
      rewrite Forall_forall in Hnone. rewrite <- (Hnone c Hc).
      destruct (is_finite a), (is_finite b); reflexivity.
Qed.

(** When all results have the same first device frequency, or all the same
    second device frequency, a whole number of MHz (for such values the sums
    numpy forms are exact also in binary64), the standard deviation of that
    feature is 0 and every normalized row is non-finite in that entry; a
    DBSCAN that checks its input as scikit-learn does then refuses the
    matrix, and both [cluster_interference_issues] and
    [generate_interference_report] raise [ValueError]. *)
Theorem cluster_rejects_constant_feature
    (geodesic_meters geodesic_bearing : point -> point -> result R)
    (str : R -> string)
    (fit : R -> nat -> list (list (option R)) -> result (list Z))
    (self : InterferenceDetector) (eps : R) (min_samples : nat) :
  interference_results self <> [] ->
  (exists z : Z, forall r, In r (interference_results self) ->
     Py.or_default (frequency (device1 r)) 0 = IZR z) \/
  (exists z : Z, forall r, In r (interference_results self) ->
     Py.or_default (frequency (device2 r)) 0 = IZR z) ->
  cluster_interference_issues (DBSCAN_checked fit) self eps min_samples
    = Raise ValueError /\
  generate_interference_report
    geodesic_meters geodesic_bearing str (DBSCAN_checked fit) self
    = Raise ValueError.
Proof.
  intros Hne Hz.
  assert (Hconst :
    (exists c, forall r, In r (interference_results self) ->
       Py.or_default (frequency (device1 r)) 0 = c) \/
    (exists c, forall r, In r (interference_results self) ->
       Py.or_default (frequency (device2 r)) 0 = c) \/
    (exists c, forall r, In r (interference_results self) ->
       interference_score r = c)).
  { destruct Hz as [(z & Hz) | (z & Hz)];
      [left|right; left]; now exists (IZR z). }
  assert (Hc : forall eps' min_samples',
             cluster_interference_issues (DBSCAN_checked fit) self eps' min_samples'
             = Raise ValueError).
  { intros eps' min_samples'. unfold cluster_interference_issues.
    destruct (interference_results self) as [|r rs] eqn:E; [contradiction|].
    unfold DBSCAN_checked.
    now rewrite (constant_feature_not_finite (r :: rs) Hne Hconst). }
  split; [apply Hc|].
  unfold generate_interference_report.
  destruct (interference_results self) as [|r rs] eqn:E; [contradiction|].
  cbn [bind]. now rewrite Hc.
Qed.

Lemma cluster_rejects_constant_feature_witness :
  interference_results hub_detected <> [] /\
  (forall r, In r (interference_results hub_detected) ->
     Py.or_default (frequency (device1 r)) 0 = 5180) /\
  cluster_interference_issues (DBSCAN_checked DBSCAN_one_cluster)
    hub_detected 30 2%nat = Raise ValueError.
Proof.
  assert (Hne : interference_results hub_detected <> []) by discriminate.
  assert (Hc : forall r, In r (interference_results hub_detected) ->
                 Py.or_default (frequency (device1 r)) 0 = 5180).
  { intros r [<- | [<- | []]]; cbn; apply or_default_kept; lra. }
  split; [exact Hne|]. split; [exact Hc|].
  refine (proj1 (cluster_rejects_constant_feature
                   (geodesic_const (Ok 50)) (geodesic_const (Ok 0)) str_hash
                   DBSCAN_one_cluster hub_detected 30 2%nat Hne _)).
  left. now exists 5180%Z.
Defined.

(** ** The whole analysis, with its report file *)

Lemma report_to_returns
    (geodesic_meters geodesic_bearing : point -> point -> result R)
    (str : R -> string)
    (DBSCAN_fit : R -> nat -> list (list (option R)) -> result (list Z))
    (output_file : string) (self : InterferenceDetector) rep self2 :
  generate_interference_report_to
    geodesic_meters geodesic_bearing str DBSCAN_fit output_file self
    = Ok (rep, self2) <->
  generate_interference_report
    geodesic_meters geodesic_bearing str DBSCAN_fit self = Ok (rep, self2) /\
  (output_file <> ""%string -> report_clusters rep = []).
Proof.
  unfold generate_interference_report_to, json_dump.
  destruct (generate_interference_report _ _ _ _ self) as [[rep0 self0]|e];
    cbn [bind fst]; [|split; [discriminate|now intros [? _]]].
  destruct output_file as [|c output_file]; cbn [Py.truthy].
  - split; [intros H; split; [exact H|now intros []]|now intros [H _]].
  - destruct (report_clusters rep0) as [|x l] eqn:E; cbn [bind].
    + split.
      * intros [= <- <-]. split; [reflexivity|now intros _].
      * now intros [H _].
    + split; [discriminate|]. intros [[= <- <-] H].
      rewrite E in H. now discriminate H.
Qed.

Lemma report_to_raises
    (geodesic_meters geodesic_bearing : point -> point -> result R)
    (str : R -> string)
    (DBSCAN_fit : R -> nat -> list (list (option R)) -> result (list Z))
    (output_file : string) (self : InterferenceDetector) rep self2 :
  generate_interference_report
    geodesic_meters geodesic_bearing str DBSCAN_fit self = Ok (rep, self2) ->
  output_file <> ""%string ->
  report_clusters rep <> [] ->
  generate_interference_report_to
    geodesic_meters geodesic_bearing str DBSCAN_fit output_file self
    = Raise TypeError.
Proof.
  intros Hrep Hout Hc. unfold generate_interference_report_to, json_dump.
  rewrite Hrep. cbn [bind fst].
  destruct output_file as [|c output_file]; [contradiction|]. cbn [Py.truthy].
  now destruct (report_clusters rep).
Qed.

(** A label other than -1 among those DBSCAN returns puts an entry into the
    cluster map of the report. *)
Lemma report_has_cluster
    (geodesic_meters geodesic_bearing : point -> point -> result R)
    (str : R -> string)
    (DBSCAN_fit : R -> nat -> list (list (option R)) -> result (list Z))
    (self : InterferenceDetector) rep self2 (labels : list Z) (label : Z) :
  interference_results self <> [] ->
  generate_interference_report
    geodesic_meters geodesic_bearing str DBSCAN_fit self = Ok (rep, self2) ->
  DBSCAN_fit 30 2%nat (normalized_features (interference_results self))
    = Ok labels ->
  In label labels -> label <> (-1)%Z ->
  report_clusters rep <> [].
Proof.
  intros Hne Hrep Hfit Hin Hl. unfold generate_interference_report in Hrep.
  destruct (interference_results self) as [|r rs] eqn:E; [contradiction|].
  cbn [bind] in Hrep. unfold cluster_interference_issues in Hrep.
  rewrite E, Hfit in Hrep. cbn [bind] in Hrep.
  destruct (group_by_label (r :: rs) labels 0 []) as [groups|e] eqn:Hg;
    cbn [bind] in Hrep; [|discriminate].
  destruct (all_cluster_stats groups) as [stats|e] eqn:Hs; cbn [bind] in Hrep;
    [|discriminate].
  injection Hrep as <- _. cbn [report_clusters].
  destruct (group_by_label_map _ _ _ _ _ Hg) as (_ & Hkeys & _);
    [constructor|intros ? ? []|].
  destruct (all_cluster_stats_map _ _ Hs) as (Hk & _).
  assert (Hkey : In label (map fst stats)).
  { rewrite Hk. apply Hkeys. right. auto. }
  intros ->. exact Hkey.
Qed.

Lemma main_inversion
    (geodesic_meters geodesic_bearing : point -> point -> result R)
    (str : R -> string)
    (DBSCAN_fit : R -> nat -> list (list (option R)) -> result (list Z))
    (database : FrequencyDatabase) (output : string) rs rep :
  main geodesic_meters geodesic_bearing str DBSCAN_fit database output
    = Ok (rs, rep) <->
  exists self self1 self2,
    init database = Ok self /\
    detect_frequency_interference geodesic_meters geodesic_bearing str self
      = Ok (rs, self1) /\
    generate_interference_report_to
      geodesic_meters geodesic_bearing str DBSCAN_fit output self1
      = Ok (rep, self2).
Proof.
  unfold main. split.
  - destruct (init database) as [self|e]; cbn [bind]; [|discriminate].
    destruct (detect_frequency_interference _ _ _ self) as [[rs0 self1]|e] eqn:Hdet;
      cbn [bind snd fst]; [|discriminate].
    destruct (generate_interference_report_to _ _ _ _ output self1)
      as [[rep0 self2]|e] eqn:Hrep; cbn [bind fst]; [|discriminate].
    intros [= <- <-]. now exists self, self1, self2.
  - intros (self & self1 & self2 & -> & Hdet & Hrep). cbn [bind].
    rewrite Hdet. cbn [bind snd fst]. now rewrite Hrep.
Qed.

(** The whole analysis as [main] runs it (build the detector, detect,
    report to the file [output]). When it returns results and a report:
    the results are in non-increasing order of score, [all_issues] lists
    exactly these results in this order, the issue count is their number,
    [total_devices] is the number of device records that have an id, the
    analysis without a report file returns the same, and, when a file was
    written, the report has no cluster. When the analysis without a file
    returns a report that has a cluster, the analysis with a file raises
    [TypeError]: [json.dump] cannot encode the cluster map. *)
Theorem main_results_and_report_agree
    (geodesic_meters geodesic_bearing : point -> point -> result R)
    (str : R -> string)
    (DBSCAN_fit : R -> nat -> list (list (option R)) -> result (list Z))
    (database : FrequencyDatabase) (output : string) :
  (forall rs rep,
     main geodesic_meters geodesic_bearing str DBSCAN_fit database output
       = Ok (rs, rep) ->
     non_increasing (map interference_score rs) /\
     all_issues rep = map (issue_of None) rs /\
     total_interference_issues (summary rep) = List.length rs /\
     total_devices (summary rep)
       = List.length (filter has_id (get_devices database)) /\
     main geodesic_meters geodesic_bearing str DBSCAN_fit database ""
       = Ok (rs, rep) /\
     (output <> ""%string -> report_clusters rep = [])) /\
  (forall rs rep,
     output <> ""%string ->
     main geodesic_meters geodesic_bearing str DBSCAN_fit database ""
       = Ok (rs, rep) ->
     report_clusters rep <> [] ->
     main geodesic_meters geodesic_bearing str DBSCAN_fit database output
       = Raise TypeError).
Proof.
  split.
  - intros rs0 rep0 Hmain.
    apply main_inversion in Hmain.
    destruct Hmain as (self & self1 & self2 & Hinit & Hdet & Hto).
    apply report_to_returns in Hto. destruct Hto as (Hrep & Hnone).
    pose proof (detect_ok _ _ _ _ _ _ Hdet) as (Hself1 & Hsorted & _).
    destruct (report_issues _ _ _ _ _ _ _ Hrep) as (Hcase & _ & Hall & Hn & _).
    destruct (report_summary _ _ _ _ _ _ _ Hrep) as (Hdev & Htotal & _).
    assert (Hres : interference_results self2 = rs0).
    { subst self1. cbn [interference_results] in Hcase. destruct rs0 as [|r rs0].
      - destruct Hcase as (rs' & Hdet').
        rewrite (detect_depends_on_devices _ _ _
                   {| devices := devices self; interference_results := [] |}
                   self eq_refl) in Hdet'.
        rewrite Hdet in Hdet'. now injection Hdet' as <- <-.
      - now subst self2. }
    split; [exact Hsorted|]. rewrite Hall, Htotal, Hn, Hres, Hdev.
    split; [reflexivity|]. split; [reflexivity|]. split.
    + subst self1. cbn [devices].
      unfold init in Hinit.
      destruct (load_devices database) as [ds|e] eqn:Hload; cbn [bind] in Hinit;
        [|discriminate].
      injection Hinit as <-. cbn [devices].
      unfold load_devices in Hload. now apply load_loop_count in Hload.
    + split; [|exact Hnone].
      apply main_inversion. exists self, self1, self2.
      split; [exact Hinit|]. split; [exact Hdet|].
      apply report_to_returns. split; [exact Hrep|]. now intros [].
  - intros rs0 rep0 Hout Hmain Hc.
    apply main_inversion in Hmain.
    destruct Hmain as (self & self1 & self2 & Hinit & Hdet & Hto).
    apply report_to_returns in Hto. destruct Hto as (Hrep & _).
    unfold main. rewrite Hinit. cbn [bind]. rewrite Hdet. cbn [bind snd fst].
    now rewrite (report_to_raises _ _ _ _ output _ _ _ Hrep Hout Hc).
Qed.

Lemma main_results_and_report_agree_witness :
  main (geodesic_const (Ok 50)) (geodesic_const (Ok 0)) str_hash
       DBSCAN_one_cluster three_radios "interference_report.json"
    = Raise TypeError /\
  exists rep,
    main (geodesic_const (Ok 50)) (geodesic_const (Ok 0)) str_hash
         DBSCAN_one_cluster recorded_twice "interference_report.json"
      = Ok ([], rep) /\
    all_issues rep = [] /\ report_clusters rep = [] /\
    total_devices (summary rep) = 1%nat.
Proof.
  assert (Hout : "interference_report.json"%string <> ""%string) by discriminate.
  split.
  - destruct (trio_report (geodesic_const (Ok 50)) (geodesic_const (Ok 0)))
      as (rep & Hrep).
    assert (Hinit : init three_radios = Ok trio_detector) by reflexivity.
    assert (Hmain : main (geodesic_const (Ok 50)) (geodesic_const (Ok 0)) str_hash
                         DBSCAN_one_cluster three_radios ""
                    = Ok ([trio_AB; trio_BC; trio_AC], rep)).
    { unfold main. rewrite Hinit. cbn [bind].
      rewrite trio_detect. cbn [bind snd fst].
      unfold generate_interference_report_to. rewrite Hrep. reflexivity. }
    assert (Hc : report_clusters rep <> []).
    { assert (Hne : interference_results trio_detected <> []) by discriminate.
      apply (report_has_cluster _ _ _ _ _ _ _ [0; 0; 0]%Z 0%Z Hne Hrep);
        [reflexivity|now left|discriminate]. }
    exact (proj2 (main_results_and_report_agree
                    (geodesic_const (Ok 50)) (geodesic_const (Ok 0)) str_hash
                    DBSCAN_one_cluster three_radios "interference_report.json")
             _ _ Hout Hmain Hc).
  - eexists.
    assert (Hmain : main (geodesic_const (Ok 50)) (geodesic_const (Ok 0)) str_hash
                         DBSCAN_one_cluster recorded_twice
                         "interference_report.json" = Ok ([], _))
      by reflexivity.
    split; [exact Hmain|].
    destruct (proj1 (main_results_and_report_agree
                       (geodesic_const (Ok 50)) (geodesic_const (Ok 0)) str_hash
                       DBSCAN_one_cluster recorded_twice
                       "interference_report.json") _ _ Hmain)
      as (_ & Hall & _ & Hn & _ & Hnone).
    split; [exact Hall|]. split; [exact (Hnone Hout)|exact Hn].
Defined.

(** ** Conflict query of the frequency store *)

Section DictUnique.
Context {K V : Type} (key_eqb : K -> K -> bool).
Hypothesis key_eqb_eq : forall a b, key_eqb a b = true <-> a = b.

Lemma set_keys_in (d : list (K * V)) (k : K) (v : V) (x : K) :
  In x (map fst (Py.set key_eqb d k v)) -> In x (map fst d) \/ x = k.
Proof.
  induction d as [|[k0 v0] d IH]; simpl.
  - intros [<- | []]. now right.
  - destruct (key_eqb k0 k); simpl; [tauto|].
    intros [<- | H]; [left; now left|]. destruct (IH H); [left; now right|now right].
Qed.

Lemma set_keys_unique (d : list (K * V)) (k : K) (v : V) :
  NoDup (map fst d) -> NoDup (map fst (Py.set key_eqb d k v)).
Proof.
  induction d as [|[k0 v0] d IH]; simpl; intros Hd.
  - repeat constructor. intros [].
  - inversion Hd as [|? ? Hout Hd']; subst.
    destruct (key_eqb k0 k) eqn:E; simpl; [now constructor|].
    constructor; [|now apply IH].
    intros Hin. apply set_keys_in in Hin. destruct Hin as [Hin | ->]; [contradiction|].
    rewrite (proj2 (key_eqb_eq k k) eq_refl) in E. discriminate.
Qed.

Lemma in_get (d : list (K * V)) (k : K) (v : V) :
  NoDup (map fst d) -> In (k, v) d -> Py.get key_eqb d k = Some v.
Proof.
  induction d as [|[k0 v0] d IH]; simpl; intros Hd; [contradiction|].
  inversion Hd as [|? ? Hout Hd']; subst.
  intros [[= -> ->] | Hin].
  - now rewrite (proj2 (key_eqb_eq k k) eq_refl).
  - destruct (key_eqb k0 k) eqn:E; [|now apply IH].
    apply key_eqb_eq in E. subst k0. exfalso. apply Hout.
    apply in_map_iff. now exists (k, v).
Qed.

End DictUnique.

Lemma before_map {A B : Type} (h : A -> B) (l : list A) (a b : B) :
  before (map h l) a b <-> exists x y, before l x y /\ a = h x /\ b = h y.
Proof.
  induction l as [|z l IH]; simpl.
  - split; [intros H; now apply before_nil in H|].
    intros (x & y & H & _). now apply before_nil in H.
  - rewrite before_cons, IH. split.
    + intros [(-> & Hb) | (x & y & Hxy & Ha & Hb)].
      * apply in_map_iff in Hb. destruct Hb as (y & <- & Hy).
        exists z, y. split; [apply before_cons; auto|auto].
      * exists x, y. split; [apply before_cons; auto|auto].
    + intros (x & y & Hxy & -> & ->). apply before_cons in Hxy.
      destruct Hxy as [(-> & Hy) | Hxy].
      * left. split; [reflexivity|now apply in_map].
      * right. now exists x, y.
Qed.

(** The group of frequency [f]: the rows on [f], in the order of the query
    result. *)
Lemma group_get (rows : list ConflictRow) :
  forall (frequency_map : list (R * list DeviceInfo)) (f : R),
    Py.get Py.eqb (fold_left group_row rows frequency_map) f
    = match Py.get Py.eqb frequency_map f,
            map (fun r => device_info r f) (filter (on_frequency f) rows) with
      | Some m, s => Some (m ++ s)
      | None, [] => None
      | None, s => Some s
      end.
Proof.
  induction rows as [|r rows IH]; intros m0 f; simpl.
  - destruct (Py.get Py.eqb m0 f); [now rewrite app_nil_r|reflexivity].
  - rewrite IH. unfold group_row, on_frequency.
    destruct (row_frequency r) as [g|]; [|reflexivity].
    destruct (Py.eqb g 0) eqn:E0; simpl; [reflexivity|].
    rewrite (get_set Py.eqb eqb_true_iff).
    destruct (Py.eqb g f) eqn:E; simpl; [|reflexivity].
    apply eqb_true_iff in E. subst g.
    destruct (Py.get Py.eqb m0 f) as [m|]; [now rewrite <- app_assoc|reflexivity].
Qed.

Lemma group_keys_unique (rows : list ConflictRow) :
  forall frequency_map : list (R * list DeviceInfo),
    NoDup (map fst frequency_map) ->
    NoDup (map fst (fold_left group_row rows frequency_map)).
Proof.
  induction rows as [|r rows IH]; intros m0 H0; simpl; [exact H0|].
  apply IH. unfold group_row.
  destruct (row_frequency r) as [g|]; [|exact H0].
  destruct (Py.eqb g 0); [exact H0|].
  now apply (set_keys_unique Py.eqb eqb_true_iff).
Qed.

Lemma group_rows_in (rows : list ConflictRow) (f : R) (devices : list DeviceInfo) :
  In (f, devices) (group_rows rows) <->
  devices <> [] /\
  devices = map (fun r => device_info r f) (filter (on_frequency f) rows).
Proof.
  assert (Hnd : NoDup (map fst (group_rows rows)))
    by (apply group_keys_unique; constructor).
  assert (Hget := group_get rows [] f). simpl in Hget. fold (group_rows rows) in Hget.
  split.
  - intros Hin. apply (in_get Py.eqb eqb_true_iff _ _ _ Hnd) in Hin.
    rewrite Hin in Hget.
    destruct (map _ (filter (on_frequency f) rows)); [discriminate|].
    injection Hget as ->. split; [discriminate|reflexivity].
  - intros (Hne & ->). apply (get_in Py.eqb eqb_true_iff).
    rewrite Hget. destruct (map _ (filter (on_frequency f) rows)); [contradiction|].
    reflexivity.
Qed.

Lemma group_conflicts_in (f : R) (devices : list DeviceInfo) (c : Conflict) :
  In c (group_conflicts f devices) <->
  exists d1 d2, before devices d1 d2 /\ In c (conflict_of f d1 d2).
Proof.
  induction devices as [|d devices IH]; simpl.
  - split; [contradiction|]. intros (d1 & d2 & H & _). now apply before_nil in H.
  - rewrite in_app_iff, in_flat_map, IH. split.
    + intros [(d2 & Hd2 & Hc) | (d1 & d2 & Hb & Hc)].
      * exists d, d2. split; [apply before_cons; auto|exact Hc].
      * exists d1, d2. split; [apply before_cons; auto|exact Hc].
    + intros (d1 & d2 & Hb & Hc). apply before_cons in Hb.
      destruct Hb as [(-> & Hd2) | Hb].
      * left. now exists d2.
      * right. now exists d1, d2.
Qed.

Lemma on_frequency_iff (f : R) (r : ConflictRow) :
  on_frequency f r = true <-> row_frequency r = Some f /\ f <> 0.
Proof.
  unfold on_frequency. destruct (row_frequency r) as [g|].
  - rewrite andb_true_iff, negb_true_iff, eqb_true_iff, eqb_false_iff. split.
    + intros (H0 & ->). auto.
    + intros ([= ->] & H0). auto.
  - split; [discriminate|]. now intros ([=] & _).
Qed.

Lemma conflict_of_in (f : R) (r1 r2 : ConflictRow) (c : Conflict) :
  In c (conflict_of f (device_info r1 f) (device_info r2 f)) <->
  0 <= row_width r1 + row_width r2 /\
  c = {| conflict_device1 :=
           {| ref_id := row_device_id r1;
              ref_name := row_device_name r1;
              ref_site_id := row_site_id r1 |};
         conflict_device2 :=
           {| ref_id := row_device_id r2;
              ref_name := row_device_name r2;
              ref_site_id := row_site_id r2 |};
         conflict_frequency := f;
         conflict_overlap :=
           Rmin (f + row_width r1 / 2) (f + row_width r2 / 2)
           - Rmax (f - row_width r1 / 2) (f - row_width r2 / 2) |}.
Proof.
  unfold conflict_of, device_info, device_ref, row_width. simpl.
  set (w1 := Py.or_default (row_channel_width r1) 0).
  set (w2 := Py.or_default (row_channel_width r2) 0).
  destruct (Py.leb (f - w1 / 2) (f + w2 / 2)) eqn:E1;
    destruct (Py.leb (f - w2 / 2) (f + w1 / 2)) eqn:E2; simpl;
    try apply leb_true_iff in E1; try apply leb_true_iff in E2;
    try apply leb_false_iff in E1; try apply leb_false_iff in E2.
  - split.
    + intros [<- | []]. split; [lra|reflexivity].
    + intros (_ & ->). now left.
  - split; [contradiction|]. intros (H & _). lra.
  - split; [contradiction|]. intros (H & _). lra.
  - split; [contradiction|]. intros (H & _). lra.
Qed.

Lemma conflicts_in_rows (rows : list ConflictRow) (c : Conflict) :
  In c (get_frequency_conflicts rows) <->
  exists r1 r2 f,
    before rows r1 r2 /\
    on_frequency f r1 = true /\ on_frequency f r2 = true /\
    In c (conflict_of f (device_info r1 f) (device_info r2 f)).
Proof.
  unfold get_frequency_conflicts. rewrite in_flat_map. split.
  - intros ([f devices] & Hin & Hc).
    destruct (Nat.ltb (List.length devices) 2); [contradiction|].
    apply group_rows_in in Hin. destruct Hin as (_ & ->).
    apply group_conflicts_in in Hc. destruct Hc as (d1 & d2 & Hb & Hc).
    apply before_map in Hb. destruct Hb as (r1 & r2 & Hb & -> & ->).
    apply before_filter in Hb. destruct Hb as (Hb & H1 & H2).
    exists r1, r2, f. auto.
  - intros (r1 & r2 & f & Hb & H1 & H2 & Hc).
    assert (Hbd : before (map (fun r => device_info r f)
                            (filter (on_frequency f) rows))
                    (device_info r1 f) (device_info r2 f)).
    { apply before_map. exists r1, r2. split; [|auto].
      apply before_filter. auto. }
    exists (f, map (fun r => device_info r f) (filter (on_frequency f) rows)).
    split.
    + apply group_rows_in. split; [|reflexivity].
      intros E. rewrite E in Hbd. now apply before_nil in Hbd.
    + destruct (Nat.ltb _ 2) eqn:El.
      * apply Nat.ltb_lt in El. now apply before_short in Hbd.
      * apply group_conflicts_in. now exists (device_info r1 f), (device_info r2 f).
Qed.

Lemma equal_frequency_overlap (f w1 w2 : R) :
  0 <= w1 -> 0 <= w2 ->
  Rmin (f + w1 / 2) (f + w2 / 2) - Rmax (f - w1 / 2) (f - w2 / 2) = Rmin w1 w2.
Proof.
  intros H1 H2. unfold Rmin, Rmax.
  destruct (Rle_dec (f + w1 / 2) (f + w2 / 2)),
           (Rle_dec (f - w1 / 2) (f - w2 / 2)),
           (Rle_dec w1 w2); lra.
Qed.

(** [get_frequency_conflicts] reports a conflict exactly for two rows of the
    query result, the first one earlier in it, that carry the same frequency
    other than 0 and whose channel widths (a missing width or 0 counts as 0)
    do not add up to a negative number.  The conflict names the two devices
    in row order, with that frequency and the width of the intersection of
    the two ranges.  The sites of the devices play no part. *)
Theorem conflicts_characterised (rows : list ConflictRow) (c : Conflict) :
  In c (get_frequency_conflicts rows) <->
  exists r1 r2 f,
    before rows r1 r2 /\
    row_frequency r1 = Some f /\ row_frequency r2 = Some f /\ f <> 0 /\
    0 <= row_width r1 + row_width r2 /\
    c = {| conflict_device1 :=
             {| ref_id := row_device_id r1;
                ref_name := row_device_name r1;
                ref_site_id := row_site_id r1 |};
           conflict_device2 :=
             {| ref_id := row_device_id r2;
                ref_name := row_device_name r2;
                ref_site_id := row_site_id r2 |};
           conflict_frequency := f;
           conflict_overlap :=
             Rmin (f + row_width r1 / 2) (f + row_width r2 / 2)
             - Rmax (f - row_width r1 / 2) (f - row_width r2 / 2) |}.
Proof.
  rewrite conflicts_in_rows. split.
  - intros (r1 & r2 & f & Hb & H1 & H2 & Hc).
    apply on_frequency_iff in H1, H2. apply conflict_of_in in Hc.
    exists r1, r2, f. tauto.
  - intros (r1 & r2 & f & Hb & H1 & H2 & Hf & Hw & Hc).
    exists r1, r2, f. rewrite !on_frequency_iff, conflict_of_in. auto.
Qed.

(** Two devices are never reported by [get_frequency_conflicts] unless
    their center frequencies are equal: when no two rows carry the same
    frequency, the list of conflicts is empty, however much the channels
    overlap. *)
Theorem conflicts_need_equal_frequency (rows : list ConflictRow) :
  (forall r1 r2, before rows r1 r2 -> row_frequency r1 <> row_frequency r2) ->
  get_frequency_conflicts rows = [].
Proof.
  intros Hd. destruct (get_frequency_conflicts rows) as [|c cs] eqn:E; [reflexivity|].
  assert (Hc : In c (get_frequency_conflicts rows)) by (rewrite E; now left).
  apply conflicts_in_rows in Hc.
  destruct Hc as (r1 & r2 & f & Hb & H1 & H2 & _).
  apply on_frequency_iff in H1, H2.
  exfalso. apply (Hd r1 r2 Hb). destruct H1, H2. congruence.
Qed.

Lemma conflicts_need_equal_frequency_witness :
  get_frequency_conflicts neighbour_rows = [] /\
  ranges_overlap (5180 - 40 / 2) (5180 + 40 / 2) (5185 - 40 / 2) (5185 + 40 / 2).
Proof.
  split; [|unfold ranges_overlap; lra].
  apply conflicts_need_equal_frequency.
  intros r1 r2 Hb. unfold neighbour_rows in Hb.
  apply before_cons in Hb. destruct Hb as [(-> & [<- | []]) | Hb].
  - simpl. intros [= H]. lra.
  - apply before_cons in Hb. destruct Hb as [(_ & []) | Hb].
    now apply before_nil in Hb.
Defined.

(** When no row has a negative channel width, every two rows on the same
    frequency other than 0 are reported, also two devices of one site, the
    recorded overlap is the smaller of the two widths (a missing width
    counts as 0), and no conflict has a negative overlap. *)
Theorem conflicts_of_valid_widths (rows : list ConflictRow) :
  (forall r, In r rows -> 0 <= row_width r) ->
  (forall r1 r2 f,
     before rows r1 r2 ->
     row_frequency r1 = Some f -> row_frequency r2 = Some f -> f <> 0 ->
     In {| conflict_device1 :=
             {| ref_id := row_device_id r1;
                ref_name := row_device_name r1;
                ref_site_id := row_site_id r1 |};
           conflict_device2 :=
             {| ref_id := row_device_id r2;
                ref_name := row_device_name r2;
                ref_site_id := row_site_id r2 |};
           conflict_frequency := f;
           conflict_overlap := Rmin (row_width r1) (row_width r2) |}
        (get_frequency_conflicts rows)) /\
  (forall c, In c (get_frequency_conflicts rows) -> 0 <= conflict_overlap c).
Proof.
  intros Hw. split.
  - intros r1 r2 f Hb H1 H2 Hf.
    destruct (before_in _ _ _ Hb) as (Hi1 & Hi2).
    assert (W1 := Hw r1 Hi1). assert (W2 := Hw r2 Hi2).
    apply conflicts_in_rows. exists r1, r2, f.
    rewrite !on_frequency_iff, conflict_of_in, equal_frequency_overlap by assumption.
    repeat split; auto. lra.
  - intros c Hc. apply conflicts_in_rows in Hc.
    destruct Hc as (r1 & r2 & f & Hb & _ & _ & Hc).
    destruct (before_in _ _ _ Hb) as (Hi1 & Hi2).
    assert (W1 := Hw r1 Hi1). assert (W2 := Hw r2 Hi2).
    apply conflict_of_in in Hc. destruct Hc as (_ & ->). simpl.
    rewrite equal_frequency_overlap by assumption.
    unfold Rmin. destruct (Rle_dec _ _); assumption.
Qed.

Lemma conflicts_of_valid_widths_witness :
  In {| conflict_device1 :=
          {| ref_id := Some "a"%string; ref_name := Some "A"%string;
             ref_site_id := Some "s1"%string |};
        conflict_device2 :=
          {| ref_id := Some "c"%string; ref_name := Some "C"%string;
             ref_site_id := Some "s1"%string |};
        conflict_frequency := 5180;
        conflict_overlap := 20 |}
     (get_frequency_conflicts same_site_rows).
Proof.
  assert (Hw : forall r, In r same_site_rows -> 0 <= row_width r).
  { intros r [<- | [<- | [<- | []]]]; unfold row_width; cbn;
      rewrite (proj2 (eqb_false_iff _ 0)); lra. }
  assert (Hb : before same_site_rows (conflict_row "a" "A" "s1" 5180 40)
                 (conflict_row "c" "C" "s1" 5180 20)).
  { exists [], [conflict_row "b" "B" "s2" 5185 40], []. reflexivity. }
  assert (Hf : 5180 <> 0) by lra.
  assert (H := proj1 (conflicts_of_valid_widths same_site_rows Hw)
                 (conflict_row "a" "A" "s1" 5180 40)
                 (conflict_row "c" "C" "s1" 5180 20) 5180
                 Hb eq_refl eq_refl Hf).
  assert (E : Rmin (row_width (conflict_row "a" "A" "s1" 5180 40))
                (row_width (conflict_row "c" "C" "s1" 5180 20)) = 20).
  { unfold row_width, conflict_row. cbn [row_channel_width].
    rewrite !or_default_kept by lra. apply Rmin_eval. lra. }
  rewrite E in H. exact H.
Defined.
